(** * Habit tracker: the habit lifecycle and decoration-progression engine

    A shallow embedding of [src/models.py] (classes [Decoration] and
    [Habit], and the analysis of class [Butler]), of [analytics.py] (class
    [Analytics]), of [utils.py] ([get_day_with_suffix]), of
    [src/conversion.py] (class [Conversion]) and, from [src/__main__.py],
    of the start-up fail sweep, of saving and loading, of [filter_items],
    of [decor_check] and of the functions of the menus that check in,
    create, edit and delete habits, followed by the theorems that settle
    the claims of the specification and by further properties of the code.

    Conventions of the embedding.
    - [datetime.now()] is an argument [now] of every operation that reads
      the clock; a call of [random.choice] has its draw as an argument.
    - A Python object that is mutated in place is a record that is passed
      in and returned.  Where one habit is looked at, it owns its
      decoration record; where the two global lists are (module
      [Session]), a habit holds a reference to its decoration object.
    - Console output ([wrapped_message]) is an event trace; the logger, the
      plain [print] and the blocking prompt [type_ok] are not modelled.  A
      prompt that reads an answer takes the lines typed as an argument, and
      a prompt for a number or a name takes what it returns.
    - An exception is an outcome of its own, which keeps the state reached
      when it was raised.
    - The files are represented by the JSON documents that they hold. *)

From Stdlib Require Import ZArith QArith List String Ascii Bool Lia.
From Stdlib Require Import DecimalString Permutation Sorted Qminmax Qabs Qround Lqa.
Import ListNotations.
Local Open Scope Z_scope.

(** ** Exceptions and fallible results *)

(** The exceptions that the modelled code can raise. *)
Inductive exn : Type :=
| InvalidPeriodicity   (* ValueError("Invalid periodicity value."), models.py:143 *)
| FieldOutOfRange      (* ValueError of the datetime constructor, through replace *)
| DateOverflow         (* OverflowError of datetime + timedelta *)
| NotInList.           (* ValueError of list.index *)

(** Python's class of the exception: [DateOverflow] is an [OverflowError],
    the three others are [ValueError]s (the invalid-argument error). *)
Definition is_ValueError (e : exn) : bool :=
  match e with
  | DateOverflow => false
  | InvalidPeriodicity | FieldOutOfRange | NotInList => true
  end.

Inductive res (A : Type) : Type :=
| Ok (a : A)
| Err (e : exn).
Arguments Ok {A} a.
Arguments Err {A} e.

(** ** Python's [datetime], as far as models.py uses it *)

Module Datetime.

Definition MINYEAR : Z := 1.
Definition MAXYEAR : Z := 9999.

(** A naive datetime: the seven fields of the Python object. *)
Record t : Type := mk {
  year : Z; month : Z; day : Z;
  hour : Z; minute : Z; second : Z; microsecond : Z
}.

Definition is_leap (y : Z) : bool :=
  (y mod 4 =? 0) && (negb (y mod 100 =? 0) || (y mod 400 =? 0)).

Definition days_in_month (y m : Z) : Z :=
  match m with
  | 2 => if is_leap y then 29 else 28
  | 4 | 6 | 9 | 11 => 30
  | _ => 31
  end.

(** Days of the year before the first of month [m] ([_days_before_month]). *)
Definition days_before_month (y m : Z) : Z :=
  match m with
  | 1 => 0 | 2 => 31 | 3 => 59 | 4 => 90 | 5 => 120 | 6 => 151
  | 7 => 181 | 8 => 212 | 9 => 243 | 10 => 273 | 11 => 304 | _ => 334
  end + (if (2 <? m) && is_leap y then 1 else 0).

(** Days before January 1st of year [y] ([_days_before_year]). *)
Definition days_before_year (y : Z) : Z :=
  let p := y - 1 in p * 365 + p / 4 - p / 100 + p / 400.

(** Proleptic Gregorian ordinal of the date part; 0001-01-01 is day 1. *)
Definition toordinal (d : t) : Z :=
  days_before_year (year d) + days_before_month (year d) (month d) + day d.

(** Ordinal of 9999-12-31. *)
Definition MAXORDINAL : Z := 3652059.

(** The range checks of the constructor ([_check_date_fields] and
    [_check_time_fields]). *)
Definition valid_dateb (y m d : Z) : bool :=
  (MINYEAR <=? y) && (y <=? MAXYEAR) && (1 <=? m) && (m <=? 12) &&
  (1 <=? d) && (d <=? days_in_month y m).

Definition valid_timeb (h mi s us : Z) : bool :=
  (0 <=? h) && (h <=? 23) && (0 <=? mi) && (mi <=? 59) &&
  (0 <=? s) && (s <=? 59) && (0 <=? us) && (us <=? 999999).

Definition validb (d : t) : bool :=
  valid_dateb (year d) (month d) (day d) &&
  valid_timeb (hour d) (minute d) (second d) (microsecond d).

(** Every Python datetime object satisfies [valid]. *)
Definition valid (d : t) : Prop := validb d = true.

(** [datetime(y, m, d, h, mi, s, us)]: the checked constructor. *)
Definition make (y m d h mi s us : Z) : res t :=
  if valid_dateb y m d && valid_timeb h mi s us
  then Ok (mk y m d h mi s us)
  else Err FieldOutOfRange.

(** [self.replace(year=, month=, day=, hour=, minute=, second=)]: an
    omitted argument ([None]) keeps the field; [microsecond] is never
    passed by models.py, so it is always kept. *)
Definition replace (self : t) (y m d h mi s : option Z) : res t :=
  let pick (o : option Z) (old : Z) := match o with Some v => v | None => old end in
  make (pick y (year self)) (pick m (month self)) (pick d (day self))
       (pick h (hour self)) (pick mi (minute self)) (pick s (second self))
       (microsecond self).

(** Comparison of two naive datetimes: lexicographic on the fields. *)
Definition lex (c : comparison) (k : comparison) : comparison :=
  match c with Eq => k | _ => c end.

Definition compare (a b : t) : comparison :=
  lex (year a ?= year b) (lex (month a ?= month b) (lex (day a ?= day b)
  (lex (hour a ?= hour b) (lex (minute a ?= minute b)
  (lex (second a ?= second b) (microsecond a ?= microsecond b)))))).

Definition ltb (a b : t) : bool :=
  match compare a b with Lt => true | _ => false end.
Definition leb (a b : t) : bool :=
  match compare a b with Gt => false | _ => true end.

(** The calendar day after the date of [d]; the time of day is kept. *)
Definition next_day (d : t) : t :=
  if day d <? days_in_month (year d) (month d)
  then mk (year d) (month d) (day d + 1) (hour d) (minute d) (second d) (microsecond d)
  else if month d <? 12
  then mk (year d) (month d + 1) 1 (hour d) (minute d) (second d) (microsecond d)
  else mk (year d + 1) 1 1 (hour d) (minute d) (second d) (microsecond d).

(** [self + timedelta(days=n)] for [n > 0].  CPython computes
    [date.fromordinal(self.toordinal() + n)] and raises [OverflowError]
    beyond [MAXORDINAL]; the date with that ordinal is reached here by
    [n] calendar steps (lemmas [toordinal_next_day] and [toordinal_inj]
    below). *)
Definition add_days (self : t) (n : nat) : res t :=
  if toordinal self + Z.of_nat n <=? MAXORDINAL
  then Ok (Nat.iter n next_day self)
  else Err DateOverflow.

End Datetime.

(** ** Python numbers

    [Decoration.exp] starts as an [int]; the start-up sweep subtracts the
    result of a true division ([/]), which is a [float].  A float is
    modelled by its exact rational value, and the arithmetic below is exact
    arithmetic.  This is the arithmetic of CPython for ints, and for the
    floats that arise from an int exp of magnitude up to 2^51 by check-ins
    and sweeps: multiples of 1/2, which binary64 represents, adds and
    subtracts without rounding in that range.  Outside this range CPython
    rounds ([2.0**53 + 1 == 2.0**53]) or raises [OverflowError] (an int
    beyond the range of floats), which the arithmetic below does not; the
    properties of [add] and [sub] are stated for the operands that
    [adds_exactly] and [subtracts_exactly] describe. *)

Module Number.

Inductive t : Type :=
| PyInt (n : Z)
| PyFloat (q : Q).

Definition value (x : t) : Q :=
  match x with PyInt n => inject_Z n | PyFloat q => q end.

(** [x + y] and [x - y]: an int when both are ints, a float otherwise. *)
Definition add (x y : t) : t :=
  match x, y with
  | PyInt a, PyInt b => PyInt (a + b)
  | _, _ => PyFloat (Qred (value x + value y))
  end.

Definition sub (x y : t) : t :=
  match x, y with
  | PyInt a, PyInt b => PyInt (a - b)
  | _, _ => PyFloat (Qred (value x - value y))
  end.

(** [a / b] on two ints, with [b] a positive literal: always a float. *)
Definition truediv (a : Z) (b : positive) : t := PyFloat (Qred (a # b)).

Definition leb (x y : t) : bool := Qle_bool (value x) (value y).
Definition geb (x y : t) : bool := leb y x.
Definition ltb (x y : t) : bool := negb (leb y x).

(** [max(x, y)] keeps its first argument unless the second is strictly
    greater. *)
Definition max (x y : t) : t := if ltb x y then y else x.

(** The number is a whole number (whatever its Python type). *)
Definition is_integral (x : t) : bool :=
  match x with
  | PyInt _ => true
  | PyFloat q => (Qden (Qred q) =? 1)%positive
  end.

(** The number is a Python [int]. *)
Definition is_int (x : t) : bool :=
  match x with PyInt _ => true | PyFloat _ => false end.

(** A float that is a multiple of 1/2, of magnitude at most 2^51.  Binary64
    holds such a float exactly, and also its sum with an award and its
    difference with half an award (at most 32). *)
Definition is_half (q : Q) : bool :=
  Qeq_bool (q * 2) (inject_Z (Qfloor (q * 2))) &&
  Qle_bool (Qabs q) (inject_Z (2 ^ 51)).

(** The values of exp for which [add] with an award is the [+] of
    CPython: every int, since the sum of two ints is exact, and the floats
    above. *)
Definition adds_exactly (x : t) : bool :=
  match x with
  | PyInt _ => true
  | PyFloat q => is_half q
  end.

(** The values of exp for which [sub] with half an award is the [-] of
    CPython: the ints of magnitude at most 2^51, which [int - float]
    converts to a float without rounding, and the floats above. *)
Definition subtracts_exactly (x : t) : bool :=
  match x with
  | PyInt n => Z.abs n <=? 2 ^ 51
  | PyFloat q => is_half q
  end.

End Number.

(** ** Console notifications and the monad of the embedding *)

(** What [wrapped_message] shows to the user, by call site. *)
Inductive event : Type :=
| StateUpgraded (decor new_state : string)     (* models.py:70 *)
| StateDowngraded (decor new_state : string)   (* models.py:74 *)
| EarlyCheckIn (habit : string)                (* models.py:187 *)
| NewRecord (habit : string) (longest : Z)     (* models.py:204 *)
| CheckedIn (habit : string) (streak : Z).     (* models.py:208 *)

(** The result of running a method on the state [S]: it returns a value, or
    an exception escapes, in both cases with the state reached and the
    events shown; [OutOfFuel] belongs to the model only (a loop was cut
    off by its iteration bound). *)
Inductive outcome (S A : Type) : Type :=
| Returns (a : A) (s : S) (out : list event)
| Raises (e : exn) (s : S) (out : list event)
| OutOfFuel.
Arguments Returns {S A} a s out.
Arguments Raises {S A} e s out.
Arguments OutOfFuel {S A}.

Definition M (S A : Type) : Type := S -> outcome S A.

Definition ret {S A} (a : A) : M S A := fun s => Returns a s [].

Definition bind {S A B} (m : M S A) (k : A -> M S B) : M S B :=
  fun s =>
    match m s with
    | Returns a s1 o1 =>
        match k a s1 with
        | Returns b s2 o2 => Returns b s2 (o1 ++ o2)
        | Raises e s2 o2 => Raises e s2 (o1 ++ o2)
        | OutOfFuel => OutOfFuel
        end
    | Raises e s1 o1 => Raises e s1 o1
    | OutOfFuel => OutOfFuel
    end.

Definition get {S} : M S S := fun s => Returns s s [].
Definition modify {S} (f : S -> S) : M S unit := fun s => Returns tt (f s) [].
Definition tell {S} (ev : event) : M S unit := fun s => Returns tt s [ev].
Definition raise {S A} (e : exn) : M S A := fun s => Raises e s [].

(** A fallible pure expression evaluated inside a method. *)
Definition lift {S A} (r : res A) : M S A :=
  match r with Ok a => ret a | Err e => raise e end.

(** Run a method of a component (the decoration of a habit) on the part
    [proj s] of the state and store the component back with [upd]. *)
Definition zoom {S T A} (proj : S -> T) (upd : T -> S -> S) (m : M T A) : M S A :=
  fun s =>
    match m (proj s) with
    | Returns a t out => Returns a (upd t s) out
    | Raises e t out => Raises e (upd t s) out
    | OutOfFuel => OutOfFuel
    end.

Declare Scope monad_scope.
Notation "x <- m ;; k" := (bind m (fun x => k))
  (at level 61, m at next level, right associativity) : monad_scope.
Notation "m ;; k" := (bind m (fun _ => k))
  (at level 61, right associativity) : monad_scope.
Local Open Scope monad_scope.

(** The state an outcome leaves behind. *)
Definition final_state {S A} (dflt : S) (o : outcome S A) : S :=
  match o with
  | Returns _ s _ | Raises _ s _ => s
  | OutOfFuel => dflt
  end.

(** ** Sort keys

    A key function as the criteria maps of models.py hold it, together
    with the [<] of the type of its values, which [sorted] uses: strings
    compare by code points (the order of their UTF-8 bytes), ints and
    floats by value, datetimes field by field. *)

Record sort_key (T : Type) : Type := by_key {
  key_type : Type;
  key_of : T -> key_type;
  key_ltb : key_type -> key_type -> bool
}.
Arguments by_key {T key_type} key_of key_ltb.
Arguments key_type {T} s.
Arguments key_of {T} s _.
Arguments key_ltb {T} s _ _.

(** ** models.py: class Decoration *)

Module Decoration.

Record t : Type := mk {
  name : string;
  room : string;
  state : string;
  exp : Number.t
}.

Definition set_state (v : string) (self : t) : t :=
  mk (name self) (room self) v (exp self).
Definition set_exp (v : Number.t) (self : t) : t :=
  mk (name self) (room self) (state self) v.

(** [exp_states = {0: "Old", 16: "Normal", 32: "Good", 64: "Great"}], in
    insertion order. *)
Definition exp_states : list (Z * string) :=
  [(0, "Old"%string); (16, "Normal"%string); (32, "Good"%string); (64, "Great"%string)].

(** [list(exp_states.values())]. *)
Definition state_names : list string := map snd exp_states.

(** [sorted(items, reverse=True)] on pairs with distinct integer keys. *)
Fixpoint insert_desc (x : Z * string) (l : list (Z * string)) : list (Z * string) :=
  match l with
  | [] => [x]
  | y :: l' => if fst y <? fst x then x :: l else y :: insert_desc x l'
  end.

Definition sorted_reverse (l : list (Z * string)) : list (Z * string) :=
  fold_right insert_desc [] l.

(** The [for ... if self.exp >= exp_threshold: ...; break] loop: the state
    of the first threshold, in the order given, that [exp] reaches. *)
Fixpoint first_reached (e : Number.t) (items : list (Z * string)) : option string :=
  match items with
  | [] => None
  | (exp_threshold, st) :: rest =>
      if Number.geb e (Number.PyInt exp_threshold) then Some st
      else first_reached e rest
  end.

(** [l.index(x)], which raises [ValueError] when [x] is absent. *)
Fixpoint index (x : string) (l : list string) : res Z :=
  match l with
  | [] => Err NotInList
  | y :: l' =>
      if String.eqb y x then Ok 0
      else match index x l' with Ok i => Ok (i + 1) | Err e => Err e end
  end.

(** [Decoration.update_state] (models.py:50-76). *)
Definition update_state : M t unit :=
  self <- get ;;
  let previous_state := state self in
  match first_reached (exp self) (sorted_reverse exp_states) with
  | Some st => modify (set_state st)
  | None => ret tt
  end ;;
  self <- get ;;
  if negb (String.eqb (state self) previous_state) then
    previous_state_index <- lift (index previous_state state_names) ;;
    new_state_index <- lift (index (state self) state_names) ;;
    if previous_state_index <? new_state_index
    then tell (StateUpgraded (name self) (state self))
    else tell (StateDowngraded (name self) (state self))
  else ret tt.

(** [Decoration.__eq__] (models.py:40-45) on two decorations: name, room
    and state are compared, exp is not. *)
Definition eqb (self other : t) : bool :=
  String.eqb (name self) (name other) && String.eqb (room self) (room other) &&
  String.eqb (state self) (state other).

(** [Decoration.decor_criteria_map] (models.py:24-29). *)
Definition decor_criteria_map : list (string * sort_key t) :=
  [("name"%string, by_key name String.ltb);
   ("room"%string, by_key room String.ltb);
   ("state"%string, by_key state String.ltb);
   ("exp"%string, by_key exp Number.ltb)].

End Decoration.

(** ** models.py: class Habit *)

Module Habit.

Record t : Type := mk {
  name : string;
  periodicity : Z;
  decoration : Decoration.t;
  next_completion_date : Datetime.t;
  fails : Z;
  streak : Z;
  longest_streak : Z
}.

Definition set_name (v : string) (self : t) : t :=
  mk v (periodicity self) (decoration self) (next_completion_date self)
     (fails self) (streak self) (longest_streak self).
Definition set_periodicity (v : Z) (self : t) : t :=
  mk (name self) v (decoration self) (next_completion_date self)
     (fails self) (streak self) (longest_streak self).
Definition set_decoration (v : Decoration.t) (self : t) : t :=
  mk (name self) (periodicity self) v (next_completion_date self)
     (fails self) (streak self) (longest_streak self).
Definition set_next_completion_date (v : Datetime.t) (self : t) : t :=
  mk (name self) (periodicity self) (decoration self) v
     (fails self) (streak self) (longest_streak self).
Definition set_fails (v : Z) (self : t) : t :=
  mk (name self) (periodicity self) (decoration self) (next_completion_date self)
     v (streak self) (longest_streak self).
Definition set_streak (v : Z) (self : t) : t :=
  mk (name self) (periodicity self) (decoration self) (next_completion_date self)
     (fails self) v (longest_streak self).
Definition set_longest_streak (v : Z) (self : t) : t :=
  mk (name self) (periodicity self) (decoration self) (next_completion_date self)
     (fails self) (streak self) v.

(** [exp_values = {1: 1, 2: 8, 3: 16, 4: 32}]. *)
Definition exp_values : list (Z * Z) := [(1, 1); (2, 8); (3, 16); (4, 32)].

(** [d.get(k, default)] on a dict given by its items. *)
Fixpoint dict_get (d : list (Z * Z)) (k : Z) (default : Z) : Z :=
  match d with
  | [] => default
  | (k', v) :: d' => if k' =? k then v else dict_get d' k default
  end.

(** [Habit.increment_completion_date] (models.py:133-143). *)
Definition increment_completion_date (self : t) (date : Datetime.t) : res Datetime.t :=
  if periodicity self =? 1 then Datetime.add_days date 1
  else if periodicity self =? 2 then Datetime.add_days date 7
  else if periodicity self =? 3 then
    Datetime.replace date
      (Some (Datetime.year date + Datetime.month date / 12))
      (Some (Datetime.month date mod 12 + 1))
      (Some (Z.min (Datetime.day date) 28)) None None None
  else if periodicity self =? 4 then
    Datetime.replace date (Some (Datetime.year date + 1)) None None None None None
  else Err InvalidPeriodicity.

(** [Habit.calculate_completion_date] (models.py:145-147). *)
Definition calculate_completion_date (now : Datetime.t) (self : t) : res Datetime.t :=
  increment_completion_date self now.

(** [next_completion_date.replace(hour=0, minute=0, second=0)] and
    [next_completion_date.replace(hour=23, minute=59, second=59)]: the
    window bounds as check_in and calculate_fails compute them. *)
Definition completion_date_start (date : Datetime.t) : res Datetime.t :=
  Datetime.replace date None None None (Some 0) (Some 0) (Some 0).
Definition completion_date_end (date : Datetime.t) : res Datetime.t :=
  Datetime.replace date None None None (Some 23) (Some 59) (Some 59).

(** The [while] loop of calculate_fails (models.py:159-162), cut off after
    [fuel] evaluations of its condition. *)
Fixpoint overdue_loop (fuel : nat) (now : Datetime.t) (fails_detected : bool) : M t bool :=
  match fuel with
  | O => fun _ => OutOfFuel
  | S fuel' =>
      self <- get ;;
      deadline <- lift (completion_date_end (next_completion_date self)) ;;
      if Datetime.ltb deadline now then
        date <- lift (increment_completion_date self (next_completion_date self)) ;;
        modify (set_next_completion_date date) ;;
        modify (fun self => set_fails (fails self + 1) self) ;;
        overdue_loop fuel' now true
      else ret fails_detected
  end.

(** [Habit.calculate_fails] (models.py:149-170). *)
Definition calculate_fails (fuel : nat) (now : Datetime.t) : M t bool :=
  fails_detected <- overdue_loop fuel now false ;;
  (if fails_detected then
     self <- get ;;
     (if longest_streak self <? streak self
      then modify (set_longest_streak (streak self))
      else ret tt) ;;
     modify (set_streak 0)
   else ret tt) ;;
  ret fails_detected.

(** [Habit.check_in] (models.py:172-216). *)
Definition check_in (now : Datetime.t) : M t bool :=
  self <- get ;;
  completion_date_start <- lift (completion_date_start (next_completion_date self)) ;;
  completion_date_end <- lift (completion_date_end (next_completion_date self)) ;;
  if Datetime.ltb now completion_date_start then
    tell (EarlyCheckIn (name self)) ;;
    ret false
  else if Datetime.leb completion_date_start now && Datetime.leb now completion_date_end then
    modify (fun self => set_streak (streak self + 1) self) ;;
    modify (fun self =>
      set_decoration
        (Decoration.set_exp
           (Number.add (Decoration.exp (decoration self))
                       (Number.PyInt (dict_get exp_values (periodicity self) 0)))
           (decoration self)) self) ;;
    zoom decoration set_decoration Decoration.update_state ;;
    self <- get ;;
    date <- lift (increment_completion_date self (next_completion_date self)) ;;
    modify (set_next_completion_date date) ;;
    self <- get ;;
    (if longest_streak self <? streak self then
       modify (set_longest_streak (streak self)) ;;
       tell (NewRecord (name self) (streak self))
     else tell (CheckedIn (name self) (streak self))) ;;
    ret true
  else ret false.

(** [Habit.reset_decoration] (models.py:218-223). *)
Definition reset_decoration : M t unit :=
  modify (fun self =>
    set_decoration (Decoration.set_exp (Number.PyInt 0) (decoration self)) self) ;;
  modify (fun self =>
    set_decoration (Decoration.set_state "Old" (decoration self)) self).

(** [Habit.__init__] (models.py:110-118).  In
    [next_completion_date or self.calculate_completion_date()] a datetime
    object is always true, so the clock is read only when no date is given.
    At that point the object under construction has its name, periodicity
    and decoration but no deadline yet; calculate_completion_date reads
    [self.periodicity] only, and the record passed to it carries [now] in
    the place of the missing deadline. *)
Definition init (now : Datetime.t) (name : string) (periodicity : Z)
    (decoration : Decoration.t) (next_completion_date : option Datetime.t)
    (fails streak longest_streak : Z) : res t :=
  match next_completion_date with
  | Some date => Ok (mk name periodicity decoration date fails streak longest_streak)
  | None =>
      match calculate_completion_date now (mk name periodicity decoration now 0 0 0) with
      | Ok date => Ok (mk name periodicity decoration date fails streak longest_streak)
      | Err e => Err e
      end
  end.

(** [Habit.habit_criteria_map] (models.py:100-108). *)
Definition habit_criteria_map : list (string * sort_key t) :=
  [("name"%string, by_key name String.ltb);
   ("periodicity"%string, by_key periodicity Z.ltb);
   ("room"%string, by_key (fun habit => Decoration.room (decoration habit)) String.ltb);
   ("next_completion_date"%string, by_key next_completion_date Datetime.ltb);
   ("fails"%string, by_key fails Z.ltb);
   ("streak"%string, by_key streak Z.ltb);
   ("l_streak"%string, by_key longest_streak Z.ltb)].

End Habit.

(** ** analytics.py *)

Module Analytics.

(** [functools.reduce(f, l)] on a non-empty list: left fold seeded with
    the first element. *)
Definition reduce {A} (f : A -> A -> A) (x : A) (l : list A) : A :=
  fold_left f l x.

(** [Analytics.get_most_failed_habit] (analytics.py:62-76). *)
Definition get_most_failed_habit (habit_objects : list Habit.t) : string :=
  match habit_objects with
  | [] => "No habits found."%string
  | first :: rest =>
      let habit_most_fails :=
        reduce (fun x y => if Habit.fails y <? Habit.fails x then x else y) first rest in
      if 0 <? Habit.fails habit_most_fails
      then Habit.name habit_most_fails
      else "No fails were found."%string
  end.

(** [Analytics.get_all_habits] (analytics.py:5-16). *)
Definition get_all_habits (habit_objects : list Habit.t) : list string :=
  map (fun habit => Habit.name habit) habit_objects.

(** [Analytics.get_habits_by_periodicity] (analytics.py:18-30). *)
Definition get_habits_by_periodicity (habit_objects : list Habit.t) (periodicity : Z)
    : list string :=
  map (fun habit => Habit.name habit)
    (filter (fun habit => Habit.periodicity habit =? periodicity) habit_objects).

(** [max(iterable, key=key)] on a non-empty iterable: an item replaces the
    running maximum only when its key is strictly greater. *)
Definition max_by_key {A} (key : A -> Z) (x : A) (l : list A) : A :=
  fold_left (fun best item => if key best <? key item then item else best) l x.

(** [Analytics.get_longest_streak] (analytics.py:32-45): a habit object, or
    [None] for an empty list. *)
Definition get_longest_streak (habit_objects : list Habit.t) : option Habit.t :=
  match habit_objects with
  | [] => None
  | first :: rest => Some (max_by_key Habit.streak first rest)
  end.

Section CaseFolding.

(** Python's [str.lower], whose Unicode case tables are not modelled. *)
Variable lower : string -> string.

(** [Analytics.get_longest_streak_for_habit] (analytics.py:47-60);
    [next((... for ... if ...), None)] is the first match, and a habit
    object is always true. *)
Definition get_longest_streak_for_habit (habit_objects : list Habit.t)
    (habit_name : string) : Z :=
  match find (fun habit => String.eqb (lower (Habit.name habit)) (lower habit_name))
          habit_objects with
  | Some habit => Habit.longest_streak habit
  | None => 0
  end.

End CaseFolding.

End Analytics.

(** ** JSON documents, as [json.load] returns them *)

Module Json.

#[warnings="-register-all"]
Inductive t : Type :=
| Null
| Bool (b : bool)
| Num (n : Number.t)
| Str (s : string)
| Arr (items : list t)
| Obj (items : list (string * t)).

(** A dict with string keys, by its items in insertion order. *)
Definition dict : Type := list (string * t).

(** The truth value of a loaded value: [None], [False], zero and the
    empty string, list and dict are false. *)
Definition truthy (v : t) : bool :=
  match v with
  | Null => false
  | Bool b => b
  | Num n => negb (Qeq_bool (Number.value n) 0)
  | Str s => negb (String.eqb s "")
  | Arr items => match items with [] => false | _ :: _ => true end
  | Obj items => match items with [] => false | _ :: _ => true end
  end.

(** [d[k]] for a key that [d] holds; [None] stands for [k not in d]. *)
Fixpoint lookup (k : string) (d : dict) : option t :=
  match d with
  | [] => None
  | (k', v) :: d' => if String.eqb k' k then Some v else lookup k d'
  end.

(** [d[k] = v]: the value of an existing key is replaced in place, a new
    key is appended. *)
Fixpoint store (k : string) (v : t) (d : dict) : dict :=
  match d with
  | [] => [(k, v)]
  | (k', v') :: d' =>
      if String.eqb k' k then (k, v) :: d' else (k', v') :: store k v d'
  end.

End Json.

(** ** conversion.py

    [json.dump] followed by [json.load] gives back the dicts, strings and
    numbers that were written, so that the files are represented by the
    documents they hold.  An object of the classes of models.py is
    embedded with the types that the classes document.  Where
    [convert_decor] or [convert_habit] returns an object that holds a
    value of another type (the constructors store what they are given),
    the outcome is [Untyped]: the call returns, and the embedding does not
    describe the object.  In the comprehensions that load the files, an
    [Untyped] item ends the embedding, which says nothing of what
    follows. *)

Module Conversion.

Inductive error : Type :=
| NameError (name : string)   (* a global name that conversion.py does not define *)
| TypeError                   (* an unexpected keyword argument; fromisoformat of a non-string *)
| KeyError (key : string)
| Raised (e : exn).           (* an exception of the Habit constructor *)

Inductive converted (A : Type) : Type :=
| Converted (a : A)   (* returns an object with fields of the documented types *)
| Fails (e : error)   (* raises *)
| Untyped.            (* returns an object that holds a value of another type *)
Arguments Converted {A} a.
Arguments Fails {A} e.
Arguments Untyped {A}.

Definition and_then {A B} (c : converted A) (k : A -> converted B) : converted B :=
  match c with
  | Converted a => k a
  | Fails e => Fails e
  | Untyped => Untyped
  end.

Definition rooms : list string :=
  ["Living Room"%string; "Bedroom"%string; "Home Office"%string].
Definition decor_names : list string :=
  ["Sofa"%string; "Armchair"%string; "Coffee Table"%string; "Rug"%string;
   "Pillow"%string].

(** [random.choice(seq)] on a sequence that is not empty, for the random
    draw [rnd]. *)
Definition random_choice {A} (rnd : nat) (seq : list A) (first : A) : A :=
  nth (rnd mod List.length seq) seq first.

(** ['%0<width>d' % n] for [0 <= n < 10 ^ width]. *)
Definition digit (n : Z) : ascii := ascii_of_N (48 + Z.to_N (n mod 10)).
Fixpoint zero_padded (width : nat) (n : Z) : string :=
  match width with
  | O => EmptyString
  | S width' => String.append (zero_padded width' (n / 10)) (String (digit n) EmptyString)
  end.

(** [datetime.isoformat()] of a naive datetime object:
    [YYYY-MM-DDTHH:MM:SS], followed by [.ffffff] when the microsecond is
    not zero. *)
Definition isoformat (d : Datetime.t) : string :=
  String.concat ""
    [zero_padded 4 (Datetime.year d); "-"%string; zero_padded 2 (Datetime.month d);
     "-"%string; zero_padded 2 (Datetime.day d); "T"%string;
     zero_padded 2 (Datetime.hour d); ":"%string; zero_padded 2 (Datetime.minute d);
     ":"%string; zero_padded 2 (Datetime.second d);
     if Datetime.microsecond d =? 0 then EmptyString
     else String.append "." (zero_padded 6 (Datetime.microsecond d))].

(** [decoration.__dict__]. *)
Definition decoration_dict (decoration : Decoration.t) : Json.dict :=
  [("name"%string, Json.Str (Decoration.name decoration));
   ("room"%string, Json.Str (Decoration.room decoration));
   ("state"%string, Json.Str (Decoration.state decoration));
   ("exp"%string, Json.Num (Decoration.exp decoration))].

(** The body of the loop of [serialize_habits] (conversion.py:25-30): the
    copy of [habit.__dict__] with the deadline in ISO format (a datetime
    object is always true) and the decoration as its [__dict__]. *)
Definition serialized (habit : Habit.t) : Json.dict :=
  [("name"%string, Json.Str (Habit.name habit));
   ("periodicity"%string, Json.Num (Number.PyInt (Habit.periodicity habit)));
   ("decoration"%string, Json.Obj (decoration_dict (Habit.decoration habit)));
   ("next_completion_date"%string,
    Json.Str (isoformat (Habit.next_completion_date habit)));
   ("fails"%string, Json.Num (Number.PyInt (Habit.fails habit)));
   ("streak"%string, Json.Num (Number.PyInt (Habit.streak habit)));
   ("longest_streak"%string, Json.Num (Number.PyInt (Habit.longest_streak habit)))].

(** [Conversion.serialize_habits] (conversion.py:12-31). *)
Definition serialize_habits (habit_objects : list Habit.t) : list Json.dict :=
  map serialized habit_objects.

(** ['k' not in data or not data['k']]. *)
Definition absent_or_false (k : string) (data : Json.dict) : bool :=
  match Json.lookup k data with
  | None => true
  | Some v => negb (Json.truthy v)
  end.

(** A constructor called with the dict as its keyword arguments raises
    [TypeError] for a key that is not one of its parameters. *)
Definition unexpected_keyword (parameters : list string) (kwargs : Json.dict) : bool :=
  existsb (fun item => negb (existsb (String.eqb (fst item)) parameters)) kwargs.

(** The values of a dict entry, where they have the documented type. *)
Definition str_of (v : option Json.t) : option string :=
  match v with Some (Json.Str s) => Some s | _ => None end.
Definition int_of (v : option Json.t) (default : option Z) : option Z :=
  match v with
  | Some (Json.Num (Number.PyInt n)) => Some n
  | Some _ => None
  | None => default
  end.
Definition num_of (v : option Json.t) : option Number.t :=
  match v with Some (Json.Num n) => Some n | _ => None end.

(** [Conversion.convert_decor] (conversion.py:85-123).  The constructor of
    Decoration stores its four arguments as they are; [corrupted_data] is
    not a name of conversion.py, so that line 121 raises [NameError]. *)
Definition convert_decor (rnd_name rnd_room : nat) (decor_data : Json.dict)
    : converted Decoration.t :=
  let corrupted_fields : list string := [] in
  let '(decor_data, corrupted_fields) :=
    if absent_or_false "name" decor_data
    then (Json.store "name" (Json.Str (random_choice rnd_name decor_names "Sofa"%string))
            decor_data,
          corrupted_fields ++ ["name"%string])
    else (decor_data, corrupted_fields) in
  let '(decor_data, corrupted_fields) :=
    if absent_or_false "room" decor_data
    then (Json.store "room" (Json.Str (random_choice rnd_room rooms "Living Room"%string))
            decor_data,
          corrupted_fields ++ ["room"%string])
    else (decor_data, corrupted_fields) in
  let '(decor_data, corrupted_fields) :=
    if absent_or_false "state" decor_data
    then (Json.store "state" (Json.Str "Old") decor_data,
          corrupted_fields ++ ["state"%string])
    else (decor_data, corrupted_fields) in
  let '(decor_data, corrupted_fields) :=
    match Json.lookup "exp" decor_data with
    | None => (Json.store "exp" (Json.Num (Number.PyInt 0)) decor_data,
               corrupted_fields ++ ["exp"%string])
    | Some _ => (decor_data, corrupted_fields)
    end in
  if unexpected_keyword ["name"; "room"; "state"; "exp"]%string decor_data
  then Fails TypeError
  else
    match corrupted_fields with
    | _ :: _ => Fails (NameError "corrupted_data")
    | [] =>
        match str_of (Json.lookup "name" decor_data),
              str_of (Json.lookup "room" decor_data),
              str_of (Json.lookup "state" decor_data),
              num_of (Json.lookup "exp" decor_data) with
        | Some name, Some room, Some state, Some exp =>
            Converted (Decoration.mk name room state exp)
        | _, _, _, _ => Untyped
        end
    end.

(** [attribute == data[k]] for a string attribute: [KeyError] when the
    key is absent; a value that is not a string differs from it. *)
Definition equals_entry (attribute : string) (k : string) (data : Json.dict)
    : converted bool :=
  match Json.lookup k data with
  | None => Fails (KeyError k)
  | Some (Json.Str s) => Converted (String.eqb attribute s)
  | Some _ => Converted false
  end.

(** [next((decor for decor in decor_objects if decor.name == data['name']
    and decor.room == data['room'] and decor.state == data['state']),
    None)] (conversion.py:68-71). *)
Fixpoint matched_decor (data : Json.dict) (decor_objects : list Decoration.t)
    : converted (option Decoration.t) :=
  match decor_objects with
  | [] => Converted None
  | decor :: rest =>
      and_then (equals_entry (Decoration.name decor) "name" data) (fun same_name =>
      and_then (if same_name then equals_entry (Decoration.room decor) "room" data
                else Converted false) (fun same_room =>
      and_then (if same_room then equals_entry (Decoration.state decor) "state" data
                else Converted false) (fun same_state =>
      if same_state then Converted (Some decor) else matched_decor data rest)))
  end.

(** A list comprehension [[f(x) for x in xs]] whose calls may raise: the
    first exception ends it, and so does, for the embedding, the first
    object that is not described.  [i] is the position of the first item. *)
Fixpoint comprehension {A B} (f : nat -> A -> converted B) (i : nat) (xs : list A)
    : converted (list B) :=
  match xs with
  | [] => Converted []
  | x :: xs' =>
      and_then (f i x) (fun y =>
      and_then (comprehension f (S i) xs') (fun ys =>
      Converted (y :: ys)))
  end.

(** The value that lines 66-76 of convert_habit store in
    [habit_data['decoration']]. *)
Inductive decoration_value : Type :=
| Typed (decoration : Decoration.t)   (* a decoration with fields of the documented types *)
| OtherTypes                          (* a decoration that holds a value of another type *)
| NoneValue.                          (* [None] *)

(** The periodicity as increment_completion_date sees it, which compares
    it with 1, 2, 3 and 4 by [==]: an int is itself, a float equals the
    int of the same value and [True] equals 1; a string, a list, a dict,
    [None] and a float that is no whole number equal none of the four,
    as 0 does. *)
Definition as_compared (v : option Json.t) : Z :=
  match v with
  | Some (Json.Bool true) => 1
  | Some (Json.Num (Number.PyInt n)) => n
  | Some (Json.Num (Number.PyFloat q)) =>
      if (Qden (Qred q) =? 1)%positive then Qnum (Qred q) else 0
  | _ => 0
  end.

(** Lines 78-83 of convert_habit.  The constructor of Habit is called
    with the dict as keyword arguments, of which [next_completion_date]
    and [decoration] are the values that lines 46-76 stored.  It stores
    its arguments as they are, of whatever type, and reads the
    periodicity only when it has to compute a missing deadline.
    [corrupted_data] is not a name of conversion.py (line 81). *)
Definition construct (now : Datetime.t) (habit_data : Json.dict)
    (next_completion_date : option Datetime.t) (decoration : decoration_value)
    (corrupted_fields : list string) : converted Habit.t :=
  if unexpected_keyword
       ["name"; "periodicity"; "decoration"; "next_completion_date"; "fails";
        "streak"; "longest_streak"]%string habit_data
  then Fails TypeError
  else
    match str_of (Json.lookup "name" habit_data),
          int_of (Json.lookup "periodicity" habit_data) None,
          decoration,
          int_of (Json.lookup "fails" habit_data) (Some 0),
          int_of (Json.lookup "streak" habit_data) (Some 0),
          int_of (Json.lookup "longest_streak" habit_data) (Some 0) with
    | Some name, Some periodicity, Typed decoration,
      Some fails, Some streak, Some longest_streak =>
        match Habit.init now name periodicity decoration next_completion_date
                fails streak longest_streak with
        | Err e => Fails (Raised e)
        | Ok current_habit =>
            match corrupted_fields with
            | _ :: _ => Fails (NameError "corrupted_data")
            | [] => Converted current_habit
            end
        end
    | _, _, _, _, _, _ =>
        match
          match next_completion_date with
          | Some date => Ok date
          | None =>
              Habit.calculate_completion_date now
                (Habit.mk "" (as_compared (Json.lookup "periodicity" habit_data))
                   (Decoration.mk "" "" "" (Number.PyInt 0)) now 0 0 0)
          end
        with
        | Err e => Fails (Raised e)
        | Ok _ =>
            match corrupted_fields with
            | _ :: _ => Fails (NameError "corrupted_data")
            | [] => Untyped
            end
        end
    end.

Section Parsing.

(** [datetime.fromisoformat] on a string; [None] stands for its
    [ValueError].  The strings that it accepts besides those that
    [isoformat] writes depend on the version of Python. *)
Variable fromisoformat : string -> option Datetime.t.

(** [Conversion.convert_habit] (conversion.py:33-83), for the clock [now]
    that the constructor of Habit reads when it gets no deadline.
    [string] is not a name of conversion.py (line 58). *)
Definition convert_habit (now : Datetime.t) (rnd_decor rnd_name rnd_room : nat)
    (habit_data : Json.dict) (decor_objects : list Decoration.t)
    : converted Habit.t :=
  let corrupted_fields : list string := [] in
  (* lines 46-54 *)
  and_then
    (match Json.lookup "next_completion_date" habit_data with
     | Some v =>
         if Json.truthy v then
           match v with
           | Json.Str s => Converted (fromisoformat s)
           | _ => Fails TypeError
           end
         else Converted None
     | None => Converted None
     end) (fun next_completion_date =>
  let corrupted_fields :=
    match next_completion_date with
    | Some _ => corrupted_fields
    | None => corrupted_fields ++ ["next_completion_date"%string]
    end in
  (* lines 56-59 *)
  if absent_or_false "name" habit_data then Fails (NameError "string")
  else
  (* lines 61-64 *)
  let '(habit_data, corrupted_fields) :=
    if absent_or_false "periodicity" habit_data
    then (Json.store "periodicity" (Json.Num (Number.PyInt 1)) habit_data,
          corrupted_fields ++ ["periodicity"%string])
    else (habit_data, corrupted_fields) in
  (* lines 66-76 *)
  and_then
    (match Json.lookup "decoration" habit_data with
     | Some (Json.Obj decor_data) =>
         and_then (matched_decor decor_data decor_objects) (fun matched =>
         match matched with
         | Some decor => Converted (Typed decor, corrupted_fields)
         | None =>
             match convert_decor rnd_name rnd_room decor_data with
             | Converted decor => Converted (Typed decor, corrupted_fields)
             | Untyped => Converted (OtherTypes, corrupted_fields)
             | Fails e => Fails e
             end
         end)
     | _ =>
         Converted
           (match decor_objects with
            | [] => NoneValue
            | first :: _ => Typed (random_choice rnd_decor decor_objects first)
            end,
            corrupted_fields ++ ["decoration"%string])
     end) (fun '(decoration, corrupted_fields) =>
  (* lines 78-83 *)
  construct now habit_data next_completion_date decoration corrupted_fields)).

End Parsing.

End Conversion.

(** ** __main__.py *)

Module Main.

(** *** The fail sweep run at start-up (lines 403-416) *)

(** [for _ in range(n): body]. *)
Fixpoint for_range {S} (n : nat) (body : M S unit) : M S unit :=
  match n with
  | O => ret tt
  | Datatypes.S n' => body ;; for_range n' body
  end.

(** One round of the deduction loop (lines 414-416). *)
Definition deduct_exp : M Habit.t unit :=
  habit <- get ;;
  let deduction :=
    Number.truediv (Habit.dict_get Habit.exp_values (Habit.periodicity habit) 0) 2 in
  modify (fun habit =>
    Habit.set_decoration
      (Decoration.set_exp
         (Number.max (Number.sub (Decoration.exp (Habit.decoration habit)) deduction)
                     (Number.PyInt 0))
         (Habit.decoration habit)) habit) ;;
  zoom Habit.decoration Habit.set_decoration Decoration.update_state.

(** The body of [for habit in habit_objects] for one habit.  The clock is
    read at line 408 ([now]) and again inside calculate_fails ([now']).
    The result tells whether the habit was appended to [failed_habits]. *)
Definition sweep_habit (fuel : nat) (now now' : Datetime.t) : M Habit.t bool :=
  habit <- get ;;
  let original_fails := Habit.fails habit in
  completion_date_end <- lift (Habit.completion_date_end (Habit.next_completion_date habit)) ;;
  if Datetime.ltb completion_date_end now then
    fails_detected <- Habit.calculate_fails fuel now' ;;
    habit <- get ;;
    if fails_detected && (original_fails <? Habit.fails habit) then
      for_range (Z.to_nat (Habit.fails habit - original_fails)) deduct_exp ;;
      ret true
    else ret false
  else ret false.

(** *** Sorting and filtering (lines 63-70) *)

(** [criteria_map[criterion]]; [None] stands for
    [criterion not in criteria_map]. *)
Fixpoint lookup_criterion {T} (criterion : string) (criteria_map : list (string * sort_key T))
    : option (sort_key T) :=
  match criteria_map with
  | [] => None
  | (name, key) :: criteria_map' =>
      if String.eqb name criterion then Some key
      else lookup_criterion criterion criteria_map'
  end.

(** [sorted(items, key=key, reverse=reverse)]: a stable sort that compares
    the keys with [<] only.  An item goes after the items whose key sorts
    strictly before its own and before all others, so that items that
    compare equal keep their order, also with [reverse]. *)
Fixpoint sorted_insert {T} (key : sort_key T) (reverse : bool) (x : T) (l : list T)
    : list T :=
  match l with
  | [] => [x]
  | y :: l' =>
      if (if reverse then key_ltb key (key_of key x) (key_of key y)
          else key_ltb key (key_of key y) (key_of key x))
      then y :: sorted_insert key reverse x l'
      else x :: l
  end.

Definition sorted {T} (items : list T) (key : sort_key T) (reverse : bool) : list T :=
  fold_right (sorted_insert key reverse) [] items.

Inductive filtered (T : Type) : Type :=
| Sorted (items : list T)
| InvalidCriterion.          (* ValueError("Invalid criterion.") *)
Arguments Sorted {T} items.
Arguments InvalidCriterion {T}.

(** [filter_items] (__main__.py:63-70). *)
Definition filter_items {T} (items : list T) (criterion : string)
    (criteria_map : list (string * sort_key T)) : filtered T :=
  match lookup_criterion criterion criteria_map with
  | None => InvalidCriterion
  | Some key =>
      let reverse :=
        existsb (String.eqb criterion) ["fails"; "streak"; "l_streak"; "exp"]%string in
      Sorted (sorted items key reverse)
  end.

(** *** Linking a decoration (lines 182-198) *)

(** What a prompt that repeats until the answer is valid leads to.  The
    answers are the lines typed, as [custom_input] hands them on: stripped
    and in lower case. *)
Inductive prompted (A : Type) : Type :=
| Answered (a : A)
| ToMainMenu     (* the line x: custom_input runs main_menu(), which is left through exit() only *)
| EndOfInput.    (* no line is left: input() raises EOFError *)
Arguments Answered {A} a.
Arguments ToMainMenu {A}.
Arguments EndOfInput {A}.

(** The [while True] loop of decor_check (lines 188-197); the result is
    [proceed == 'yes']. *)
Fixpoint ask_yes_no (answers : list string) : prompted bool :=
  match answers with
  | [] => EndOfInput
  | proceed :: answers' =>
      if String.eqb proceed "x" then ToMainMenu
      else if String.eqb proceed "yes" || String.eqb proceed "no"
      then Answered (String.eqb proceed "yes")
      else ask_yes_no answers'
  end.

(** [del l[i]]. *)
Fixpoint remove_at {A} (i : nat) (l : list A) : list A :=
  match l, i with
  | [], _ => []
  | _ :: l', O => l'
  | x :: l', S i' => x :: remove_at i' l'
  end.

(** The [for] loop of decor_check over the habits from position [i] on.
    A habit object has no [__eq__]: [habit != current_habit] compares
    identities, and [habit_objects.remove(habit)] removes that very object.
    The objects of the list are distinct, so that an object is identified
    by its position; [current_habit] is the position of the habit that is
    edited, or [None].  [decoration_of habit] is [habit.decoration]. *)
Fixpoint decor_check_from {H} (decoration_of : H -> Decoration.t)
    (decoration : Decoration.t) (current_habit : option nat)
    (answers : list string) (habit_objects : list H) (i : nat)
    (rest : list H) : prompted (bool * list H) :=
  match rest with
  | [] => Answered (true, habit_objects)
  | habit :: rest' =>
      if Decoration.eqb (decoration_of habit) decoration &&
         negb (match current_habit with Some j => Nat.eqb i j | None => false end)
      then
        match ask_yes_no answers with
        | Answered proceed =>
            Answered (proceed,
                      if proceed then remove_at i habit_objects else habit_objects)
        | ToMainMenu => ToMainMenu
        | EndOfInput => EndOfInput
        end
      else decor_check_from decoration_of decoration current_habit answers
             habit_objects (S i) rest'
  end.

(** [decor_check] (__main__.py:182-198): the result and the list
    [habit_objects] as the call leaves it. *)
Definition decor_check {H} (decoration_of : H -> Decoration.t)
    (decoration : Decoration.t) (habit_objects : list H)
    (current_habit : option nat) (answers : list string)
    : prompted (bool * list H) :=
  decor_check_from decoration_of decoration current_habit answers habit_objects 0
    habit_objects.

(** *** Changing the periodicity (lines 220-225) *)

(** The branch [choice == 2] of edit_habit, for the periodicity that
    get_periodicity returns. *)
Definition edit_periodicity (now : Datetime.t) (periodicity : Z) : M Habit.t unit :=
  modify (Habit.set_periodicity periodicity) ;;
  habit <- get ;;
  date <- lift (Habit.calculate_completion_date now habit) ;;
  modify (Habit.set_next_completion_date date) ;;
  modify (Habit.set_fails 0) ;;
  modify (Habit.set_streak 0) ;;
  modify (Habit.set_longest_streak 0).

(** *** Saving and loading (lines 25-28 and 381-382) *)

(** [saving]: the documents written to habits.json and to
    decorations.json. *)
Definition saving (decor_objects : list Decoration.t) (habit_objects : list Habit.t)
    : list Json.dict * list Json.dict :=
  (Conversion.serialize_habits habit_objects,
   map Conversion.decoration_dict decor_objects).

Section Loading.

Variable fromisoformat : string -> option Datetime.t.

(** The time that the clock shows while the habit at a position of
    habits.json is converted, and the draws of the calls of
    [random.choice] (by the line of the call in conversion.py) while the
    entry at a position of decorations.json, or of habits.json, is
    converted. *)
Variable clock : nat -> Datetime.t.
Variable rnd_decorations rnd_habits : nat -> nat -> nat.

(** The two comprehensions that load the decorations and the habits, for
    the documents of decorations.json and of habits.json. *)
Definition load (decorations habits : list Json.dict)
    : Conversion.converted (list Decoration.t * list Habit.t) :=
  Conversion.and_then
    (Conversion.comprehension
       (fun i decor =>
          Conversion.convert_decor (rnd_decorations 100 i) (rnd_decorations 105 i) decor)
       0 decorations) (fun decor_objects =>
  Conversion.and_then
    (Conversion.comprehension
       (fun i habit =>
          Conversion.convert_habit fromisoformat (clock i) (rnd_habits 75 i)
            (rnd_habits 100 i) (rnd_habits 105 i) habit decor_objects)
       0 habits) (fun habit_objects =>
  Conversion.Converted (decor_objects, habit_objects))).

End Loading.

End Main.

(** ** utils.py *)

Module Utils.

(** [str(n)] of an int, as an f-string renders it: decimal digits, with a
    minus sign for a negative number. *)
Definition str (n : Z) : string := NilZero.string_of_int (Z.to_int n).

(** [get_day_with_suffix] (utils.py:22-28). *)
Definition get_day_with_suffix (day : Z) : string :=
  let suffix :=
    if (11 <=? day) && (day <=? 13) then "th"%string
    else match day mod 10 with
         | 1 => "st"%string
         | 2 => "nd"%string
         | 3 => "rd"%string
         | _ => "th"%string
         end in
  (str day ++ suffix)%string.

End Utils.

(** ** models.py: class Butler *)

Module Butler.




End Butler.

(** ** __main__.py: the menus, on the objects of the running program

    The menus work on the two global lists.  A habit object holds a
    reference to its decoration object, and what a method does to that
    object shows in decor_objects and through every other habit that
    refers to it.  The decoration objects are those of decor_objects (a
    list that is filled when the files are loaded and that gains or loses
    no element afterwards), named here by their position, and those that
    convert_habit builds for one habit alone when no decoration of the
    list equals the saved one. *)

Module Session.

Inductive reference : Type :=
| Listed (i : nat)                       (* the object decor_objects[i] *)
| Unlisted (decoration : Decoration.t).  (* an object of this habit alone *)

Record habit : Type := mk_habit {
  name : string;
  periodicity : Z;
  decoration : reference;
  next_completion_date : Datetime.t;
  fails : Z;
  streak : Z;
  longest_streak : Z
}.

Definition set_decoration (v : reference) (self : habit) : habit :=
  mk_habit (name self) (periodicity self) v (next_completion_date self)
    (fails self) (streak self) (longest_streak self).

(** The two global lists. *)
Record t : Type := mk {
  decor_objects : list Decoration.t;
  habit_objects : list habit
}.

(** What running a function of the menus leads to.  [None] is no run of
    the program: a position or a reference names no object, or a choice is
    not one that choice_check returns. *)
Definition result (A : Type) : Type := option (Main.prompted (outcome t A)).

Definition returns {A} (a : A) (w : t) (out : list event) : result A :=
  Some (Main.Answered (Returns a w out)).

(** What follows a call that returned. *)
Definition and_then {A B} (r : result A) (k : A -> t -> result B) : result B :=
  match r with
  | Some (Main.Answered (Returns a w out)) =>
      match k a w with
      | Some (Main.Answered (Returns b w' out')) => returns b w' (out ++ out')
      | Some (Main.Answered (Raises e w' out')) =>
          Some (Main.Answered (Raises e w' (out ++ out')))
      | other => other
      end
  | Some (Main.Answered (Raises e w out)) => Some (Main.Answered (Raises e w out))
  | Some (Main.Answered OutOfFuel) => Some (Main.Answered OutOfFuel)
  | Some Main.ToMainMenu => Some Main.ToMainMenu
  | Some Main.EndOfInput => Some Main.EndOfInput
  | None => None
  end.

(** The decoration object that a reference names. *)
Definition dereference (decor_objects : list Decoration.t) (r : reference)
    : option Decoration.t :=
  match r with
  | Listed i => nth_error decor_objects i
  | Unlisted decoration => Some decoration
  end.

(** The list [l] with [x] at position [i]. *)
Fixpoint replace_at {A} (i : nat) (x : A) (l : list A) : list A :=
  match l, i with
  | [], _ => []
  | _ :: l', O => x :: l'
  | y :: l', S i' => y :: replace_at i' x l'
  end.

(** A habit object as the methods of models.py see it: its fields, and
    the decoration object behind [self.decoration]. *)
Definition object (decor_objects : list Decoration.t) (h : habit) : option Habit.t :=
  match dereference decor_objects (decoration h) with
  | Some d =>
      Some (Habit.mk (name h) (periodicity h) d (next_completion_date h)
              (fails h) (streak h) (longest_streak h))
  | None => None
  end.

(** What a method leaves behind: the fields of the habit at position [k],
    and those of its decoration object, written where the reference [r] of
    the habit points.  The methods assign to fields of [self] and of
    [self.decoration], never to [self.decoration] itself. *)
Definition put (k : nat) (r : reference) (o : Habit.t) (w : t) : t :=
  let stored r :=
    mk_habit (Habit.name o) (Habit.periodicity o) r (Habit.next_completion_date o)
      (Habit.fails o) (Habit.streak o) (Habit.longest_streak o) in
  match r with
  | Listed i =>
      mk (replace_at i (Habit.decoration o) (decor_objects w))
         (replace_at k (stored (Listed i)) (habit_objects w))
  | Unlisted _ =>
      mk (decor_objects w)
         (replace_at k (stored (Unlisted (Habit.decoration o))) (habit_objects w))
  end.

(** A method of class Habit called on [habit_objects[k]]. *)
Definition call {A} (k : nat) (method : M Habit.t A) (w : t) : result A :=
  match nth_error (habit_objects w) k with
  | None => None
  | Some h =>
      match object (decor_objects w) h with
      | None => None
      | Some o =>
          Some (Main.Answered
                  match method o with
                  | Returns a o' out => Returns a (put k (decoration h) o' w) out
                  | Raises e o' out => Raises e (put k (decoration h) o' w) out
                  | OutOfFuel => OutOfFuel
                  end)
      end
  end.

(** The habits from position [k] on, each with its position and with its
    decoration object. *)
Fixpoint linked (decor_objects : list Decoration.t) (k : nat) (habits : list habit)
    : option (list (nat * habit * Decoration.t)) :=
  match habits with
  | [] => Some []
  | h :: habits' =>
      match dereference decor_objects (decoration h),
            linked decor_objects (S k) habits' with
      | Some d, Some l => Some ((k, h, d) :: l)
      | _, _ => None
      end
  end.

(** [handle_check_in] (__main__.py:261-274) with the branch
    [action == "check_in"] of view_items (lines 98-103), for the number
    [choice] that choice_check returns when it is asked. *)
Definition handle_check_in (now : Datetime.t) (choice : nat) (w : t) : result unit :=
  match habit_objects w with
  | [] => returns tt w []
  | [_] => and_then (call 0 (Habit.check_in now) w) (fun _ w => returns tt w [])
  | _ :: _ :: _ =>
      match choice with
      | O => None
      | S k => and_then (call k (Habit.check_in now) w) (fun _ w => returns tt w [])
      end
  end.

(** [create_new_habit] (__main__.py:135-160), for the number [choice]
    that choice_check returns, the lines [answers] typed at the question
    of decor_check, and the name and the periodicity that get_habit_name
    and get_periodicity return. *)
Definition create_new_habit (now : Datetime.t) (choice : nat) (answers : list string)
    (name : string) (periodicity : Z) (w : t) : result unit :=
  match choice with
  | O => None
  | S i =>
      match nth_error (decor_objects w) i, linked (decor_objects w) 0 (habit_objects w) with
      | Some decoration, Some habits =>
          match Main.decor_check snd decoration habits None answers with
          | Main.Answered (true, habits) =>
              let habit_objects := map (fun entry => snd (fst entry)) habits in
              match Habit.init now name periodicity decoration None 0 0 0 with
              | Ok new_habit =>
                  returns tt
                    (mk (replace_at i (Decoration.set_exp (Number.PyInt 0) decoration)
                           (decor_objects w))
                        (habit_objects ++
                         [mk_habit (Habit.name new_habit) (Habit.periodicity new_habit)
                            (Listed i) (Habit.next_completion_date new_habit)
                            (Habit.fails new_habit) (Habit.streak new_habit)
                            (Habit.longest_streak new_habit)]))
                    []
              | Err e =>
                  Some (Main.Answered (Raises e (mk (decor_objects w) habit_objects) []))
              end
          | Main.Answered (false, _) => returns tt w []
          | Main.ToMainMenu => Some Main.ToMainMenu
          | Main.EndOfInput => Some Main.EndOfInput
          end
      | _, _ => None
      end
  end.

(** What the user asks of edit_habit: the number typed at its menu, with
    what the prompts of that branch return. *)
Inductive change : Type :=
| NewName (name : string)                                        (* 1 *)
| NewPeriodicity (periodicity : Z)                               (* 2 *)
| NewDecoration (decoration_choice : nat) (answers : list string) (* 3 *)
| Deletion.                                                      (* 4 *)

(** Lines 233-240 of edit_habit: the decoration is chosen, checked and
    linked to the habit at position [k]. *)
Definition choose_decoration (k decoration_choice : nat) (answers : list string) (w : t)
    : result unit :=
  match decoration_choice with
  | O => None
  | S i =>
      match nth_error (decor_objects w) i, linked (decor_objects w) 0 (habit_objects w) with
      | Some decoration, Some habits =>
          match Main.decor_check snd decoration habits (Some k) answers with
          | Main.Answered (true, habits) =>
              returns tt
                (mk (replace_at i (Decoration.set_exp (Number.PyInt 0) decoration)
                       (decor_objects w))
                    (map (fun entry =>
                            if Nat.eqb (fst (fst entry)) k
                            then set_decoration (Listed i) (snd (fst entry))
                            else snd (fst entry)) habits))
                []
          | Main.Answered (false, _) => returns tt w []
          | Main.ToMainMenu => Some Main.ToMainMenu
          | Main.EndOfInput => Some Main.EndOfInput
          end
      | _, _ => None
      end
  end.

(** [edit_habit] (__main__.py:201-248) on [habit_objects[k]]. *)
Definition edit_habit (now : Datetime.t) (k : nat) (c : change) (w : t) : result unit :=
  match c with
  | NewName name => call k (modify (Habit.set_name name)) w
  | NewPeriodicity periodicity => call k (Main.edit_periodicity now periodicity) w
  | NewDecoration decoration_choice answers =>
      and_then (call k Habit.reset_decoration w) (fun _ w =>
        match decor_objects w with
        | [] => returns tt w []
        | _ :: _ => choose_decoration k decoration_choice answers w
        end)
  | Deletion =>
      and_then (call k Habit.reset_decoration w) (fun _ w =>
        returns tt (mk (decor_objects w) (Main.remove_at k (habit_objects w))) [])
  end.

(** [for habit in habit_objects[k:k+n]: habit.reset_decoration()]. *)
Fixpoint reset_decorations (n k : nat) (w : t) : result unit :=
  match n with
  | O => returns tt w []
  | S n' =>
      and_then (call k Habit.reset_decoration w) (fun _ => reset_decorations n' (S k))
  end.

(** [delete_habits] (__main__.py:251-259). *)
Definition delete_habits (w : t) : result unit :=
  and_then (reset_decorations (List.length (habit_objects w)) 0 w) (fun _ w =>
    returns tt (mk (decor_objects w) []) []).

End Session.

(** ** Notions used to state the properties *)

(** Start-of-day and end-of-day (23:59:59) of the day of [date], in the
    words of the specification: the whole second, whatever the microsecond
    field of [date]. *)
Definition start_of_day (date : Datetime.t) : Datetime.t :=
  Datetime.mk (Datetime.year date) (Datetime.month date) (Datetime.day date) 0 0 0 0.
Definition end_of_day (date : Datetime.t) : Datetime.t :=
  Datetime.mk (Datetime.year date) (Datetime.month date) (Datetime.day date) 23 59 59 0.

(** The value of [completion_date_start] and [completion_date_end] on a
    datetime object: the microsecond field of the deadline is kept. *)
Definition window_start (d : Datetime.t) : Datetime.t :=
  Datetime.mk (Datetime.year d) (Datetime.month d) (Datetime.day d) 0 0 0
    (Datetime.microsecond d).
Definition window_end (d : Datetime.t) : Datetime.t :=
  Datetime.mk (Datetime.year d) (Datetime.month d) (Datetime.day d) 23 59 59
    (Datetime.microsecond d).

(** Two datetimes have the same time of day. *)
Definition same_time (a b : Datetime.t) : Prop :=
  Datetime.hour a = Datetime.hour b /\ Datetime.minute a = Datetime.minute b /\
  Datetime.second a = Datetime.second b /\
  Datetime.microsecond a = Datetime.microsecond b.

(** The deadline reached from [date] after [k] periods of the habit. *)
Fixpoint advance (self : Habit.t) (k : nat) (date : Datetime.t) : res Datetime.t :=
  match k with
  | O => Ok date
  | S k' =>
      match Habit.increment_completion_date self date with
      | Ok d => advance self k' d
      | Err e => Err e
      end
  end.

(** The loop condition of calculate_fails for the deadline [date]:
    [now > date.replace(hour=23, minute=59, second=59)]. *)
Definition overdue (date now : Datetime.t) : bool :=
  match Habit.completion_date_end date with
  | Ok deadline => Datetime.ltb deadline now
  | Err _ => false
  end.

(** A date from which the periodicity [p] can advance within the range of
    datetime: the year is below [MAXYEAR], and a yearly step does not
    start on February 29th. *)
Definition advanceable (p : Z) (d : Datetime.t) : Prop :=
  Datetime.year d < Datetime.MAXYEAR /\
  (p = 4 -> ~ (Datetime.month d = 2 /\ Datetime.day d = 29)).

(** [date'] is one period of the periodicity [p] after [date], at the
    same time of day: the next day, the seventh next day, the day of the
    month, clamped to 28, in the next month, or the same day of the next
    year. *)
Definition one_period_after (p : Z) (date date' : Datetime.t) : Prop :=
  same_time date date' /\
  if p =? 1 then Datetime.toordinal date' = Datetime.toordinal date + 1
  else if p =? 2 then Datetime.toordinal date' = Datetime.toordinal date + 7
  else if p =? 3 then
    Datetime.year date' =
      (if Datetime.month date =? 12 then Datetime.year date + 1 else Datetime.year date) /\
    Datetime.month date' =
      (if Datetime.month date =? 12 then 1 else Datetime.month date + 1) /\
    Datetime.day date' = Z.min (Datetime.day date) 28
  else
    Datetime.year date' = Datetime.year date + 1 /\
    Datetime.month date' = Datetime.month date /\
    Datetime.day date' = Datetime.day date.

(** The invariant of the streak counters, with what makes it inductive: a
    datetime object as deadline and a non-negative longest streak. *)
Definition streak_invariant (h : Habit.t) : Prop :=
  Datetime.valid (Habit.next_completion_date h) /\
  0 <= Habit.longest_streak h /\
  Habit.streak h <= Habit.longest_streak h.

(** The award of a periodicity: [exp_values.get(periodicity, 0)]. *)
Definition award (p : Z) : Z := Habit.dict_get Habit.exp_values p 0.

(** The decoration of a habit after [exp += award] (models.py:194). *)
Definition awarded (h : Habit.t) : Decoration.t :=
  Decoration.set_exp
    (Number.add (Decoration.exp (Habit.decoration h))
       (Number.PyInt (Habit.dict_get Habit.exp_values (Habit.periodicity h) 0)))
    (Habit.decoration h).

(** The state that the loop of [update_state] selects for a decoration. *)
Definition recomputed_state (d : Decoration.t) : string :=
  match Decoration.first_reached (Decoration.exp d)
          (Decoration.sorted_reverse Decoration.exp_states) with
  | Some st => st
  | None => Decoration.state d
  end.

(** The step of the reduction in [get_most_failed_habit]. *)
Definition more_failed (x y : Habit.t) : Habit.t :=
  if Habit.fails y <? Habit.fails x then x else y.

(** Sequences of check-ins and fail sweeps. *)
Inductive operation : Type :=
| CheckIn (now : Datetime.t)
| FailSweep (fuel : nat) (now : Datetime.t).

Definition run (op : operation) : M Habit.t bool :=
  match op with
  | CheckIn now => Habit.check_in now
  | FailSweep fuel now => Habit.calculate_fails fuel now
  end.

(** [reaches h h']: a sequence of check-ins and fail sweeps, each of which
    returns, leads from [h] to [h']. *)
Inductive reaches : Habit.t -> Habit.t -> Prop :=
| reaches_refl h : reaches h h
| reaches_step h op b h1 out h2 :
    run op h = Returns b h1 out -> reaches h1 h2 -> reaches h h2.

(** *** Keys and bounds used in the proofs *)

(** The fields of a date are in range, except that the year may exceed
    [MAXYEAR] (a date computation before its range check). *)
Definition wf_fields (d : Datetime.t) : Prop :=
  1 <= Datetime.year d /\ 1 <= Datetime.month d <= 12 /\
  1 <= Datetime.day d <= Datetime.days_in_month (Datetime.year d) (Datetime.month d) /\
  0 <= Datetime.hour d <= 23 /\ 0 <= Datetime.minute d <= 59 /\
  0 <= Datetime.second d <= 59 /\ 0 <= Datetime.microsecond d <= 999999.

Definition in_ranges (d : Datetime.t) : Prop :=
  1 <= Datetime.month d <= 12 /\ 1 <= Datetime.day d <= 31 /\
  0 <= Datetime.hour d <= 23 /\ 0 <= Datetime.minute d <= 59 /\
  0 <= Datetime.second d <= 59 /\ 0 <= Datetime.microsecond d <= 999999.

(** Integer keys that order dates and times of day as the field-wise
    comparison does; [timekey] is the time of day in microseconds since
    midnight. *)
Definition datekey (d : Datetime.t) : Z :=
  (Datetime.year d * 12 + Datetime.month d) * 31 + Datetime.day d.
Definition timekey (d : Datetime.t) : Z :=
  ((Datetime.hour d * 60 + Datetime.minute d) * 60 + Datetime.second d) * 1000000
  + Datetime.microsecond d.

(** The slack that the microsecond of a deadline leaves around the
    boundaries of its day: the time of day of [now], in microseconds since
    midnight ([timekey]), is before 00:00:00 plus the microsecond of the
    deadline, or after 23:59:59 but not after 23:59:59 plus that
    microsecond. *)
Definition before_start_slack (now ncd : Datetime.t) : Prop :=
  timekey now < Datetime.microsecond ncd.
Definition after_end_slack (now ncd : Datetime.t) : Prop :=
  86399000000 < timekey now <= 86399000000 + Datetime.microsecond ncd.

(** A number of loop tests that suffices for calculate_fails to catch up
    with [now]. *)
Definition sweep_bound (now ncd : Datetime.t) : nat :=
  Z.to_nat (datekey now + 1 - datekey ncd).

(** The decoration after one round of the deduction loop for a habit of
    periodicity [p] (__main__.py:414-416), when update_state returns. *)
Definition deducted (p : Z) (d : Decoration.t) : Decoration.t :=
  let d' :=
    Decoration.set_exp
      (Number.max (Number.sub (Decoration.exp d) (Number.truediv (award p) 2))
         (Number.PyInt 0)) d in
  Decoration.set_state (recomputed_state d') d'.

(** The state of the threshold table for an amount of exp that is not
    negative. *)
Definition label (e : Number.t) : string :=
  if Number.leb (Number.PyInt 64) e then "Great"
  else if Number.leb (Number.PyInt 32) e then "Good"
  else if Number.leb (Number.PyInt 16) e then "Normal"
  else "Old".

(** The decoration that a reloaded habit is linked to: the first one of
    the list that equals the saved one, or else the saved one. *)
Definition relinked (decoration : Decoration.t) (decor_objects : list Decoration.t)
    : Decoration.t :=
  match find (fun decor => Decoration.eqb decor decoration) decor_objects with
  | Some decor => decor
  | None => decoration
  end.

(** The decorations of the list differ from one another on name, room or
    state. *)
Definition distinct_decorations (decor_objects : list Decoration.t) : Prop :=
  forall i j a b,
    nth_error decor_objects i = Some a -> nth_error decor_objects j = Some b ->
    Decoration.eqb a b = true -> i = j.

(** The habit at position [i] is linked to a decoration equal to
    [decoration] and is not the habit that is edited: the test of the loop
    of decor_check. *)
Definition conflicts {H} (decoration_of : H -> Decoration.t)
    (decoration : Decoration.t) (current_habit : option nat)
    (i : nat) (habit : H) : bool :=
  Decoration.eqb (decoration_of habit) decoration &&
  negb (match current_habit with Some j => Nat.eqb i j | None => false end).

(** [a] sorts strictly before [b]: by the [<] of the keys, or by its
    converse when the order is reversed. *)
Definition sorts_before {T} (key : sort_key T) (reverse : bool) (a b : T) : bool :=
  if reverse then key_ltb key (key_of key b) (key_of key a)
  else key_ltb key (key_of key a) (key_of key b).

(** [b] may follow [a]: it does not sort strictly before it. *)
Definition in_order {T} (key : sort_key T) (reverse : bool) (a b : T) : Prop :=
  sorts_before key reverse b a = false.

(** Neither of the keys of [a] and [b] is less than the other. *)
Definition tied {T} (key : sort_key T) (a b : T) : bool :=
  negb (key_ltb key (key_of key a) (key_of key b)) &&
  negb (key_ltb key (key_of key b) (key_of key a)).

(** The [<] of a type of keys is a strict order in which being neither
    less nor greater is transitive. *)
Definition strict_order {K} (ltb : K -> K -> bool) : Prop :=
  (forall a, ltb a a = false) /\
  (forall a b, ltb a b = true -> ltb b a = false) /\
  (forall a b c, ltb a b = false -> ltb b c = false -> ltb a c = false).

(** A three-way comparison that is a total order. *)
Definition total_comparison {K} (cmp : K -> K -> comparison) : Prop :=
  (forall a b, cmp a b = CompOpp (cmp b a)) /\
  (forall a b, cmp a b = Eq -> a = b) /\
  (forall a b c, cmp a b = Lt -> cmp b c = Lt -> cmp a c = Lt).

(** The order in which [filter_items] is to list two habits for a
    criterion: ascending for name, periodicity, room and deadline,
    descending for the three counters. *)
Definition habits_in_order (criterion : string) (a b : Habit.t) : Prop :=
  if String.eqb criterion "name" then String.leb (Habit.name a) (Habit.name b) = true
  else if String.eqb criterion "periodicity" then
    Habit.periodicity a <= Habit.periodicity b
  else if String.eqb criterion "room" then
    String.leb (Decoration.room (Habit.decoration a))
      (Decoration.room (Habit.decoration b)) = true
  else if String.eqb criterion "next_completion_date" then
    Datetime.leb (Habit.next_completion_date a) (Habit.next_completion_date b) = true
  else if String.eqb criterion "fails" then Habit.fails b <= Habit.fails a
  else if String.eqb criterion "streak" then Habit.streak b <= Habit.streak a
  else Habit.longest_streak b <= Habit.longest_streak a.

(** The same for two decorations: ascending for name, room and state,
    descending for exp. *)
Definition decorations_in_order (criterion : string) (a b : Decoration.t) : Prop :=
  if String.eqb criterion "name" then
    String.leb (Decoration.name a) (Decoration.name b) = true
  else if String.eqb criterion "room" then
    String.leb (Decoration.room a) (Decoration.room b) = true
  else if String.eqb criterion "state" then
    String.leb (Decoration.state a) (Decoration.state b) = true
  else Number.leb (Decoration.exp b) (Decoration.exp a) = true.

(** The conversion returns an object, with fields of whatever type. *)
Definition returned {A} (c : Conversion.converted A) : Prop :=
  match c with
  | Conversion.Fails _ => False
  | Conversion.Converted _ | Conversion.Untyped => True
  end.

(** *** The lists of the running program *)

(** The decoration as reset_decoration leaves it. *)
Definition reset (d : Decoration.t) : Decoration.t :=
  Decoration.mk (Decoration.name d) (Decoration.room d) "Old" (Number.PyInt 0).

(** The habit refers to the object [decor_objects[i]]. *)
Definition refers_to (i : nat) (h : Session.habit) : bool :=
  match Session.decoration h with
  | Session.Listed j => Nat.eqb i j
  | Session.Unlisted _ => false
  end.

(** The habit is linked to a decoration that equals [decoration] on
    name, room and state: what decor_check looks for. *)
Definition linked_to (decor_objects : list Decoration.t) (decoration : Decoration.t)
    (h : Session.habit) : bool :=
  match Session.dereference decor_objects (Session.decoration h) with
  | Some c => Decoration.eqb c decoration
  | None => false
  end.

(** Every reference into decor_objects names an object of the list. *)
Definition well_linked (w : Session.t) : bool :=
  forallb (fun h =>
             match Session.decoration h with
             | Session.Listed i => Nat.ltb i (List.length (Session.decor_objects w))
             | Session.Unlisted _ => true
             end) (Session.habit_objects w).

(** The state in which a run that returned, or that an exception ended,
    leaves the lists. *)
Definition leaves {A} (r : Session.result A) (w' : Session.t) : Prop :=
  match r with
  | Some (Main.Answered (Returns _ w _)) | Some (Main.Answered (Raises _ w _)) => w = w'
  | _ => False
  end.

(** What never changes in a decoration. *)
Definition name_and_room (d : Decoration.t) : string * string :=
  (Decoration.name d, Decoration.room d).

(** Each habit is linked to a decoration of the list, no two habits to
    the same one, and no two decorations of the list have the same name
    and the same room. *)
Definition exclusive (w : Session.t) : Prop :=
  Forall (fun r => exists i, r = Session.Listed i /\
                             (i < List.length (Session.decor_objects w))%nat)
    (map Session.decoration (Session.habit_objects w)) /\
  NoDup (map Session.decoration (Session.habit_objects w)) /\
  NoDup (map name_and_room (Session.decor_objects w)).

(** The method leaves the decoration of the habit with its name and in
    its room, however it ends. *)
Definition keeps_name_and_room {A} (method : M Habit.t A) : Prop :=
  forall o,
    match method o with
    | Returns _ o' _ | Raises _ o' _ =>
        name_and_room (Habit.decoration o') = name_and_room (Habit.decoration o)
    | OutOfFuel => True
    end.

(** ** Sample data (after test_habits.py) *)

Definition dt (y m d h mi s us : Z) : Datetime.t := Datetime.mk y m d h mi s us.

Definition couch : Decoration.t :=
  Decoration.mk "Couch" "Living Room" "Old" (Number.PyInt 5).

(** The habit of the end-to-end scenario of the specification: a daily
    habit created with an empty decoration, due on the given day of
    January 2024 at noon. *)
Definition scenario (exp day fails streak longest_streak : Z) : Habit.t :=
  Habit.mk "running" 1
    (Decoration.mk "Couch" "Living Room" "Old" (Number.PyInt exp))
    (dt 2024 1 day 12 0 0 0) fails streak longest_streak.

(** The habit "running" of the test suite, with periodicity [p] and
    deadline [ncd]. *)
Definition running (p : Z) (ncd : Datetime.t) : Habit.t :=
  Habit.mk "running" p couch ncd 0 4 7.

Definition plant : Decoration.t :=
  Decoration.mk "Plant" "Living Room" "Good" (Number.PyInt 16).

(** The three habits of [TestAnalytics.setUp], with the deadline [ncd]. *)
Definition test_habits (ncd : Datetime.t) : list Habit.t :=
  [Habit.mk "running" 1 couch ncd 0 4 7;
   Habit.mk "reading" 1 plant ncd 0 3 5;
   Habit.mk "washing the sheets" 2 plant ncd 0 4 4].

(** The value of a string of decimal digits. *)
Fixpoint digits_value (s : string) (acc : Z) : option Z :=
  match s with
  | EmptyString => Some acc
  | String c s' =>
      let n := Z.of_N (N_of_ascii c) - 48 in
      if (0 <=? n) && (n <=? 9) then digits_value s' (acc * 10 + n) else None
  end.

(** A parser for the two layouts that [isoformat] writes, which stands for
    [datetime.fromisoformat] in the examples. *)
Definition field_at (s : string) (i n : nat) : option Z :=
  digits_value (substring i n s) 0.
Definition separator_at (s : string) (i : nat) (c : string) : bool :=
  String.eqb (substring i 1 s) c.
Definition parse_isoformat (s : string) : option Datetime.t :=
  if separator_at s 4 "-" && separator_at s 7 "-" && separator_at s 10 "T" &&
     separator_at s 13 ":" && separator_at s 16 ":"
  then
    match field_at s 0 4, field_at s 5 2, field_at s 8 2,
          field_at s 11 2, field_at s 14 2, field_at s 17 2,
          (if (String.length s =? 19)%nat then Some 0
           else if (String.length s =? 26)%nat && separator_at s 19 "."
                then field_at s 20 6
                else None) with
    | Some y, Some m, Some d, Some h, Some mi, Some sec, Some us =>
        match Datetime.make y m d h mi sec us with
        | Ok date => Some date
        | Err _ => None
        end
    | _, _, _, _, _, _, _ => None
    end
  else None.

(** Three decorations, two of them linked to a habit. *)
Definition palace : Session.t :=
  Session.mk [couch; plant; Decoration.mk "Lamp" "Hall" "Great" (Number.PyInt 70)]
    [Session.mk_habit "running" 1 (Session.Listed 0) (dt 2024 1 10 12 0 0 0) 0 6 7;
     Session.mk_habit "reading" 1 (Session.Listed 1) (dt 2024 1 10 12 0 0 0) 0 3 5].

(** * Properties of the embedding *)

(** ** The calendar *)

Section CalendarFacts.

Import Datetime.

Lemma valid_date_spec y m d :
  valid_dateb y m d = true <->
  1 <= y <= 9999 /\ 1 <= m <= 12 /\ 1 <= d <= days_in_month y m.
Proof.
  unfold valid_dateb, MINYEAR, MAXYEAR.
  rewrite !andb_true_iff, !Z.leb_le. lia.
Qed.

Lemma valid_time_spec h mi s us :
  valid_timeb h mi s us = true <->
  0 <= h <= 23 /\ 0 <= mi <= 59 /\ 0 <= s <= 59 /\ 0 <= us <= 999999.
Proof.
  unfold valid_timeb. rewrite !andb_true_iff, !Z.leb_le. lia.
Qed.

Lemma valid_spec d :
  valid d <->
  (1 <= year d <= 9999 /\ 1 <= month d <= 12 /\
   1 <= day d <= days_in_month (year d) (month d)) /\
  (0 <= hour d <= 23 /\ 0 <= minute d <= 59 /\ 0 <= second d <= 59 /\
   0 <= microsecond d <= 999999).
Proof.
  unfold valid, validb.
  rewrite andb_true_iff, valid_date_spec, valid_time_spec. tauto.
Qed.

Lemma month_cases m :
  1 <= m <= 12 ->
  m = 1 \/ m = 2 \/ m = 3 \/ m = 4 \/ m = 5 \/ m = 6 \/
  m = 7 \/ m = 8 \/ m = 9 \/ m = 10 \/ m = 11 \/ m = 12.
Proof. lia. Qed.

Lemma days_in_month_bounds y m : 28 <= days_in_month y m <= 31.
Proof.
  unfold days_in_month.
  repeat match goal with
         | |- context [match ?p with _ => _ end] => destruct p
         | |- context [if ?b then _ else _] => destruct b
         end; lia.
Qed.

Lemma days_before_month_succ y m :
  1 <= m < 12 ->
  days_before_month y (m + 1) = days_before_month y m + days_in_month y m.
Proof.
  intros Hm.
  assert (H : 1 <= m <= 12) by lia.
  apply month_cases in H.
  repeat (destruct H as [H | H]); try lia; subst m;
    unfold days_before_month, days_in_month; simpl;
    destruct (is_leap y); reflexivity.
Qed.

Lemma is_leap_spec y :
  is_leap y = true <-> (y mod 4 = 0 /\ (y mod 100 <> 0 \/ y mod 400 = 0)).
Proof.
  unfold is_leap.
  rewrite andb_true_iff, orb_true_iff, negb_true_iff, Z.eqb_neq, !Z.eqb_eq.
  tauto.
Qed.

Lemma days_before_year_succ y :
  days_before_year (y + 1) =
  days_before_year y + 365 + (if is_leap y then 1 else 0).
Proof.
  unfold days_before_year. cbv zeta.
  replace (y + 1 - 1) with y by lia.
  destruct (is_leap y) eqn:L.
  - apply is_leap_spec in L.
    Z.to_euclidean_division_equations. lia.
  - assert (N : ~ (y mod 4 = 0 /\ (y mod 100 <> 0 \/ y mod 400 = 0))).
    { rewrite <- is_leap_spec. congruence. }
    Z.to_euclidean_division_equations. lia.
Qed.

Lemma days_before_year_mono a b :
  a <= b -> days_before_year a <= days_before_year b.
Proof.
  unfold days_before_year. cbv zeta. intros H.
  Z.to_euclidean_division_equations. lia.
Qed.

Lemma days_before_month_nonneg y m : 0 <= days_before_month y m.
Proof.
  unfold days_before_month.
  repeat match goal with
         | |- context [match ?p with _ => _ end] => destruct p
         | |- context [if ?b then _ else _] => destruct b
         end; lia.
Qed.

Lemma toordinal_next_day d :
  1 <= month d <= 12 ->
  day d <= days_in_month (year d) (month d) ->
  toordinal (next_day d) = toordinal d + 1.
Proof.
  intros Hm Hd. unfold next_day.
  destruct (Z.ltb_spec (day d) (days_in_month (year d) (month d))) as [L | L].
  - unfold toordinal; simpl. lia.
  - destruct (Z.ltb_spec (month d) 12) as [L' | L'].
    + unfold toordinal; simpl.
      rewrite days_before_month_succ by lia. lia.
    + assert (E : month d = 12) by lia.
      unfold toordinal; simpl. rewrite E in *.
      rewrite days_before_year_succ.
      unfold days_before_month, days_in_month in *; simpl in *.
      destruct (is_leap (year d)); lia.
Qed.

Lemma valid_wf_fields d : valid d <-> wf_fields d /\ year d <= 9999.
Proof. rewrite valid_spec. unfold wf_fields. lia. Qed.

Lemma next_day_wf d : wf_fields d -> wf_fields (next_day d).
Proof.
  unfold wf_fields, next_day. intros H.
  destruct (Z.ltb_spec (day d) (days_in_month (year d) (month d)));
    [| destruct (Z.ltb_spec (month d) 12)]; simpl;
    try pose proof (days_in_month_bounds (year d) (month d + 1));
    try pose proof (days_in_month_bounds (year d + 1) 1); lia.
Qed.

Lemma toordinal_year_bound d :
  wf_fields d -> toordinal d <= MAXORDINAL -> year d <= 9999.
Proof.
  unfold wf_fields, toordinal, MAXORDINAL. intros H Ho.
  destruct (Z.le_gt_cases (year d) 9999) as [L | L]; [exact L | exfalso].
  pose proof (days_before_year_mono 10000 (year d) ltac:(lia)) as Hy.
  change (days_before_year 10000) with 3652059 in Hy.
  pose proof (days_before_month_nonneg (year d) (month d)).
  lia.
Qed.

Lemma iter_next_day d n :
  wf_fields d ->
  let d' := Nat.iter n next_day d in
  wf_fields d' /\ toordinal d' = toordinal d + Z.of_nat n /\
  hour d' = hour d /\ minute d' = minute d /\ second d' = second d /\
  microsecond d' = microsecond d.
Proof.
  intros W. induction n as [| n IH]; cbv zeta in *.
  - simpl. repeat split; try apply W; lia.
  - rewrite Nat.iter_succ.
    destruct IH as (W' & O & Hh & Hm & Hs & Hu).
    split; [apply next_day_wf; exact W' |].
    split.
    + rewrite toordinal_next_day by (unfold wf_fields in W'; lia). lia.
    + unfold next_day.
      repeat match goal with
             | |- context [if ?b then _ else _] => destruct b
             end; simpl; auto.
Qed.

Lemma add_days_spec d n d' :
  valid d -> add_days d n = Ok d' ->
  valid d' /\ toordinal d' = toordinal d + Z.of_nat n /\
  hour d' = hour d /\ minute d' = minute d /\ second d' = second d /\
  microsecond d' = microsecond d.
Proof.
  intros V. unfold add_days.
  destruct (Z.leb_spec (toordinal d + Z.of_nat n) MAXORDINAL) as [L | L];
    [| discriminate].
  intros E; injection E as <-.
  apply valid_wf_fields in V. destruct V as [W _].
  destruct (iter_next_day d n W) as (W' & O & T).
  split; [| split; [exact O | exact T]].
  apply valid_wf_fields. split; [exact W' |].
  apply toordinal_year_bound; [exact W' | lia].
Qed.

Lemma wf_fields_in_ranges d : wf_fields d -> in_ranges d.
Proof.
  unfold wf_fields, in_ranges. intros H.
  pose proof (days_in_month_bounds (year d) (month d)). lia.
Qed.

Lemma valid_in_ranges d : valid d -> in_ranges d.
Proof. intros V. apply wf_fields_in_ranges, valid_wf_fields, V. Qed.

Ltac cmp_cases :=
  repeat match goal with
         | |- context [?x ?= ?y] => destruct (Z.compare_spec x y)
         end.

Lemma date_compare_key a b :
  in_ranges a -> in_ranges b ->
  lex (year a ?= year b) (lex (month a ?= month b) (day a ?= day b)) =
  (datekey a ?= datekey b).
Proof.
  unfold in_ranges, datekey. intros Ha Hb.
  cmp_cases; simpl; try reflexivity; exfalso; lia.
Qed.

Lemma time_compare_key a b :
  in_ranges a -> in_ranges b ->
  lex (hour a ?= hour b) (lex (minute a ?= minute b)
    (lex (second a ?= second b) (microsecond a ?= microsecond b))) =
  (timekey a ?= timekey b).
Proof.
  unfold in_ranges, timekey. intros Ha Hb.
  cmp_cases; simpl; try reflexivity; exfalso; lia.
Qed.

Lemma compare_keys a b :
  in_ranges a -> in_ranges b ->
  compare a b = lex (datekey a ?= datekey b) (timekey a ?= timekey b).
Proof.
  intros Ha Hb.
  rewrite <- (date_compare_key a b Ha Hb), <- (time_compare_key a b Ha Hb).
  unfold compare.
  destruct (year a ?= year b), (month a ?= month b), (day a ?= day b);
    reflexivity.
Qed.

Lemma ltb_iff a b :
  in_ranges a -> in_ranges b ->
  (ltb a b = true <->
   datekey a < datekey b \/ (datekey a = datekey b /\ timekey a < timekey b)).
Proof.
  intros Ha Hb. unfold ltb. rewrite (compare_keys a b Ha Hb).
  cmp_cases; simpl; split; intros; try discriminate; try reflexivity; lia.
Qed.

Lemma leb_iff a b :
  in_ranges a -> in_ranges b ->
  (leb a b = true <->
   datekey a < datekey b \/ (datekey a = datekey b /\ timekey a <= timekey b)).
Proof.
  intros Ha Hb. unfold leb. rewrite (compare_keys a b Ha Hb).
  cmp_cases; simpl; split; intros; try discriminate; try reflexivity; lia.
Qed.

Lemma leb_ltb a b : leb a b = negb (ltb b a).
Proof.
  unfold leb, ltb, compare.
  rewrite (Z.compare_antisym (year a)), (Z.compare_antisym (month a)),
    (Z.compare_antisym (day a)), (Z.compare_antisym (hour a)),
    (Z.compare_antisym (minute a)), (Z.compare_antisym (second a)),
    (Z.compare_antisym (microsecond a)).
  repeat match goal with
         | |- context [?x ?= ?y] => destruct (x ?= y)
         end; reflexivity.
Qed.

Lemma datekey_next_day d :
  wf_fields d -> datekey d < datekey (next_day d).
Proof.
  unfold wf_fields, datekey, next_day. intros H.
  pose proof (days_in_month_bounds (year d) (month d)).
  destruct (Z.ltb_spec (day d) (days_in_month (year d) (month d)));
    [| destruct (Z.ltb_spec (month d) 12)]; simpl; lia.
Qed.

Lemma datekey_iter_next_day d n :
  wf_fields d -> datekey d + Z.of_nat n <= datekey (Nat.iter n next_day d).
Proof.
  intros W. induction n as [| n IH].
  - simpl. lia.
  - rewrite Nat.iter_succ.
    pose proof (datekey_next_day (Nat.iter n next_day d)
                  (proj1 (iter_next_day d n W))).
    lia.
Qed.

Lemma make_spec y m d h mi s us x :
  make y m d h mi s us = Ok x -> x = mk y m d h mi s us /\ valid x.
Proof.
  unfold make.
  destruct (valid_dateb y m d && valid_timeb h mi s us) eqn:E; [| discriminate].
  intros H; injection H as <-. split; [reflexivity | exact E].
Qed.

Lemma make_valid y m d h mi s us :
  valid (mk y m d h mi s us) -> make y m d h mi s us = Ok (mk y m d h mi s us).
Proof. unfold valid, validb, make. simpl. intros ->. reflexivity. Qed.

End CalendarFacts.

(** ** The methods in direct style *)

Ltac mcbn :=
  with_strategy opaque
    [Habit.increment_completion_date Decoration.update_state Z.ltb Z.add Z.sub
       Number.add Number.sub Number.max Number.truediv Habit.dict_get
       Datetime.ltb Datetime.leb Habit.completion_date_end
       Habit.completion_date_start Z.to_nat] cbn.

Lemma completion_date_end_valid d :
  Datetime.valid d ->
  Habit.completion_date_end d =
  Ok (Datetime.mk (Datetime.year d) (Datetime.month d) (Datetime.day d) 23 59 59
        (Datetime.microsecond d)).
Proof.
  intros V. unfold Habit.completion_date_end, Datetime.replace.
  apply make_valid. apply valid_spec in V. apply valid_spec. simpl. lia.
Qed.

Lemma completion_date_start_valid d :
  Datetime.valid d ->
  Habit.completion_date_start d =
  Ok (Datetime.mk (Datetime.year d) (Datetime.month d) (Datetime.day d) 0 0 0
        (Datetime.microsecond d)).
Proof.
  intros V. unfold Habit.completion_date_start, Datetime.replace.
  apply make_valid. apply valid_spec in V. apply valid_spec. simpl. lia.
Qed.

Lemma update_state_unfold d :
  Decoration.update_state d =
  let d' := Decoration.set_state (recomputed_state d) d in
  if String.eqb (recomputed_state d) (Decoration.state d) then Returns tt d' []
  else
    match Decoration.index (Decoration.state d) Decoration.state_names with
    | Err e => Raises e d' []
    | Ok i =>
        match Decoration.index (recomputed_state d) Decoration.state_names with
        | Err e => Raises e d' []
        | Ok j =>
            Returns tt d'
              [if i <? j
               then StateUpgraded (Decoration.name d) (recomputed_state d)
               else StateDowngraded (Decoration.name d) (recomputed_state d)]
        end
    end.
Proof.
  unfold Decoration.update_state, recomputed_state.
  unfold lift, zoom, bind, get, modify, tell, raise, ret.
  destruct (Decoration.first_reached _ _) as [st |];
    cbn [Decoration.state Decoration.set_state Decoration.name app].
  - destruct (String.eqb st (Decoration.state d)); cbn [negb]; [reflexivity |].
    destruct (Decoration.index (Decoration.state d) _); cbn [app]; [| reflexivity].
    destruct (Decoration.index st _); cbn [app]; [| reflexivity].
    destruct (_ <? _); reflexivity.
  - rewrite String.eqb_refl. cbn [negb]. destruct d; reflexivity.
Qed.

Lemma update_state_final d :
  final_state d (Decoration.update_state d) =
  Decoration.set_state (recomputed_state d) d.
Proof.
  rewrite update_state_unfold. cbv zeta.
  destruct (String.eqb _ _); [reflexivity |].
  destruct (Decoration.index (Decoration.state d) _); [| reflexivity].
  destruct (Decoration.index (recomputed_state d) _); reflexivity.
Qed.

Lemma increment_periodicity h h' d :
  Habit.periodicity h = Habit.periodicity h' ->
  Habit.increment_completion_date h d = Habit.increment_completion_date h' d.
Proof. unfold Habit.increment_completion_date. intros ->. reflexivity. Qed.

Lemma check_in_unfold now h :
  Datetime.valid (Habit.next_completion_date h) ->
  Habit.check_in now h =
  let ncd := Habit.next_completion_date h in
  if Datetime.ltb now (window_start ncd) then Returns false h [EarlyCheckIn (Habit.name h)]
  else if Datetime.leb (window_start ncd) now && Datetime.leb now (window_end ncd) then
    let streak' := Habit.streak h + 1 in
    match Decoration.update_state (awarded h) with
    | Returns _ dec out =>
        match Habit.increment_completion_date h ncd with
        | Ok date =>
            if Habit.longest_streak h <? streak'
            then Returns true
                   (Habit.mk (Habit.name h) (Habit.periodicity h) dec date
                      (Habit.fails h) streak' streak')
                   (out ++ [NewRecord (Habit.name h) streak'])
            else Returns true
                   (Habit.mk (Habit.name h) (Habit.periodicity h) dec date
                      (Habit.fails h) streak' (Habit.longest_streak h))
                   (out ++ [CheckedIn (Habit.name h) streak'])
        | Err e =>
            Raises e
              (Habit.mk (Habit.name h) (Habit.periodicity h) dec ncd
                 (Habit.fails h) streak' (Habit.longest_streak h)) out
        end
    | Raises e dec out =>
        Raises e
          (Habit.mk (Habit.name h) (Habit.periodicity h) dec ncd
             (Habit.fails h) streak' (Habit.longest_streak h)) out
    | OutOfFuel => OutOfFuel
    end
  else Returns false h [].
Proof.
  intros V. unfold Habit.check_in.
  unfold bind at 1, get at 1.
  unfold bind at 1. rewrite (completion_date_start_valid _ V).
  unfold lift at 1, ret at 1.
  unfold bind at 1. rewrite (completion_date_end_valid _ V).
  unfold lift at 1, ret at 1.
  fold (window_start (Habit.next_completion_date h)).
  fold (window_end (Habit.next_completion_date h)).
  cbv zeta.
  destruct (Datetime.ltb now _); [reflexivity |].
  destruct (_ && _); [| reflexivity].
  unfold awarded. destruct h as [n p dec0 ncd f s l].
  unfold lift, zoom, bind, get, modify, tell, raise, ret.
  mcbn.
  destruct (Decoration.update_state _) as [[] dec out | e dec out |];
    [| reflexivity | reflexivity].
  mcbn.
  rewrite (increment_periodicity _ (Habit.mk n p dec0 ncd f s l)) by reflexivity.
  destruct (Habit.increment_completion_date _ _) as [date | e]; mcbn;
    [| rewrite ?app_nil_r; reflexivity].
  destruct (l <? s + 1); mcbn; rewrite ?app_nil_r; reflexivity.
Qed.

Lemma overdue_loop_step fuel now det h :
  Habit.overdue_loop (S fuel) now det h =
  match Habit.completion_date_end (Habit.next_completion_date h) with
  | Err e => Raises e h []
  | Ok deadline =>
      if Datetime.ltb deadline now then
        match Habit.increment_completion_date h (Habit.next_completion_date h) with
        | Ok date =>
            Habit.overdue_loop fuel now true
              (Habit.mk (Habit.name h) (Habit.periodicity h) (Habit.decoration h) date
                 (Habit.fails h + 1) (Habit.streak h) (Habit.longest_streak h))
        | Err e => Raises e h []
        end
      else Returns det h []
  end.
Proof.
  cbn [Habit.overdue_loop].
  unfold bind at 1, get at 1.
  unfold bind at 1.
  destruct (Habit.completion_date_end _) as [deadline | e];
    unfold lift at 1; [unfold ret at 1 | reflexivity].
  destruct (Datetime.ltb deadline now); [| reflexivity].
  unfold lift, bind, modify, raise, ret.
  destruct (Habit.increment_completion_date h _) as [date | e]; [| reflexivity].
  mcbn.
  destruct (Habit.overdue_loop fuel now true _); reflexivity.
Qed.

Lemma overdue_loop_S fuel now det h :
  Datetime.valid (Habit.next_completion_date h) ->
  Habit.overdue_loop (S fuel) now det h =
  if Datetime.ltb (window_end (Habit.next_completion_date h)) now then
    match Habit.increment_completion_date h (Habit.next_completion_date h) with
    | Ok date =>
        Habit.overdue_loop fuel now true
          (Habit.mk (Habit.name h) (Habit.periodicity h) (Habit.decoration h) date
             (Habit.fails h + 1) (Habit.streak h) (Habit.longest_streak h))
    | Err e => Raises e h []
    end
  else Returns det h [].
Proof.
  intros V. cbn [Habit.overdue_loop].
  unfold bind at 1, get at 1.
  unfold bind at 1. rewrite (completion_date_end_valid _ V).
  unfold lift at 1, ret at 1.
  fold (window_end (Habit.next_completion_date h)).
  destruct (Datetime.ltb _ now); [| reflexivity].
  unfold lift, bind, modify, raise, ret.
  destruct (Habit.increment_completion_date h _) as [date | e]; [| reflexivity].
  mcbn.
  destruct (Habit.overdue_loop fuel now true _); reflexivity.
Qed.

Lemma calculate_fails_unfold fuel now h :
  Habit.calculate_fails fuel now h =
  match Habit.overdue_loop fuel now false h with
  | Returns true h1 out =>
      Returns true
        (Habit.mk (Habit.name h1) (Habit.periodicity h1) (Habit.decoration h1)
           (Habit.next_completion_date h1) (Habit.fails h1) 0
           (if Habit.longest_streak h1 <? Habit.streak h1
            then Habit.streak h1 else Habit.longest_streak h1)) out
  | Returns false h1 out => Returns false h1 out
  | Raises e h1 out => Raises e h1 out
  | OutOfFuel => OutOfFuel
  end.
Proof.
  unfold Habit.calculate_fails.
  unfold bind at 1.
  destruct (Habit.overdue_loop fuel now false h) as [[] h1 out | e h1 out |];
    [| | reflexivity | reflexivity].
  - unfold bind, get, modify, ret. mcbn.
    destruct (Habit.longest_streak h1 <? Habit.streak h1); mcbn;
      rewrite ?app_nil_r; reflexivity.
  - unfold bind, ret. mcbn. rewrite ?app_nil_r. reflexivity.
Qed.

(** More fuel does not change a result that was reached. *)
Lemma overdue_loop_more_fuel fuel :
  forall fuel' now det h,
    (fuel <= fuel')%nat ->
    Habit.overdue_loop fuel now det h <> OutOfFuel ->
    Habit.overdue_loop fuel' now det h = Habit.overdue_loop fuel now det h.
Proof.
  induction fuel as [| fuel IH]; intros fuel' now det h L N;
    [exfalso; apply N; reflexivity |].
  destruct fuel' as [| fuel']; [lia |].
  rewrite overdue_loop_step in N. rewrite !overdue_loop_step.
  destruct (Habit.completion_date_end _) as [deadline | e]; [| reflexivity].
  destruct (Datetime.ltb deadline now); [| reflexivity].
  destruct (Habit.increment_completion_date h _) as [date | e]; [| reflexivity].
  apply IH; [lia | exact N].
Qed.

Lemma calculate_fails_more_fuel fuel fuel' now h :
  (fuel <= fuel')%nat ->
  Habit.calculate_fails fuel now h <> OutOfFuel ->
  Habit.calculate_fails fuel' now h = Habit.calculate_fails fuel now h.
Proof.
  intros L N. rewrite !calculate_fails_unfold in *.
  rewrite (overdue_loop_more_fuel fuel fuel' now false h L); [reflexivity |].
  intros E. rewrite E in N. apply N. reflexivity.
Qed.


(** ** Advancing a deadline *)

Lemma toordinal_le_year_end d :
  wf_fields d ->
  Datetime.toordinal d <= Datetime.days_before_year (Datetime.year d + 1).
Proof.
  unfold wf_fields, Datetime.toordinal. intros W.
  rewrite days_before_year_succ.
  assert (H : 1 <= Datetime.month d <= 12) by lia.
  apply month_cases in H.
  unfold Datetime.days_before_month, Datetime.days_in_month in *.
  repeat (destruct H as [H | H]); rewrite H in *; simpl in *;
    destruct (Datetime.is_leap (Datetime.year d)); lia.
Qed.

Section OrdinalFacts.

Import Datetime.

Lemma toordinal_MAXORDINAL : toordinal (mk 9999 12 31 0 0 0 0) = MAXORDINAL.
Proof. reflexivity. Qed.

Lemma days_before_next_month y m m' :
  1 <= m -> m < m' -> m' <= 12 ->
  days_before_month y m + days_in_month y m <= days_before_month y m'.
Proof.
  intros H1 H2 H3.
  assert (Hm : 1 <= m <= 12) by lia. assert (Hm' : 1 <= m' <= 12) by lia.
  apply month_cases in Hm. apply month_cases in Hm'.
  unfold days_before_month, days_in_month.
  repeat (destruct Hm as [Hm | Hm]); subst m;
    repeat (destruct Hm' as [Hm' | Hm']); subst m'; try lia;
    simpl; destruct (is_leap y); simpl; lia.
Qed.

(** The ordinal orders dates as the comparison of datetimes does. *)
Lemma toordinal_lt a b :
  wf_fields a -> wf_fields b -> datekey a < datekey b -> toordinal a < toordinal b.
Proof.
  intros Wa Wb K.
  pose proof (wf_fields_in_ranges a Wa) as Ra.
  pose proof (wf_fields_in_ranges b Wb) as Rb.
  pose proof (toordinal_le_year_end a Wa) as Ea.
  pose proof (days_before_month_nonneg (year b) (month b)) as Nb.
  unfold wf_fields in Wa, Wb. unfold in_ranges in Ra, Rb. unfold datekey in K.
  assert (C : year a < year b \/
              (year a = year b /\ month a < month b) \/
              (year a = year b /\ month a = month b /\ day a < day b)) by lia.
  destruct C as [C | [[Ey C] | (Ey & Em & C)]].
  - pose proof (days_before_year_mono (year a + 1) (year b) ltac:(lia)).
    unfold toordinal in *. lia.
  - pose proof (days_before_next_month (year a) (month a) (month b)
                  ltac:(lia) C ltac:(lia)).
    unfold toordinal. rewrite <- Ey. lia.
  - unfold toordinal. rewrite Ey, Em. lia.
Qed.

Lemma toordinal_inj a b :
  wf_fields a -> wf_fields b -> toordinal a = toordinal b ->
  year a = year b /\ month a = month b /\ day a = day b.
Proof.
  intros Wa Wb E.
  destruct (Z.lt_trichotomy (datekey a) (datekey b)) as [L | [L | L]].
  - pose proof (toordinal_lt a b Wa Wb L). lia.
  - apply wf_fields_in_ranges in Wa, Wb.
    unfold in_ranges in Wa, Wb. unfold datekey in L. lia.
  - pose proof (toordinal_lt b a Wb Wa L). lia.
Qed.

End OrdinalFacts.

(** What a successful increment guarantees, whatever the periodicity. *)
Lemma increment_later h d d' :
  Datetime.valid d ->
  Habit.increment_completion_date h d = Ok d' ->
  Datetime.valid d' /\ datekey d < datekey d' /\ same_time d d'.
Proof.
  intros V. unfold Habit.increment_completion_date.
  assert (W : wf_fields d) by (apply valid_wf_fields in V; tauto).
  assert (Add : forall n, (0 < n)%nat -> Datetime.add_days d n = Ok d' ->
            Datetime.valid d' /\ datekey d < datekey d' /\ same_time d d').
  { intros n Hn E.
    destruct (add_days_spec d n d' V E) as (V' & _ & T).
    split; [exact V' |]. split; [| unfold same_time; intuition congruence].
    unfold Datetime.add_days in E.
    destruct (_ <=? _); [| discriminate]. injection E as <-.
    pose proof (datekey_iter_next_day d n W). lia. }
  destruct (_ =? 1); [apply Add; lia |].
  destruct (_ =? 2); [apply Add; lia |].
  destruct (_ =? 3).
  { unfold Datetime.replace. intros E. apply make_spec in E.
    destruct E as [-> V']. split; [exact V' |].
    unfold same_time, datekey; simpl. split; [| tauto].
    unfold wf_fields in W.
    pose proof (days_in_month_bounds (Datetime.year d) (Datetime.month d)).
    Z.to_euclidean_division_equations. lia. }
  destruct (_ =? 4); [| discriminate].
  unfold Datetime.replace. intros E. apply make_spec in E.
  destruct E as [-> V']. split; [exact V' |].
  unfold same_time, datekey; simpl. split; [lia | tauto].
Qed.

Lemma ltb_of_keys a b :
  Datetime.valid a -> Datetime.valid b ->
  datekey a < datekey b -> Datetime.ltb a b = true.
Proof.
  intros Va Vb H. apply ltb_iff; auto using valid_in_ranges.
Qed.

Lemma datekey_year a b :
  in_ranges a -> in_ranges b -> datekey a <= datekey b ->
  Datetime.year a <= Datetime.year b.
Proof. unfold in_ranges, datekey. lia. Qed.

Lemma days_in_month_next_year y m d :
  1 <= m <= 12 -> 1 <= d <= Datetime.days_in_month y m -> ~ (m = 2 /\ d = 29) ->
  d <= Datetime.days_in_month (y + 1) m.
Proof.
  intros Hm Hd N. apply month_cases in Hm.
  unfold Datetime.days_in_month in *.
  repeat (destruct Hm as [Hm | Hm]); subst m; simpl in *;
    try lia; destruct (Datetime.is_leap y), (Datetime.is_leap (y + 1)); lia.
Qed.

Lemma increment_defined h d :
  Datetime.valid d -> 1 <= Habit.periodicity h <= 4 ->
  advanceable (Habit.periodicity h) d ->
  exists d', Habit.increment_completion_date h d = Ok d'.
Proof.
  intros V Hp [Hy Hf]. unfold Habit.increment_completion_date.
  pose proof V as V0.
  apply valid_wf_fields in V. destruct V as [W _].
  pose proof (toordinal_le_year_end d W) as Ho.
  pose proof (days_before_year_mono (Datetime.year d + 1) 9999
                ltac:(unfold Datetime.MAXYEAR in Hy; lia)) as Hm.
  change (Datetime.days_before_year 9999) with 3651694 in Hm.
  assert (Add : forall n, (n <= 7)%nat -> exists d', Datetime.add_days d n = Ok d').
  { intros n Hn. unfold Datetime.add_days, Datetime.MAXORDINAL.
    destruct (Z.leb_spec (Datetime.toordinal d + Z.of_nat n) 3652059); [eauto | lia]. }
  destruct (Z.eqb_spec (Habit.periodicity h) 1); [apply Add; lia |].
  destruct (Z.eqb_spec (Habit.periodicity h) 2); [apply Add; lia |].
  unfold wf_fields in W. unfold Datetime.MAXYEAR in Hy.
  destruct (Z.eqb_spec (Habit.periodicity h) 3).
  { eexists. unfold Datetime.replace. apply make_valid.
    apply valid_spec in V0. apply valid_spec. simpl.
    pose proof (days_in_month_bounds
      (Datetime.year d + Datetime.month d / 12) (Datetime.month d mod 12 + 1)).
    Z.to_euclidean_division_equations. lia. }
  destruct (Z.eqb_spec (Habit.periodicity h) 4); [| lia].
  eexists. unfold Datetime.replace. apply make_valid.
  apply valid_spec in V0. apply valid_spec. simpl.
  pose proof (days_in_month_next_year (Datetime.year d) (Datetime.month d)
                (Datetime.day d) ltac:(lia) ltac:(lia) (Hf e)).
  lia.
Qed.

Lemma increment_yearly h d d' :
  Habit.periodicity h = 4 ->
  Habit.increment_completion_date h d = Ok d' ->
  Datetime.month d' = Datetime.month d /\ Datetime.day d' = Datetime.day d.
Proof.
  unfold Habit.increment_completion_date. intros ->. simpl.
  unfold Datetime.replace. intros E. apply make_spec in E.
  destruct E as [-> _]. split; reflexivity.
Qed.

Lemma increment_one_period h d d' :
  Datetime.valid d -> 1 <= Habit.periodicity h <= 4 ->
  Habit.increment_completion_date h d = Ok d' ->
  one_period_after (Habit.periodicity h) d d'.
Proof.
  intros V Hp E. split; [apply (increment_later h d d' V E) |].
  pose proof V as V0. apply valid_spec in V0.
  unfold Habit.increment_completion_date in E.
  destruct (Z.eqb_spec (Habit.periodicity h) 1).
  { destruct (add_days_spec d 1 d' V E) as (_ & O & _). exact O. }
  destruct (Z.eqb_spec (Habit.periodicity h) 2).
  { destruct (add_days_spec d 7 d' V E) as (_ & O & _). exact O. }
  destruct (Z.eqb_spec (Habit.periodicity h) 3).
  { unfold Datetime.replace in E. apply make_spec in E. destruct E as [-> _].
    cbn [Datetime.year Datetime.month Datetime.day].
    destruct (Z.eqb_spec (Datetime.month d) 12) as [-> | N].
    - repeat split; reflexivity.
    - rewrite Z.div_small, Z.mod_small by lia. repeat split; lia. }
  destruct (Z.eqb_spec (Habit.periodicity h) 4); [| lia].
  unfold Datetime.replace in E. apply make_spec in E. destruct E as [-> _].
  repeat split; reflexivity.
Qed.

Lemma increment_invalid_periodicity h date :
  ~ (1 <= Habit.periodicity h <= 4) ->
  Habit.increment_completion_date h date = Err InvalidPeriodicity.
Proof.
  intros N. unfold Habit.increment_completion_date.
  repeat match goal with
         | |- context [?x =? ?y] => destruct (Z.eqb_spec x y); [lia |]
         end.
  reflexivity.
Qed.

Lemma advance_periodicity h h' k d :
  Habit.periodicity h = Habit.periodicity h' -> advance h k d = advance h' k d.
Proof.
  intros E. revert d. induction k as [| k IH]; intros d; simpl; [reflexivity |].
  rewrite (increment_periodicity h h' d E).
  destruct (Habit.increment_completion_date h' d); [apply IH | reflexivity].
Qed.

Lemma advance_later h k :
  forall d d',
    Datetime.valid d -> advance h k d = Ok d' ->
    Datetime.valid d' /\ datekey d + Z.of_nat k <= datekey d' /\ same_time d d'.
Proof.
  induction k as [| k IH]; intros d d' V A; cbn [advance] in A.
  - injection A as <-. unfold same_time. repeat split; auto; lia.
  - destruct (Habit.increment_completion_date h d) as [d1 |] eqn:E; [| discriminate].
    destruct (increment_later _ _ _ V E) as (V1 & K1 & T1).
    destruct (IH _ _ V1 A) as (V' & K & T).
    split; [exact V' |]. split; [lia |].
    unfold same_time in *. intuition congruence.
Qed.

Lemma advance_add h i j :
  forall d,
    advance h (i + j) d =
    match advance h i d with Ok di => advance h j di | Err e => Err e end.
Proof.
  induction i as [| i IH]; intros d; cbn [advance Nat.add]; [reflexivity |].
  destruct (Habit.increment_completion_date h d); [apply IH | reflexivity].
Qed.


(** ** The check-in window *)

Lemma window_end_keys d :
  datekey (window_end d) = datekey d /\
  timekey (window_end d) = 86399000000 + Datetime.microsecond d.
Proof. split; reflexivity. Qed.

Lemma window_start_keys d :
  datekey (window_start d) = datekey d /\
  timekey (window_start d) = Datetime.microsecond d.
Proof. split; reflexivity. Qed.

Lemma window_end_in_ranges d : Datetime.valid d -> in_ranges (window_end d).
Proof.
  intros V. apply valid_in_ranges in V.
  unfold in_ranges, window_end in *; cbn. lia.
Qed.

Lemma window_start_in_ranges d : Datetime.valid d -> in_ranges (window_start d).
Proof.
  intros V. apply valid_in_ranges in V.
  unfold in_ranges, window_start in *; cbn. lia.
Qed.

Lemma overdue_valid d now :
  Datetime.valid d -> overdue d now = Datetime.ltb (window_end d) now.
Proof. intros V. unfold overdue. rewrite (completion_date_end_valid d V). reflexivity. Qed.

(** The end of the window of [d] is before [now] only if the date of [d]
    is not after the date of [now]. *)
Lemma overdue_datekey d now :
  Datetime.valid d -> Datetime.valid now ->
  Datetime.ltb (window_end d) now = true -> datekey d <= datekey now.
Proof.
  intros Vd Vn H.
  apply ltb_iff in H.
  - unfold datekey, window_end in *; simpl in *. lia.
  - apply valid_in_ranges in Vd. unfold in_ranges, window_end in *; simpl. lia.
  - apply valid_in_ranges, Vn.
Qed.

Lemma not_overdue_later d d' now :
  Datetime.valid d -> Datetime.valid d' -> Datetime.valid now ->
  datekey d <= datekey d' -> same_time d d' ->
  overdue d now = false -> overdue d' now = false.
Proof.
  intros V V' Vn K T. rewrite !overdue_valid by assumption.
  intros H. apply not_true_is_false. intros H'. apply not_true_iff_false in H.
  apply H.
  apply ltb_iff in H';
    [| apply window_end_in_ranges; exact V' | apply valid_in_ranges; exact Vn].
  apply ltb_iff;
    [apply window_end_in_ranges; exact V | apply valid_in_ranges; exact Vn |].
  destruct (window_end_keys d) as [-> ->].
  destruct (window_end_keys d') as [E1 E2]. rewrite E1, E2 in H'.
  destruct T as (_ & _ & _ & T). lia.
Qed.

Lemma end_of_day_keys d :
  datekey (end_of_day d) = datekey d /\ timekey (end_of_day d) = 86399000000.
Proof. split; reflexivity. Qed.

Lemma start_of_day_keys d :
  datekey (start_of_day d) = datekey d /\ timekey (start_of_day d) = 0.
Proof. split; reflexivity. Qed.

Lemma end_of_day_in_ranges d : Datetime.valid d -> in_ranges (end_of_day d).
Proof.
  intros V. apply valid_in_ranges in V.
  unfold in_ranges, end_of_day in *; cbn. lia.
Qed.

Lemma start_of_day_in_ranges d : Datetime.valid d -> in_ranges (start_of_day d).
Proof.
  intros V. apply valid_in_ranges in V.
  unfold in_ranges, start_of_day in *; cbn. lia.
Qed.

(** Outside the slack after 23:59:59, the loop condition of calculate_fails
    is the comparison of [now] with the 23:59:59 boundary. *)
Lemma overdue_end_of_day d now :
  Datetime.valid d -> Datetime.valid now ->
  ~ (86399000000 < timekey now <= 86399000000 + Datetime.microsecond d) ->
  overdue d now = Datetime.ltb (end_of_day d) now.
Proof.
  intros V Vn S. rewrite (overdue_valid d now V).
  pose proof (valid_in_ranges _ V) as R. unfold in_ranges in R.
  apply eq_true_iff_eq.
  rewrite (ltb_iff _ _ (window_end_in_ranges d V) (valid_in_ranges _ Vn)).
  rewrite (ltb_iff _ _ (end_of_day_in_ranges d V) (valid_in_ranges _ Vn)).
  destruct (window_end_keys d) as [-> ->].
  destruct (end_of_day_keys d) as [-> ->].
  lia.
Qed.


(** ** The catch-up loop *)

Lemma overdue_loop_terminates fuel :
  forall now det h,
    Datetime.valid now -> Datetime.valid (Habit.next_completion_date h) ->
    (sweep_bound now (Habit.next_completion_date h) < fuel)%nat ->
    Habit.overdue_loop fuel now det h <> OutOfFuel.
Proof.
  induction fuel as [| fuel IH]; intros now det h Vn V B; [lia |].
  rewrite (overdue_loop_S fuel now det h V).
  destruct (Datetime.ltb _ now) eqn:G; [| discriminate].
  destruct (Habit.increment_completion_date h _) as [date | e] eqn:E;
    [| discriminate].
  destruct (increment_later _ _ _ V E) as (V' & K & _).
  pose proof (overdue_datekey _ _ V Vn G) as L.
  apply IH; [exact Vn | exact V' |].
  unfold sweep_bound in *. cbn [Habit.next_completion_date]. lia.
Qed.

Lemma overdue_loop_spec fuel :
  forall now det h,
    Datetime.valid now -> Datetime.year now < Datetime.MAXYEAR ->
    1 <= Habit.periodicity h <= 4 ->
    Datetime.valid (Habit.next_completion_date h) ->
    (Habit.periodicity h = 4 ->
     ~ (Datetime.month (Habit.next_completion_date h) = 2 /\
        Datetime.day (Habit.next_completion_date h) = 29)) ->
    (sweep_bound now (Habit.next_completion_date h) < fuel)%nat ->
    exists (k : nat) (d : Datetime.t),
      advance h k (Habit.next_completion_date h) = Ok d /\
      (forall i, (i < k)%nat ->
         exists di, advance h i (Habit.next_completion_date h) = Ok di /\
                    overdue di now = true) /\
      overdue d now = false /\
      Datetime.valid d /\
      Habit.overdue_loop fuel now det h =
      Returns (det || (0 <? k)%nat)
        (Habit.mk (Habit.name h) (Habit.periodicity h) (Habit.decoration h) d
           (Habit.fails h + Z.of_nat k) (Habit.streak h) (Habit.longest_streak h)) [].
Proof.
  induction fuel as [| fuel IH]; intros now det h Vn Yn Hp V F B; [lia |].
  rewrite (overdue_loop_S fuel now det h V).
  destruct (Datetime.ltb _ now) eqn:G.
  - pose proof (overdue_datekey _ _ V Vn G) as L.
    pose proof (datekey_year _ _ (valid_in_ranges _ V) (valid_in_ranges _ Vn) L) as Y.
    destruct (increment_defined h (Habit.next_completion_date h) V Hp) as [d1 E].
    { split; [lia | exact F]. }
    rewrite E.
    destruct (increment_later _ _ _ V E) as (V1 & K & _).
    set (h1 := Habit.mk (Habit.name h) (Habit.periodicity h) (Habit.decoration h) d1
                 (Habit.fails h + 1) (Habit.streak h) (Habit.longest_streak h)).
    destruct (IH now true h1 Vn Yn Hp V1) as (k & d & A & O & N & Vd & R).
    { intros P4. cbn [h1 Habit.next_completion_date].
      destruct (increment_yearly h _ _ P4 E) as [-> ->]. exact (F P4). }
    { unfold sweep_bound in *. cbn [h1 Habit.next_completion_date]. lia. }
    cbn [h1 Habit.next_completion_date Habit.name Habit.periodicity
         Habit.decoration Habit.fails Habit.streak Habit.longest_streak] in *.
    exists (S k), d. cbn [advance]. rewrite E.
    rewrite (advance_periodicity h h1 k d1 eq_refl).
    split; [exact A |]. split; [| split; [exact N | split; [exact Vd |]]].
    + intros [| i] Hi.
      * exists (Habit.next_completion_date h). split; [reflexivity |].
        rewrite (overdue_valid _ now V). exact G.
      * cbn [advance]. rewrite E.
        rewrite (advance_periodicity h h1 i d1 eq_refl). apply O. lia.
    + rewrite R. rewrite orb_true_r. f_equal. f_equal. lia.
  - exists O, (Habit.next_completion_date h). cbn [advance].
    split; [reflexivity |]. split; [intros i Hi; lia |].
    split; [rewrite (overdue_valid _ now V); exact G |]. split; [exact V |].
    rewrite orb_false_r. destruct h; cbn. rewrite Z.add_0_r. reflexivity.
Qed.

(** The loop changes the deadline and the fail count only. *)
Lemma overdue_loop_frame fuel :
  forall now det h b h' out,
    Datetime.valid (Habit.next_completion_date h) ->
    Habit.overdue_loop fuel now det h = Returns b h' out ->
    Habit.name h' = Habit.name h /\
    Habit.periodicity h' = Habit.periodicity h /\
    Habit.decoration h' = Habit.decoration h /\
    Habit.streak h' = Habit.streak h /\
    Habit.longest_streak h' = Habit.longest_streak h /\
    Habit.fails h <= Habit.fails h' /\
    Datetime.valid (Habit.next_completion_date h') /\
    out = [].
Proof.
  induction fuel as [| fuel IH]; intros now det h b h' out V; [discriminate |].
  rewrite (overdue_loop_S fuel now det h V).
  destruct (Datetime.ltb _ now).
  - destruct (Habit.increment_completion_date h _) as [date |] eqn:E; [| discriminate].
    destruct (increment_later _ _ _ V E) as (V1 & _).
    intros R. apply IH in R; [| exact V1].
    cbn [Habit.name Habit.periodicity Habit.decoration Habit.streak
         Habit.longest_streak Habit.fails Habit.next_completion_date] in R.
    intuition lia.
  - intros R. injection R as _ <- <-. intuition lia.
Qed.

(** When the loop returns, the deadline it leaves is not overdue. *)
Lemma overdue_loop_caught_up fuel :
  forall now det h b h' out,
    Datetime.valid (Habit.next_completion_date h) ->
    Habit.overdue_loop fuel now det h = Returns b h' out ->
    Datetime.ltb (window_end (Habit.next_completion_date h')) now = false.
Proof.
  induction fuel as [| fuel IH]; intros now det h b h' out V; [discriminate |].
  rewrite (overdue_loop_S fuel now det h V).
  destruct (Datetime.ltb _ now) eqn:G.
  - destruct (Habit.increment_completion_date h _) as [date |] eqn:E; [| discriminate].
    destruct (increment_later _ _ _ V E) as (V1 & _).
    intros R. eapply IH; [| exact R]. exact V1.
  - intros R. injection R as _ <- _. exact G.
Qed.

(** The sweep in terms of the loop condition of the code: the deadlines
    after 0, ..., k-1 periods are overdue, none from the k-th on is, and
    the habit is updated accordingly. *)
Lemma calculate_fails_catches_up h now :
  Datetime.valid now ->
  Datetime.valid (Habit.next_completion_date h) ->
  1 <= Habit.periodicity h <= 4 ->
  Datetime.year now < Datetime.MAXYEAR ->
  (Habit.periodicity h = 4 ->
   ~ (Datetime.month (Habit.next_completion_date h) = 2 /\
      Datetime.day (Habit.next_completion_date h) = 29)) ->
  exists (k : nat) (d : Datetime.t) (fuel0 : nat),
    advance h k (Habit.next_completion_date h) = Ok d /\
    (forall i, (i < k)%nat ->
       exists di, advance h i (Habit.next_completion_date h) = Ok di /\
                  overdue di now = true) /\
    (forall j dj, (k <= j)%nat ->
       advance h j (Habit.next_completion_date h) = Ok dj -> overdue dj now = false) /\
    forall fuel, (fuel0 <= fuel)%nat ->
      Habit.calculate_fails fuel now h =
      Returns (0 <? k)%nat
        (Habit.mk (Habit.name h) (Habit.periodicity h) (Habit.decoration h) d
           (Habit.fails h + Z.of_nat k)
           (if (0 <? k)%nat then 0 else Habit.streak h)
           (if (0 <? k)%nat
            then Z.max (Habit.longest_streak h) (Habit.streak h)
            else Habit.longest_streak h)) [].
Proof.
  intros Vn V Hp Yn F.
  set (fuel0 := S (sweep_bound now (Habit.next_completion_date h))).
  destruct (overdue_loop_spec fuel0 now false h Vn Yn Hp V F ltac:(unfold fuel0; lia))
    as (k & d & A & O & N & Vd & _).
  exists k, d, fuel0.
  split; [exact A |]. split; [exact O |]. split.
  - intros j dj Hj Aj.
    replace j with (k + (j - k))%nat in Aj by lia.
    rewrite advance_add, A in Aj.
    destruct (advance_later _ _ _ _ Vd Aj) as (Vj & Kj & Tj).
    apply (not_overdue_later d dj now); auto; lia.
  - intros fuel Hf.
    destruct (overdue_loop_spec fuel now false h Vn Yn Hp V F ltac:(unfold fuel0 in Hf; lia))
      as (k' & d' & A' & O' & N' & _ & R).
    assert (k' = k).
    { destruct (Nat.lt_trichotomy k' k) as [L | [L | L]]; [exfalso | exact L | exfalso].
      - destruct (O k' L) as (di & Ai & Oi). congruence.
      - destruct (O' k L) as (di & Ai & Oi). congruence. }
    subst k'. assert (d' = d) by congruence. subst d'.
    rewrite calculate_fails_unfold, R. cbn [orb].
    destruct (0 <? k)%nat; [| reflexivity].
    cbn [Habit.name Habit.periodicity Habit.decoration Habit.next_completion_date
         Habit.fails Habit.streak Habit.longest_streak].
    f_equal. f_equal.
    destruct (Z.ltb_spec (Habit.longest_streak h) (Habit.streak h)); lia.
Qed.


(** ** Decoration states *)

Lemma index_In x l : In x l -> exists i, Decoration.index x l = Ok i.
Proof.
  induction l as [| y l IH]; intros H; [destruct H |].
  cbn [Decoration.index].
  destruct (String.eqb_spec y x) as [E | N]; [eauto |].
  destruct H as [H | H]; [contradiction |].
  destruct (IH H) as [i ->]. eauto.
Qed.

Lemma first_reached_In e items st :
  Decoration.first_reached e items = Some st -> In st (map snd items).
Proof.
  induction items as [| [thr s] items IH]; cbn [Decoration.first_reached map snd];
    [discriminate |].
  destruct (Number.geb e _); intros H.
  - injection H as <-. left. reflexivity.
  - right. apply IH, H.
Qed.

Lemma recomputed_state_In d :
  In (Decoration.state d) Decoration.state_names ->
  In (recomputed_state d) Decoration.state_names.
Proof.
  intros H. unfold recomputed_state.
  destruct (Decoration.first_reached _ _) as [st |] eqn:E; [| exact H].
  apply first_reached_In in E. cbn in E. cbn. tauto.
Qed.

(** With a known state name, [update_state] returns. *)
Lemma update_state_returns d :
  In (Decoration.state d) Decoration.state_names ->
  exists out,
    Decoration.update_state d =
    Returns tt (Decoration.set_state (recomputed_state d) d) out.
Proof.
  intros H. rewrite update_state_unfold. cbv zeta.
  destruct (String.eqb _ _); [eauto |].
  destruct (index_In _ _ H) as [i ->].
  destruct (index_In _ _ (recomputed_state_In d H)) as [j ->].
  eauto.
Qed.

Lemma number_leb_trans x y z :
  Number.leb x y = true -> Number.leb y z = true -> Number.leb x z = true.
Proof.
  unfold Number.leb. rewrite !Qle_bool_iff. apply Qle_trans.
Qed.

(** The loop of [update_state] over the sorted table, test by test. *)
Lemma recomputed_state_cases d :
  recomputed_state d =
  let e := Decoration.exp d in
  if Number.leb (Number.PyInt 64) e then "Great"%string
  else if Number.leb (Number.PyInt 32) e then "Good"%string
  else if Number.leb (Number.PyInt 16) e then "Normal"%string
  else if Number.leb (Number.PyInt 0) e then "Old"%string
  else Decoration.state d.
Proof.
  unfold recomputed_state.
  change (Decoration.sorted_reverse Decoration.exp_states)
    with [(64, "Great"%string); (32, "Good"%string); (16, "Normal"%string);
          (0, "Old"%string)].
  cbn [Decoration.first_reached]. unfold Number.geb. cbv zeta.
  repeat match goal with
         | |- context [Number.leb ?a ?b] => destruct (Number.leb a b)
         end; reflexivity.
Qed.

Lemma max_zero_nonneg x :
  Number.leb (Number.PyInt 0) (Number.max x (Number.PyInt 0)) = true.
Proof.
  unfold Number.max, Number.ltb.
  destruct (Number.leb (Number.PyInt 0) x) eqn:E; cbn [negb]; [exact E | reflexivity].
Qed.


(** ** Exact arithmetic on exp *)

Lemma award_nonneg p : 0 <= award p.
Proof.
  unfold award, Habit.exp_values. cbn [Habit.dict_get].
  repeat match goal with
         | |- context [?x =? ?y] => destruct (x =? y)
         end; lia.
Qed.

Lemma is_half_spec q :
  Number.is_half q = true <->
  (exists m, q == m # 2)%Q /\ (Qabs q <= inject_Z (2 ^ 51))%Q.
Proof.
  unfold Number.is_half. rewrite andb_true_iff, Qeq_bool_iff, Qle_bool_iff.
  split; intros [H L]; (split; [| exact L]).
  - exists (Qfloor (q * 2)). revert H. generalize (Qfloor (q * 2)). intros f H.
    assert (E : (q == (q * 2) * (1 # 2))%Q) by field.
    rewrite E, H. unfold Qeq. cbn. lia.
  - destruct H as [m H].
    assert (E : (q * 2 == inject_Z m)%Q).
    { rewrite H. unfold Qeq. cbn. lia. }
    rewrite E at 1. rewrite E, Qfloor_Z. reflexivity.
Qed.

Lemma subtracts_exactly_spec x :
  Number.subtracts_exactly x = true <->
  (exists m, Number.value x == m # 2)%Q /\ (Qabs (Number.value x) <= inject_Z (2 ^ 51))%Q.
Proof.
  destruct x as [n | q]; cbn [Number.subtracts_exactly Number.value];
    [| apply is_half_spec].
  rewrite Z.leb_le. split.
  - intros L. split.
    + exists (2 * n). unfold Qeq. cbn [Qnum Qden inject_Z]. lia.
    + change (Qabs (inject_Z n)) with (inject_Z (Z.abs n)).
      rewrite <- Zle_Qle. exact L.
  - intros [_ L]. change (Qabs (inject_Z n)) with (inject_Z (Z.abs n)) in L.
    rewrite <- Zle_Qle in L. exact L.
Qed.

Lemma deduction_stays_exact x a :
  0 <= a ->
  Number.subtracts_exactly x = true ->
  Number.subtracts_exactly
    (Number.max (Number.sub x (Number.truediv a 2)) (Number.PyInt 0)) = true.
Proof.
  intros Ha Hx. apply subtracts_exactly_spec in Hx. destruct Hx as [[m Hm] Hb].
  unfold Number.max.
  destruct (Number.ltb _ _) eqn:L; [reflexivity |].
  assert (V : (Number.value (Number.sub x (Number.truediv a 2)) ==
               Number.value x - (a # 2))%Q).
  { unfold Number.truediv.
    destruct x as [n | q]; cbn [Number.sub Number.value];
      rewrite !Qred_correct; reflexivity. }
  unfold Number.ltb, Number.leb in L. apply negb_false_iff, Qle_bool_iff in L.
  cbn [Number.value] in L.
  apply subtracts_exactly_spec. split.
  - exists (m - a). rewrite V, Hm. unfold Qeq, Qminus, Qplus, Qopp. cbn [Qnum Qden]. lia.
  - rewrite Qabs_pos by exact L. rewrite V.
    apply Qle_trans with (Number.value x); [| apply Qle_trans with (Qabs (Number.value x));
      [apply Qle_Qabs | exact Hb]].
    assert (0 <= a # 2)%Q by (unfold Qle; cbn; lia). lra.
Qed.

(** ** Check-in outcomes *)

(** A check-in that returns failure was outside the window and changed
    nothing; a check-in outside the window returns failure. *)
Lemma check_in_failure h now h' out :
  Datetime.valid (Habit.next_completion_date h) ->
  Habit.check_in now h = Returns false h' out ->
  h' = h /\
  (Datetime.ltb now (window_start (Habit.next_completion_date h)) = true \/
   Datetime.ltb (window_end (Habit.next_completion_date h)) now = true).
Proof.
  intros V. rewrite (check_in_unfold now h V). cbv zeta.
  destruct (Datetime.ltb now _) eqn:L1.
  - intros E; injection E as <- _. auto.
  - destruct (Datetime.leb (window_start _) now) eqn:L2; cbn [andb].
    + destruct (Datetime.leb now _) eqn:L3.
      * destruct (Decoration.update_state _) as [[] ? ?| |]; [| discriminate | discriminate].
        destruct (Habit.increment_completion_date _ _); [| discriminate].
        destruct (_ <? _); discriminate.
      * intros E; injection E as <- _. split; [reflexivity | right].
        rewrite leb_ltb in L3. apply negb_false_iff in L3. exact L3.
    + rewrite leb_ltb, L1 in L2. discriminate.
Qed.

Lemma check_in_outside h now :
  Datetime.valid (Habit.next_completion_date h) ->
  Datetime.ltb now (window_start (Habit.next_completion_date h)) = true \/
  Datetime.ltb (window_end (Habit.next_completion_date h)) now = true ->
  exists out, Habit.check_in now h = Returns false h out.
Proof.
  intros V H. rewrite (check_in_unfold now h V). cbv zeta.
  destruct (Datetime.ltb now _) eqn:L1; [eauto |].
  destruct H as [H | H]; [discriminate |].
  rewrite (leb_ltb now), H. cbn [negb]. rewrite andb_false_r. eauto.
Qed.

(** The accepted check-in in terms of the bounds that the code computes. *)
Lemma check_in_within_bounds h now start_ end_ :
  let ncd := Habit.next_completion_date h in
  Datetime.valid ncd ->
  1 <= Habit.periodicity h <= 4 ->
  In (Decoration.state (Habit.decoration h)) Decoration.state_names ->
  Datetime.year ncd < Datetime.MAXYEAR ->
  (Habit.periodicity h = 4 -> ~ (Datetime.month ncd = 2 /\ Datetime.day ncd = 29)) ->
  Habit.completion_date_start ncd = Ok start_ ->
  Habit.completion_date_end ncd = Ok end_ ->
  Datetime.leb start_ now = true ->
  Datetime.leb now end_ = true ->
  exists date dec out,
    Habit.increment_completion_date h ncd = Ok date /\
    Decoration.update_state (awarded h) = Returns tt dec out /\
    dec = Decoration.mk (Decoration.name (Habit.decoration h))
            (Decoration.room (Habit.decoration h))
            (recomputed_state (awarded h))
            (Number.add (Decoration.exp (Habit.decoration h))
               (Number.PyInt (award (Habit.periodicity h)))) /\
    award (Habit.periodicity h) =
      match Habit.periodicity h with 1 => 1 | 2 => 8 | 3 => 16 | _ => 32 end /\
    Habit.check_in now h =
    Returns true
      (Habit.mk (Habit.name h) (Habit.periodicity h) dec date (Habit.fails h)
         (Habit.streak h + 1)
         (Z.max (Habit.longest_streak h) (Habit.streak h + 1)))
      (out ++ [if Habit.longest_streak h <? Habit.streak h + 1
               then NewRecord (Habit.name h) (Habit.streak h + 1)
               else CheckedIn (Habit.name h) (Habit.streak h + 1)]).
Proof.
  intros ncd V Hp Hs Hy Hf Es Ee Ls Le.
  destruct (increment_defined h ncd V Hp (conj Hy Hf)) as [date Ed].
  destruct (update_state_returns (awarded h)) as [out Eu]; [exact Hs |].
  exists date, (Decoration.set_state (recomputed_state (awarded h)) (awarded h)), out.
  split; [exact Ed |]. split; [exact Eu |]. split; [reflexivity |].
  split.
  { assert (C : Habit.periodicity h = 1 \/ Habit.periodicity h = 2 \/
                Habit.periodicity h = 3 \/ Habit.periodicity h = 4) by lia.
    destruct C as [-> | [-> | [-> | ->]]]; reflexivity. }
  rewrite (check_in_unfold now h V). cbv zeta. fold ncd.
  rewrite (completion_date_start_valid _ V) in Es. injection Es as <-.
  rewrite (completion_date_end_valid _ V) in Ee. injection Ee as <-.
  fold (window_start ncd) in Ls. fold (window_end ncd) in Le.
  assert (Lt : Datetime.ltb now (window_start ncd) = false).
  { rewrite leb_ltb in Ls. apply negb_true_iff in Ls. exact Ls. }
  rewrite Lt, Ls, Le. cbn [andb]. rewrite Eu, Ed.
  destruct (Z.ltb_spec (Habit.longest_streak h) (Habit.streak h + 1)).
  - rewrite Z.max_r by lia. reflexivity.
  - rewrite Z.max_l by lia. reflexivity.
Qed.


(** ** The reduction of get_most_failed_habit *)

Lemma reduce_more_failed l :
  forall x,
  exists pre best post,
    x :: l = pre ++ best :: post /\
    (forall h, In h pre -> Habit.fails h <= Habit.fails best) /\
    (forall h, In h post -> Habit.fails h < Habit.fails best) /\
    Habit.fails x <= Habit.fails best /\
    Analytics.reduce more_failed x l = best.
Proof.
  unfold Analytics.reduce.
  induction l as [| y l IH]; intros x.
  - exists [], x, []. cbn.
    split; [reflexivity |]. split; [intros h [] |]. split; [intros h [] |].
    split; [lia | reflexivity].
  - cbn [fold_left]. unfold more_failed at 2.
    destruct (Z.ltb_spec (Habit.fails y) (Habit.fails x)) as [L | L].
    + destruct (IH x) as (pre & best & post & E & Hpre & Hpost & Hx & R).
      destruct pre as [| x' pre].
      * cbn in E. injection E as <- <-.
        exists [], x, (y :: l). cbn.
        split; [reflexivity |]. split; [intros h [] |].
        split; [intros h [<- | Hh]; [lia | apply Hpost, Hh] |].
        split; [lia | exact R].
      * cbn in E. injection E as <- ->.
        exists (x :: y :: pre), best, post. cbn.
        split; [reflexivity |].
        split; [intros h [<- | [<- | Hh]];
                [lia | lia | apply Hpre; right; exact Hh] |].
        split; [exact Hpost |]. split; [exact Hx | exact R].
    + destruct (IH y) as (pre & best & post & E & Hpre & Hpost & Hy & R).
      exists (x :: pre), best, post. rewrite E. cbn.
      split; [reflexivity |].
      split; [intros h [<- | Hh]; [lia | apply Hpre, Hh] |].
      split; [exact Hpost |]. split; [lia | exact R].
Qed.


(** ** The streak counters *)

Lemma check_in_streak now h b h' out :
  Datetime.valid (Habit.next_completion_date h) ->
  Habit.streak h <= Habit.longest_streak h ->
  Habit.check_in now h = Returns b h' out ->
  Habit.streak h' <= Habit.longest_streak h' /\
  Habit.longest_streak h <= Habit.longest_streak h' /\
  Datetime.valid (Habit.next_completion_date h').
Proof.
  intros V I. rewrite (check_in_unfold now h V). cbv zeta.
  assert (Same : forall ev, Returns false h ev = Returns b h' out ->
                 Habit.streak h' <= Habit.longest_streak h' /\
                 Habit.longest_streak h <= Habit.longest_streak h' /\
                 Datetime.valid (Habit.next_completion_date h')).
  { intros ev E. injection E as _ <- _. repeat split; auto; lia. }
  destruct (Datetime.ltb now _); [apply Same |].
  destruct (_ && _); [| apply Same].
  destruct (Decoration.update_state _) as [[] dec o | |]; [| discriminate | discriminate].
  destruct (Habit.increment_completion_date h _) as [date |] eqn:E; [| discriminate].
  destruct (increment_later _ _ _ V E) as (V1 & _).
  destruct (Z.ltb_spec (Habit.longest_streak h) (Habit.streak h + 1));
    intros R; injection R as _ <- _; cbn; repeat split; auto; lia.
Qed.

Lemma calculate_fails_streak fuel now h b h' out :
  Datetime.valid (Habit.next_completion_date h) ->
  0 <= Habit.longest_streak h ->
  Habit.streak h <= Habit.longest_streak h ->
  Habit.calculate_fails fuel now h = Returns b h' out ->
  Habit.streak h' <= Habit.longest_streak h' /\
  Habit.longest_streak h <= Habit.longest_streak h' /\
  Datetime.valid (Habit.next_completion_date h').
Proof.
  intros V Hl I. rewrite calculate_fails_unfold.
  destruct (Habit.overdue_loop fuel now false h) as [det h1 o | |] eqn:L;
    [| discriminate | discriminate].
  apply overdue_loop_frame in L; [| exact V].
  destruct L as (_ & _ & _ & Es & El & Ef & V1 & _).
  destruct det; intros R; injection R as _ <- _; cbn; rewrite ?Es, ?El.
  - destruct (Z.ltb_spec (Habit.longest_streak h) (Habit.streak h));
      repeat split; auto; lia.
  - repeat split; auto; lia.
Qed.

Lemma run_keeps_streak_invariant op h b h' out :
  streak_invariant h -> run op h = Returns b h' out -> streak_invariant h'.
Proof.
  intros (V & Hl & I) R. unfold streak_invariant.
  destruct op as [now | fuel now]; cbn [run] in R.
  - destruct (check_in_streak now h b h' out V I R) as (I' & L' & V').
    repeat split; auto; lia.
  - destruct (calculate_fails_streak fuel now h b h' out V Hl I R) as (I' & L' & V').
    repeat split; auto; lia.
Qed.

Lemma reaches_keeps_streak_invariant h h' :
  reaches h h' -> streak_invariant h -> streak_invariant h'.
Proof.
  induction 1 as [h | h op b h1 out h2 R _ IH]; intros I; [exact I |].
  apply IH. exact (run_keeps_streak_invariant op h b h1 out I R).
Qed.

(** * The claims of the specification *)

(** ** C1: the fail sweep *)

(** C1, as amended.  For a habit with a valid periodicity (1-4) and a
    current time [now] before year 9999, except a yearly habit whose
    deadline is February 29th and except a [now] in the slack after
    23:59:59 that the microsecond of the deadline leaves: calculate_fails
    returns, and there is a number [k] of applied fails such that the
    deadlines after 0, ..., k-1 periods are exactly those of the chain
    whose end-of-day (23:59:59) boundary is strictly before [now]; the new
    next_completion_date is the deadline after [k] periods, fails grows by
    [k], and if [k > 0] the pre-sweep streak is folded into longest_streak
    (only if greater) and streak is reset to 0, once; the result is [True]
    exactly when [k > 0].  Name, periodicity and decoration are unchanged
    and nothing is shown. *)
Theorem calculate_fails_sweep h now :
  Datetime.valid now ->
  Datetime.valid (Habit.next_completion_date h) ->
  1 <= Habit.periodicity h <= 4 ->
  Datetime.year now < Datetime.MAXYEAR ->
  (Habit.periodicity h = 4 ->
   ~ (Datetime.month (Habit.next_completion_date h) = 2 /\
      Datetime.day (Habit.next_completion_date h) = 29)) ->
  ~ after_end_slack now (Habit.next_completion_date h) ->
  exists (k : nat) (d : Datetime.t) (fuel0 : nat),
    advance h k (Habit.next_completion_date h) = Ok d /\
    (forall i, (i < k)%nat ->
       exists di, advance h i (Habit.next_completion_date h) = Ok di /\
                  Datetime.ltb (end_of_day di) now = true) /\
    (forall j dj, (k <= j)%nat ->
       advance h j (Habit.next_completion_date h) = Ok dj ->
       Datetime.ltb (end_of_day dj) now = false) /\
    forall fuel, (fuel0 <= fuel)%nat ->
      Habit.calculate_fails fuel now h =
      Returns (0 <? k)%nat
        (Habit.mk (Habit.name h) (Habit.periodicity h) (Habit.decoration h) d
           (Habit.fails h + Z.of_nat k)
           (if (0 <? k)%nat then 0 else Habit.streak h)
           (if (0 <? k)%nat
            then Z.max (Habit.longest_streak h) (Habit.streak h)
            else Habit.longest_streak h)) [].
Proof.
  intros Vn V Hp Yn F S.
  destruct (calculate_fails_catches_up h now Vn V Hp Yn F)
    as (k & d & fuel0 & A & O & N & R).
  assert (B : forall i di, advance h i (Habit.next_completion_date h) = Ok di ->
              overdue di now = Datetime.ltb (end_of_day di) now).
  { intros i di Ai.
    destruct (advance_later h i _ _ V Ai) as (Vi & _ & (_ & _ & _ & Ti)).
    apply overdue_end_of_day; [exact Vi | exact Vn |].
    unfold after_end_slack in S. rewrite <- Ti. exact S. }
  exists k, d, fuel0.
  split; [exact A |]. split; [| split; [| exact R]].
  - intros i Hi. destruct (O i Hi) as (di & Ai & Oi).
    exists di. split; [exact Ai |]. rewrite <- (B i di Ai). exact Oi.
  - intros j dj Hj Aj. rewrite <- (B j dj Aj). exact (N j dj Hj Aj).
Qed.

(** The daily habit "running", due on 2024-01-10 and swept on 2024-01-13
    at 13:00: three deadlines are overdue. *)
Lemma calculate_fails_sweep_witness :
  Datetime.valid (dt 2024 1 13 13 0 0 0) /\
  Datetime.valid (dt 2024 1 10 12 0 0 500000) /\
  exists (k : nat) (d : Datetime.t),
    advance (running 1 (dt 2024 1 10 12 0 0 500000)) k (dt 2024 1 10 12 0 0 500000) = Ok d /\
    Datetime.ltb (end_of_day d) (dt 2024 1 13 13 0 0 0) = false.
Proof.
  split; [reflexivity |]. split; [reflexivity |].
  destruct (calculate_fails_sweep (running 1 (dt 2024 1 10 12 0 0 500000))
              (dt 2024 1 13 13 0 0 0))
    as (k & d & fuel0 & A & _ & N & _).
  - reflexivity.
  - reflexivity.
  - cbn. lia.
  - reflexivity.
  - cbn. intros E. discriminate E.
  - unfold after_end_slack. cbn. lia.
  - exists k, d. split; [exact A |]. apply (N k d); [apply Nat.le_refl | exact A].
Defined.

(** C1 as stated fails on three inputs: a yearly habit due on February 29th
    (the sweep raises ValueError at the first overdue deadline), a weekly
    habit due on 9999-12-25 (OverflowError), and a deadline with a
    non-zero microsecond, whose 23:59:59 boundary is strictly before [now]
    while no fail is applied. *)
Lemma calculate_fails_as_stated_fails :
  Habit.calculate_fails 3 (dt 2024 3 1 8 0 0 0) (running 4 (dt 2024 2 29 12 0 0 0)) =
    Raises FieldOutOfRange (running 4 (dt 2024 2 29 12 0 0 0)) [] /\
  Habit.calculate_fails 3 (dt 9999 12 26 8 0 0 0)
    (running 2 (dt 9999 12 25 12 0 0 0)) =
    Raises DateOverflow (running 2 (dt 9999 12 25 12 0 0 0)) [] /\
  Datetime.ltb (end_of_day (dt 2024 1 10 12 0 0 500000)) (dt 2024 1 10 23 59 59 250000)
    = true /\
  Habit.calculate_fails 3 (dt 2024 1 10 23 59 59 250000)
    (running 1 (dt 2024 1 10 12 0 0 500000)) =
    Returns false (running 1 (dt 2024 1 10 12 0 0 500000)) [].
Proof. repeat split; reflexivity. Qed.

(** ** C2: the on-time check-in *)

(** C2, as amended.  For a habit with a valid periodicity whose decoration
    has one of the four state names and an exp that is an int, or a float
    that is a multiple of 1/2 of magnitude at most 2^51, and whose
    deadline is before year 9999 (and, for a yearly habit, not February
    29th), and for every [now]
    inside the [start-of-day, end-of-day] window of the day of
    next_completion_date, except the slack after start-of-day that the
    microsecond of the deadline leaves: check_in increments streak by
    exactly 1, adds the award of the periodicity (1, 8, 16, 32) to the exp
    of the decoration, recomputes the state of the decoration, advances
    next_completion_date by one period, sets longest_streak to the new
    streak when that exceeds it, showing the new-record message, and
    returns [True]. *)
Theorem check_in_on_time h now :
  let ncd := Habit.next_completion_date h in
  Datetime.valid now ->
  Datetime.valid ncd ->
  1 <= Habit.periodicity h <= 4 ->
  In (Decoration.state (Habit.decoration h)) Decoration.state_names ->
  Number.adds_exactly (Decoration.exp (Habit.decoration h)) = true ->
  Datetime.year ncd < Datetime.MAXYEAR ->
  (Habit.periodicity h = 4 -> ~ (Datetime.month ncd = 2 /\ Datetime.day ncd = 29)) ->
  Datetime.leb (start_of_day ncd) now = true ->
  Datetime.leb now (end_of_day ncd) = true ->
  ~ before_start_slack now ncd ->
  exists date dec out,
    Habit.increment_completion_date h ncd = Ok date /\
    Decoration.update_state (awarded h) = Returns tt dec out /\
    dec = Decoration.mk (Decoration.name (Habit.decoration h))
            (Decoration.room (Habit.decoration h))
            (recomputed_state (awarded h))
            (Number.add (Decoration.exp (Habit.decoration h))
               (Number.PyInt (award (Habit.periodicity h)))) /\
    award (Habit.periodicity h) =
      match Habit.periodicity h with 1 => 1 | 2 => 8 | 3 => 16 | _ => 32 end /\
    Habit.check_in now h =
    Returns true
      (Habit.mk (Habit.name h) (Habit.periodicity h) dec date (Habit.fails h)
         (Habit.streak h + 1)
         (Z.max (Habit.longest_streak h) (Habit.streak h + 1)))
      (out ++ [if Habit.longest_streak h <? Habit.streak h + 1
               then NewRecord (Habit.name h) (Habit.streak h + 1)
               else CheckedIn (Habit.name h) (Habit.streak h + 1)]).
Proof.
  intros ncd Vn V Hp Hs _ Hy Hf Ls Le S.
  pose proof (valid_in_ranges _ Vn) as Rn.
  apply (leb_iff _ _ (start_of_day_in_ranges ncd V) Rn) in Ls.
  apply (leb_iff _ _ Rn (end_of_day_in_ranges ncd V)) in Le.
  destruct (start_of_day_keys ncd) as [Ks Ts]. rewrite Ks, Ts in Ls.
  destruct (end_of_day_keys ncd) as [Ke Te]. rewrite Ke, Te in Le.
  unfold before_start_slack in S.
  pose proof (valid_in_ranges _ V) as R. unfold in_ranges in R.
  apply (check_in_within_bounds h now (window_start ncd) (window_end ncd));
    try assumption.
  - apply completion_date_start_valid, V.
  - apply completion_date_end_valid, V.
  - apply (leb_iff _ _ (window_start_in_ranges ncd V) Rn).
    destruct (window_start_keys ncd) as [-> ->]. lia.
  - apply (leb_iff _ _ Rn (window_end_in_ranges ncd V)).
    destruct (window_end_keys ncd) as [-> ->]. lia.
Qed.

(** The check-in of test_habit_check_in: streak 4 becomes 5 and the longest
    streak stays 7. *)
Lemma check_in_on_time_witness :
  Datetime.valid (dt 2024 1 10 12 0 0 500000) /\
  exists date dec out,
    Habit.check_in (dt 2024 1 10 13 0 0 0) (running 1 (dt 2024 1 10 12 0 0 500000)) =
    Returns true (Habit.mk "running" 1 dec date 0 5 7) out.
Proof.
  split; [reflexivity |].
  destruct (check_in_on_time (running 1 (dt 2024 1 10 12 0 0 500000))
              (dt 2024 1 10 13 0 0 0))
    as (date & dec & out & _ & _ & _ & _ & R).
  - reflexivity.
  - reflexivity.
  - cbn. lia.
  - cbn. tauto.
  - reflexivity.
  - reflexivity.
  - cbn. intros E. discriminate E.
  - reflexivity.
  - reflexivity.
  - unfold before_start_slack. cbn. lia.
  - exists date, dec. eexists. exact R.
Defined.

(** C2 as stated fails on four inputs, all with [now] inside the day of the
    deadline: a yearly habit due on February 29th (ValueError, after streak
    and exp were updated), a weekly habit due on 9999-12-25
    (OverflowError), a deadline with a non-zero microsecond at the exact
    start of its day (rejected as too early), and a decoration whose state
    is none of the four names (ValueError of [list.index]). *)
Lemma check_in_as_stated_fails :
  Habit.check_in (dt 2024 2 29 13 0 0 0) (running 4 (dt 2024 2 29 12 0 0 0)) =
    Raises FieldOutOfRange
      (Habit.mk "running" 4
         (Decoration.mk "Couch" "Living Room" "Good" (Number.PyInt 37))
         (dt 2024 2 29 12 0 0 0) 0 5 7)
      [StateUpgraded "Couch" "Good"] /\
  Habit.check_in (dt 9999 12 25 13 0 0 0) (running 2 (dt 9999 12 25 12 0 0 0)) =
    Raises DateOverflow
      (Habit.mk "running" 2
         (Decoration.mk "Couch" "Living Room" "Old" (Number.PyInt 13))
         (dt 9999 12 25 12 0 0 0) 0 5 7) [] /\
  (Datetime.leb (start_of_day (dt 2024 1 10 12 0 0 500000)) (dt 2024 1 10 0 0 0 0) = true /\
   Datetime.leb (dt 2024 1 10 0 0 0 0) (end_of_day (dt 2024 1 10 12 0 0 500000)) = true /\
   Habit.check_in (dt 2024 1 10 0 0 0 0) (running 1 (dt 2024 1 10 12 0 0 500000)) =
     Returns false (running 1 (dt 2024 1 10 12 0 0 500000)) [EarlyCheckIn "running"]) /\
  Habit.check_in (dt 2024 1 10 13 0 0 0)
    (Habit.mk "running" 1
       (Decoration.mk "Couch" "Living Room" "Shiny" (Number.PyInt 5))
       (dt 2024 1 10 12 0 0 0) 0 4 7) =
    Raises NotInList
      (Habit.mk "running" 1
         (Decoration.mk "Couch" "Living Room" "Old" (Number.PyInt 6))
         (dt 2024 1 10 12 0 0 0) 0 5 7) [].
Proof. repeat split; reflexivity. Qed.

(** ** C3: the rejected check-in *)

(** C3, evaluated on the code.  A daily habit is due on 2024-01-10 with a
    deadline of 12:00:00.500000.  At exactly the start of that day,
    00:00:00.000000, check_in reports "too early" and returns [False]: its
    bound [completion_date_start] is 00:00:00.500000, since [replace] keeps
    the microsecond of the deadline.  At 23:59:59.250000, after the
    23:59:59 end of the day, the check-in is accepted. *)
Theorem check_in_rejects_start_of_day :
  let ncd := dt 2024 1 10 12 0 0 500000 in
  let habit := running 1 ncd in
  start_of_day ncd = dt 2024 1 10 0 0 0 0 /\
  Habit.completion_date_start ncd = Ok (dt 2024 1 10 0 0 0 500000) /\
  Habit.check_in (start_of_day ncd) habit =
    Returns false habit [EarlyCheckIn "running"] /\
  Datetime.ltb (end_of_day ncd) (dt 2024 1 10 23 59 59 250000) = true /\
  Habit.check_in (dt 2024 1 10 23 59 59 250000) habit =
    Returns true
      (Habit.mk "running" 1
         (Decoration.mk "Couch" "Living Room" "Old" (Number.PyInt 6))
         (dt 2024 1 11 12 0 0 500000) 0 5 7)
      [CheckedIn "running" 5].
Proof. cbv zeta. repeat split; reflexivity. Qed.

(** X1 (what holds of C3).  In terms of the bounds that the code computes,
    check_in returns [False] exactly when [now] is outside
    [[window_start, window_end]], and then the habit, its decoration
    included, is unchanged. *)
Lemma check_in_rejection h now :
  Datetime.valid (Habit.next_completion_date h) ->
  ((exists h' out, Habit.check_in now h = Returns false h' out) <->
   (Datetime.ltb now (window_start (Habit.next_completion_date h)) = true \/
    Datetime.ltb (window_end (Habit.next_completion_date h)) now = true)) /\
  (forall h' out, Habit.check_in now h = Returns false h' out -> h' = h).
Proof.
  intros V. split; [split |].
  - intros (h' & out & R). exact (proj2 (check_in_failure h now h' out V R)).
  - intros H. destruct (check_in_outside h now V H) as [out R]. eauto.
  - intros h' out R. exact (proj1 (check_in_failure h now h' out V R)).
Qed.

(** One microsecond before the start of the day of the deadline. *)
Lemma check_in_rejection_witness :
  Datetime.valid (dt 2024 1 10 12 0 0 500000) /\
  forall h' out,
    Habit.check_in (dt 2024 1 9 23 59 59 999999) (running 1 (dt 2024 1 10 12 0 0 500000)) =
      Returns false h' out ->
    h' = running 1 (dt 2024 1 10 12 0 0 500000).
Proof.
  split; [reflexivity |].
  apply (check_in_rejection (running 1 (dt 2024 1 10 12 0 0 500000))
           (dt 2024 1 9 23 59 59 999999)).
  reflexivity.
Defined.

(** ** C4: one period later *)

(** C4, as amended.  For a datetime object [date] and a valid periodicity,
    whenever the result is not after 9999-12-31, increment_completion_date
    returns: Daily, the next calendar day (ordinal + 1); Weekly, the
    seventh next day (ordinal + 7); Monthly, the day of the month clamped
    to 28 in the next calendar month, December rolling into January of the
    next year, so that the result is on a day <= 28 (January 31st gives
    February 28th); Yearly, unless [date] is February 29th, the same month
    and day in the next year.  The time of day is kept. *)
Theorem increment_completion_date_periods h date :
  Datetime.valid date ->
  1 <= Habit.periodicity h <= 4 ->
  (Habit.periodicity h = 1 ->
   Datetime.toordinal date + 1 <= Datetime.MAXORDINAL ->
   Habit.increment_completion_date h date = Ok (Datetime.next_day date) /\
   Datetime.valid (Datetime.next_day date) /\
   Datetime.toordinal (Datetime.next_day date) = Datetime.toordinal date + 1 /\
   same_time date (Datetime.next_day date)) /\
  (Habit.periodicity h = 2 ->
   Datetime.toordinal date + 7 <= Datetime.MAXORDINAL ->
   Habit.increment_completion_date h date = Ok (Nat.iter 7 Datetime.next_day date) /\
   Datetime.valid (Nat.iter 7 Datetime.next_day date) /\
   Datetime.toordinal (Nat.iter 7 Datetime.next_day date) = Datetime.toordinal date + 7 /\
   same_time date (Nat.iter 7 Datetime.next_day date)) /\
  (Habit.periodicity h = 3 ->
   Datetime.year date + Datetime.month date / 12 <= Datetime.MAXYEAR ->
   let day' := if 28 <? Datetime.day date then 28 else Datetime.day date in
   Habit.increment_completion_date h date =
   Ok (Datetime.mk
         (if Datetime.month date =? 12 then Datetime.year date + 1 else Datetime.year date)
         (if Datetime.month date =? 12 then 1 else Datetime.month date + 1)
         day'
         (Datetime.hour date) (Datetime.minute date) (Datetime.second date)
         (Datetime.microsecond date)) /\
   day' <= 28) /\
  (Habit.periodicity h = 4 ->
   Datetime.year date + 1 <= Datetime.MAXYEAR ->
   ~ (Datetime.month date = 2 /\ Datetime.day date = 29) ->
   Habit.increment_completion_date h date =
   Ok (Datetime.mk (Datetime.year date + 1) (Datetime.month date) (Datetime.day date)
         (Datetime.hour date) (Datetime.minute date) (Datetime.second date)
         (Datetime.microsecond date))) /\
  Habit.increment_completion_date (running 3 date) (dt 2024 1 31 9 30 0 0) =
    Ok (dt 2024 2 28 9 30 0 0).
Proof.
  intros V Hp.
  assert (Add : forall n, Datetime.toordinal date + Z.of_nat n <= Datetime.MAXORDINAL ->
            Datetime.add_days date n = Ok (Nat.iter n Datetime.next_day date) /\
            Datetime.valid (Nat.iter n Datetime.next_day date) /\
            Datetime.toordinal (Nat.iter n Datetime.next_day date) =
              Datetime.toordinal date + Z.of_nat n /\
            same_time date (Nat.iter n Datetime.next_day date)).
  { intros n L.
    assert (E : Datetime.add_days date n = Ok (Nat.iter n Datetime.next_day date)).
    { unfold Datetime.add_days.
      destruct (Z.leb_spec (Datetime.toordinal date + Z.of_nat n) Datetime.MAXORDINAL);
        [reflexivity | lia]. }
    destruct (add_days_spec _ _ _ V E) as (V' & O & T).
    unfold same_time. intuition congruence. }
  pose proof V as V0. apply valid_spec in V0.
  unfold Datetime.MAXYEAR.
  split; [| split; [| split; [| split]]].
  - intros P L. unfold Habit.increment_completion_date. rewrite P. cbn [Z.eqb Pos.eqb].
    exact (Add 1%nat L).
  - intros P L. unfold Habit.increment_completion_date. rewrite P. cbn [Z.eqb Pos.eqb].
    exact (Add 7%nat L).
  - intros P L. cbv zeta.
    unfold Habit.increment_completion_date. rewrite P. cbn [Z.eqb Pos.eqb].
    split; [| destruct (Z.ltb_spec 28 (Datetime.day date)); lia].
    unfold Datetime.replace.
    assert (Em : Datetime.month date mod 12 + 1 =
                 if Datetime.month date =? 12 then 1 else Datetime.month date + 1).
    { destruct (Z.eqb_spec (Datetime.month date) 12) as [-> | N]; [reflexivity |].
      rewrite Z.mod_small by lia. reflexivity. }
    assert (Ey : Datetime.year date + Datetime.month date / 12 =
                 if Datetime.month date =? 12 then Datetime.year date + 1
                 else Datetime.year date).
    { destruct (Z.eqb_spec (Datetime.month date) 12) as [-> | N]; [reflexivity |].
      rewrite Z.div_small by lia. lia. }
    assert (Ed : Z.min (Datetime.day date) 28 =
                 if 28 <? Datetime.day date then 28 else Datetime.day date).
    { destruct (Z.ltb_spec 28 (Datetime.day date)); lia. }
    rewrite Em, Ey, Ed in *. apply make_valid. apply valid_spec. cbn.
    pose proof (days_in_month_bounds
      (if Datetime.month date =? 12 then Datetime.year date + 1 else Datetime.year date)
      (if Datetime.month date =? 12 then 1 else Datetime.month date + 1)).
    destruct (Z.eqb_spec (Datetime.month date) 12);
      destruct (Z.ltb_spec 28 (Datetime.day date)); lia.
  - intros P L N.
    unfold Habit.increment_completion_date. rewrite P. cbn [Z.eqb Pos.eqb].
    unfold Datetime.replace. apply make_valid. apply valid_spec. cbn.
    pose proof (days_in_month_next_year (Datetime.year date) (Datetime.month date)
                  (Datetime.day date) ltac:(lia) ltac:(lia) N).
    lia.
  - reflexivity.
Qed.

(** A monthly habit on 2024-12-31: the next deadline is 2025-01-28. *)
Lemma increment_completion_date_periods_witness :
  Datetime.valid (dt 2024 12 31 9 30 0 0) /\
  Habit.increment_completion_date (running 3 (dt 2024 12 31 9 30 0 0))
    (dt 2024 12 31 9 30 0 0) = Ok (dt 2025 1 28 9 30 0 0).
Proof.
  split; [reflexivity |].
  destruct (increment_completion_date_periods (running 3 (dt 2024 12 31 9 30 0 0))
              (dt 2024 12 31 9 30 0 0)) as (_ & _ & Monthly & _).
  - reflexivity.
  - cbn. lia.
  - destruct Monthly as [E _].
    + reflexivity.
    + vm_compute. discriminate.
    + exact E.
Defined.

(** C4 as stated fails on two inputs: a yearly step from February 29th and
    a daily step from 9999-12-31 return no date (ValueError and
    OverflowError). *)
Lemma increment_completion_date_as_stated_fails :
  Datetime.valid (dt 2024 2 29 9 30 0 0) /\
  Habit.increment_completion_date (running 4 (dt 2024 2 29 9 30 0 0))
    (dt 2024 2 29 9 30 0 0) = Err FieldOutOfRange /\
  Datetime.valid (dt 9999 12 31 9 30 0 0) /\
  Habit.increment_completion_date (running 1 (dt 9999 12 31 9 30 0 0))
    (dt 9999 12 31 9 30 0 0) = Err DateOverflow.
Proof. repeat split; reflexivity. Qed.

(** ** C5: the exceptions of increment_completion_date *)

(** C5, evaluated on the code.  With the recognized periodicity 4 (Yearly)
    and the datetime 2024-02-29 09:30, increment_completion_date, and with
    it calculate_completion_date at that [now], raises ValueError:
    [date.replace(year=2025)] names February 29th, 2025.  The monthly
    branch clamps the day to 28 and returns at that date. *)
Theorem yearly_increment_raises_on_leap_day :
  let leap_day := dt 2024 2 29 9 30 0 0 in
  Datetime.validb leap_day = true /\
  Habit.increment_completion_date (running 4 leap_day) leap_day = Err FieldOutOfRange /\
  Habit.calculate_completion_date leap_day (running 4 leap_day) = Err FieldOutOfRange /\
  is_ValueError FieldOutOfRange = true /\
  Habit.increment_completion_date (running 3 leap_day) leap_day =
    Ok (dt 2024 3 28 9 30 0 0).
Proof. cbv zeta. repeat split; reflexivity. Qed.

(** X2 (the direction of C5 that holds).  An unrecognized periodicity
    raises ValueError("Invalid periodicity value."), on every date. *)
Lemma unrecognized_periodicity_raises h date :
  ~ (1 <= Habit.periodicity h <= 4) ->
  Habit.increment_completion_date h date = Err InvalidPeriodicity /\
  is_ValueError InvalidPeriodicity = true.
Proof.
  intros N. split; [apply increment_invalid_periodicity; exact N | reflexivity].
Qed.

(** The periodicity 5. *)
Lemma unrecognized_periodicity_raises_witness :
  ~ (1 <= Habit.periodicity (running 5 (dt 2024 1 10 12 0 0 0)) <= 4) /\
  Habit.increment_completion_date (running 5 (dt 2024 1 10 12 0 0 0))
    (dt 2024 1 10 12 0 0 0) = Err InvalidPeriodicity.
Proof.
  assert (N : ~ (1 <= Habit.periodicity (running 5 (dt 2024 1 10 12 0 0 0)) <= 4)).
  { cbn. lia. }
  split; [exact N |].
  exact (proj1 (unrecognized_periodicity_raises (running 5 (dt 2024 1 10 12 0 0 0))
                  (dt 2024 1 10 12 0 0 0) N)).
Defined.

(** ** C6: the most failed habit *)

(** C6, as amended.  On the empty list get_most_failed_habit returns the
    string "No habits found."; on a non-empty list it selects a habit with
    the maximum fails, the last one in input order among ties, and returns
    its name when that maximum is positive and the string
    "No fails were found." otherwise.  Both results are strings, like a
    habit name. *)
Theorem get_most_failed_habit_last_maximum :
  Analytics.get_most_failed_habit [] = "No habits found."%string /\
  forall first rest,
  exists pre best post,
    first :: rest = pre ++ best :: post /\
    (forall h, In h pre -> Habit.fails h <= Habit.fails best) /\
    (forall h, In h post -> Habit.fails h < Habit.fails best) /\
    Analytics.get_most_failed_habit (first :: rest) =
      (if 0 <? Habit.fails best then Habit.name best
       else "No fails were found."%string).
Proof.
  split; [reflexivity |].
  intros first rest.
  destruct (reduce_more_failed rest first) as (pre & best & post & E & Hpre & Hpost & _ & R).
  exists pre, best, post.
  split; [exact E |]. split; [exact Hpre |]. split; [exact Hpost |].
  cbn [Analytics.get_most_failed_habit]. fold more_failed. rewrite R. reflexivity.
Qed.

(** C6 as stated fails on two inputs: of two habits with 2 fails each the
    second one is reported, and a habit named "No fails were found." with
    3 fails gives the same result as a habit that never failed. *)
Lemma get_most_failed_habit_as_stated_fails :
  let habit name fails := Habit.mk name 1 couch (dt 2024 1 10 12 0 0 0) fails 0 0 in
  Analytics.get_most_failed_habit [habit "reading"%string 2; habit "running"%string 2] =
    "running"%string /\
  Analytics.get_most_failed_habit [habit "No fails were found."%string 3] =
    Analytics.get_most_failed_habit [habit "reading"%string 0].
Proof. cbv zeta. split; reflexivity. Qed.

(** ** C7: the exp of a decoration *)

(** C7, evaluated on the code.  The daily habit "running" (award 1, exp 5)
    missed its deadline of 2024-01-10 and is swept on 2024-01-11: the
    sweep counts one fail and deducts [1 / 2], a true division, so exp
    becomes the float 4.5, which is not a whole number. *)
Theorem sweep_deduction_leaves_fractional_exp :
  let habit := running 1 (dt 2024 1 10 12 0 0 0) in
  let now := dt 2024 1 11 13 0 0 0 in
  Decoration.exp (Habit.decoration habit) = Number.PyInt 5 /\
  Main.sweep_habit 3 now now habit =
    Returns true
      (Habit.mk "running" 1
         (Decoration.mk "Couch" "Living Room" "Old" (Number.PyFloat (9 # 2)))
         (dt 2024 1 11 12 0 0 0) 1 0 7) [] /\
  Number.is_integral (Number.PyFloat (9 # 2)) = false /\
  Number.is_int (Number.PyFloat (9 # 2)) = false.
Proof. cbv zeta. repeat split; reflexivity. Qed.

(** X3 (the part of C7 that holds).  For an exp that is an int of
    magnitude at most 2^51, or a float that is a multiple of 1/2 in that
    range, a deduction leaves exp at 0 or above, and again in that range,
    whether update_state returns or raises afterwards. *)
Lemma deduct_exp_floor h :
  Number.subtracts_exactly (Decoration.exp (Habit.decoration h)) = true ->
  exists dec,
    final_state h (Main.deduct_exp h) = Habit.set_decoration dec h /\
    Number.leb (Number.PyInt 0) (Decoration.exp dec) = true /\
    Number.subtracts_exactly (Decoration.exp dec) = true.
Proof.
  intros Hx.
  pose proof (deduction_stays_exact (Decoration.exp (Habit.decoration h))
                (award (Habit.periodicity h)) (award_nonneg _) Hx) as Hc.
  unfold award in Hc. revert Hc.
  unfold Main.deduct_exp, bind, get, modify, zoom. mcbn.
  rewrite update_state_unfold. cbv zeta.
  set (e := Number.max _ _). intros Hc.
  assert (He : Number.leb (Number.PyInt 0) e = true) by apply max_zero_nonneg.
  set (d := Decoration.set_exp e (Habit.decoration h)).
  exists (Decoration.set_state (recomputed_state d) d).
  split; [| split; [exact He | exact Hc]].
  destruct (String.eqb _ _); [destruct h; reflexivity |].
  destruct (Decoration.index (Decoration.state d) _); [| destruct h; reflexivity].
  destruct (Decoration.index (recomputed_state d) _); destruct h; reflexivity.
Qed.

(** One deduction for the daily habit "running", whose decoration has
    5 exp. *)
Lemma deduct_exp_floor_witness :
  exists dec,
    final_state (running 1 (dt 2024 1 10 12 0 0 0))
      (Main.deduct_exp (running 1 (dt 2024 1 10 12 0 0 0))) =
      Habit.set_decoration dec (running 1 (dt 2024 1 10 12 0 0 0)) /\
    Number.leb (Number.PyInt 0) (Decoration.exp dec) = true.
Proof.
  destruct (deduct_exp_floor (running 1 (dt 2024 1 10 12 0 0 0)) eq_refl)
    as (dec & E & L & _).
  exists dec. split; [exact E | exact L].
Defined.

(** ** C8: longest_streak bounds streak *)

(** C8.  For every habit with [longest_streak >= streak], a datetime
    object as deadline and, as in the data model, a longest streak that is
    not negative, both check_in and calculate_fails preserve
    [longest_streak >= streak] on return; hence after any sequence of
    check-ins and fail sweeps that starts from a freshly created habit
    ([streak = fails = longest_streak = 0]), [longest_streak >= streak]
    holds. *)
Theorem longest_streak_bounds_streak :
  (forall now h b h' out,
     Datetime.valid (Habit.next_completion_date h) ->
     Habit.longest_streak h >= Habit.streak h ->
     Habit.check_in now h = Returns b h' out ->
     Habit.longest_streak h' >= Habit.streak h') /\
  (forall fuel now h b h' out,
     Datetime.valid (Habit.next_completion_date h) ->
     0 <= Habit.longest_streak h ->
     Habit.longest_streak h >= Habit.streak h ->
     Habit.calculate_fails fuel now h = Returns b h' out ->
     Habit.longest_streak h' >= Habit.streak h') /\
  (forall h h',
     Datetime.valid (Habit.next_completion_date h) ->
     Habit.streak h = 0 -> Habit.fails h = 0 -> Habit.longest_streak h = 0 ->
     reaches h h' ->
     Habit.longest_streak h' >= Habit.streak h').
Proof.
  split; [| split].
  - intros now h b h' out V I R.
    destruct (check_in_streak now h b h' out V ltac:(lia) R). lia.
  - intros fuel now h b h' out V Hl I R.
    destruct (calculate_fails_streak fuel now h b h' out V Hl ltac:(lia) R). lia.
  - intros h h' V Es Ef El Rch.
    assert (I : streak_invariant h).
    { unfold streak_invariant. rewrite Es, El. repeat split; auto; lia. }
    destruct (reaches_keeps_streak_invariant h h' Rch I) as (_ & _ & I'). lia.
Qed.

(** The scenario of the specification: a new daily habit, three check-ins
    on consecutive days, then a sweep that skips two days. *)
Lemma longest_streak_bounds_streak_witness :
  reaches (scenario 0 10 0 0 0) (scenario 3 15 2 0 3) /\
  Habit.longest_streak (scenario 3 15 2 0 3) >= Habit.streak (scenario 3 15 2 0 3).
Proof.
  assert (R : reaches (scenario 0 10 0 0 0) (scenario 3 15 2 0 3)).
  { apply (reaches_step _ (CheckIn (dt 2024 1 10 13 0 0 0)) true (scenario 1 11 0 1 1)
             [NewRecord "running" 1]); [reflexivity |].
    apply (reaches_step _ (CheckIn (dt 2024 1 11 13 0 0 0)) true (scenario 2 12 0 2 2)
             [NewRecord "running" 2]); [reflexivity |].
    apply (reaches_step _ (CheckIn (dt 2024 1 12 13 0 0 0)) true (scenario 3 13 0 3 3)
             [NewRecord "running" 3]); [reflexivity |].
    apply (reaches_step _ (FailSweep 4 (dt 2024 1 15 13 0 0 0)) true (scenario 3 15 2 0 3)
             []); [reflexivity |].
    apply reaches_refl. }
  split; [exact R |].
  apply (proj2 (proj2 longest_streak_bounds_streak) (scenario 0 10 0 0 0));
    [reflexivity | reflexivity | reflexivity | reflexivity | exact R].
Defined.

(** ** C9: the state of a decoration *)

(** C9.  For every decoration with [exp >= 0], update_state leaves exp
    unchanged and sets state to the name of the highest threshold of
    [{0: "Old", 16: "Normal", 32: "Good", 64: "Great"}] that does not exceed
    exp (15 gives "Old", 16 gives "Normal", 64 gives "Great"); the
    resulting state depends on exp only; and a decoration with a greater
    or equal exp gets a state of greater or equal rank in the table.  The
    state is the one left by the call, whether it returns or its
    notification code raises. *)
Theorem update_state_threshold_label :
  (forall d,
     Number.leb (Number.PyInt 0) (Decoration.exp d) = true ->
     let d' := final_state d (Decoration.update_state d) in
     Decoration.exp d' = Decoration.exp d /\
     exists thr,
       In (thr, Decoration.state d') Decoration.exp_states /\
       Number.leb (Number.PyInt thr) (Decoration.exp d) = true /\
       forall thr' st',
         In (thr', st') Decoration.exp_states ->
         Number.leb (Number.PyInt thr') (Decoration.exp d) = true ->
         thr' <= thr) /\
  (forall n r s,
     Decoration.state
       (final_state (Decoration.mk n r s (Number.PyInt 15))
          (Decoration.update_state (Decoration.mk n r s (Number.PyInt 15)))) =
       "Old"%string /\
     Decoration.state
       (final_state (Decoration.mk n r s (Number.PyInt 16))
          (Decoration.update_state (Decoration.mk n r s (Number.PyInt 16)))) =
       "Normal"%string /\
     Decoration.state
       (final_state (Decoration.mk n r s (Number.PyInt 64))
          (Decoration.update_state (Decoration.mk n r s (Number.PyInt 64)))) =
       "Great"%string) /\
  (forall d1 d2,
     Number.leb (Number.PyInt 0) (Decoration.exp d1) = true ->
     Decoration.exp d1 = Decoration.exp d2 ->
     Decoration.state (final_state d1 (Decoration.update_state d1)) =
     Decoration.state (final_state d2 (Decoration.update_state d2))) /\
  (forall d1 d2,
     Number.leb (Number.PyInt 0) (Decoration.exp d1) = true ->
     Number.leb (Decoration.exp d1) (Decoration.exp d2) = true ->
     exists r1 r2,
       Decoration.index
         (Decoration.state (final_state d1 (Decoration.update_state d1)))
         Decoration.state_names = Ok r1 /\
       Decoration.index
         (Decoration.state (final_state d2 (Decoration.update_state d2)))
         Decoration.state_names = Ok r2 /\
       r1 <= r2).
Proof.
  split; [| split; [| split]].
  - intros d H0. cbv zeta. rewrite update_state_final.
    split; [reflexivity |].
    cbn [Decoration.state Decoration.set_state].
    rewrite recomputed_state_cases. cbv zeta.
    destruct (Number.leb (Number.PyInt 64) _) eqn:T64;
      [exists 64 | destruct (Number.leb (Number.PyInt 32) _) eqn:T32;
        [exists 32 | destruct (Number.leb (Number.PyInt 16) _) eqn:T16;
          [exists 16 | rewrite H0; exists 0]]];
      (split; [cbn; tauto |]); (split; [assumption |]);
      intros thr' st' Hin Hle; cbn in Hin;
      repeat (destruct Hin as [Hin | Hin]; [injection Hin as <- <-; try lia; congruence |]);
      destruct Hin.
  - intros n r s. rewrite !update_state_final. repeat split; reflexivity.
  - intros d1 d2 H0 E. rewrite !update_state_final.
    cbn [Decoration.state Decoration.set_state].
    rewrite !recomputed_state_cases. cbv zeta. rewrite <- E, H0.
    repeat match goal with
           | |- context [Number.leb ?a ?b] => destruct (Number.leb a b)
           end; reflexivity.
  - intros d1 d2 H0 L. rewrite !update_state_final.
    cbn [Decoration.state Decoration.set_state].
    rewrite !recomputed_state_cases. cbv zeta.
    pose proof (number_leb_trans _ _ _ H0 L) as H0'.
    rewrite H0, H0'.
    assert (Tr : forall t, Number.leb (Number.PyInt t) (Decoration.exp d1) = true ->
                           Number.leb (Number.PyInt t) (Decoration.exp d2) = true).
    { intros t Ht. exact (number_leb_trans _ _ _ Ht L). }
    destruct (Number.leb (Number.PyInt 64) (Decoration.exp d1)) eqn:A64;
      [rewrite (Tr 64 A64) |
       destruct (Number.leb (Number.PyInt 32) (Decoration.exp d1)) eqn:A32;
       [rewrite (Tr 32 A32) |
        destruct (Number.leb (Number.PyInt 16) (Decoration.exp d1)) eqn:A16;
        [rewrite (Tr 16 A16) |]]];
      repeat match goal with
             | |- context [Number.leb ?a (Decoration.exp d2)] =>
                 destruct (Number.leb a (Decoration.exp d2))
             end;
      do 2 eexists; (split; [reflexivity |]); (split; [reflexivity |]); lia.
Qed.

(** The decoration "Couch" with exp 5 and the same decoration with exp 40:
    "Old" (rank 0) and "Good" (rank 2). *)
Lemma update_state_threshold_label_witness :
  Number.leb (Number.PyInt 0) (Decoration.exp couch) = true /\
  exists r1 r2,
    Decoration.index
      (Decoration.state (final_state couch (Decoration.update_state couch)))
      Decoration.state_names = Ok r1 /\
    Decoration.index
      (Decoration.state
         (final_state (Decoration.set_exp (Number.PyInt 40) couch)
            (Decoration.update_state (Decoration.set_exp (Number.PyInt 40) couch))))
      Decoration.state_names = Ok r2 /\
    r1 <= r2.
Proof.
  split; [reflexivity |].
  apply (proj2 (proj2 (proj2 update_state_threshold_label)) couch
           (Decoration.set_exp (Number.PyInt 40) couch)); reflexivity.
Defined.

(** ** C10: the catch-up loop terminates *)

(** C10.  For every habit and every fixed [now]: whenever
    increment_completion_date returns a date for a datetime object, that
    date is strictly later than its input (and is a datetime object
    again); and the loop of calculate_fails terminates: there is a bound
    such that, with at least that many loop tests allowed, the loop and
    calculate_fails reach a result (they return or raise), which more fuel
    does not change. *)
Theorem calculate_fails_terminates h now :
  Datetime.valid now ->
  Datetime.valid (Habit.next_completion_date h) ->
  (forall date date',
     Datetime.valid date ->
     Habit.increment_completion_date h date = Ok date' ->
     Datetime.ltb date date' = true /\ Datetime.valid date') /\
  (exists bound : nat,
     forall fuel, (bound <= fuel)%nat ->
       Habit.overdue_loop fuel now false h <> OutOfFuel /\
       Habit.calculate_fails fuel now h <> OutOfFuel /\
       Habit.calculate_fails fuel now h = Habit.calculate_fails bound now h).
Proof.
  intros Vn V. split.
  - intros date date' Vd E.
    destruct (increment_later h date date' Vd E) as (V' & K & _).
    split; [apply ltb_of_keys; assumption | exact V'].
  - exists (S (sweep_bound now (Habit.next_completion_date h))).
    intros fuel Hf.
    assert (L : Habit.overdue_loop fuel now false h <> OutOfFuel).
    { apply overdue_loop_terminates; [exact Vn | exact V | lia]. }
    assert (C : forall n, Habit.overdue_loop n now false h <> OutOfFuel ->
                Habit.calculate_fails n now h <> OutOfFuel).
    { intros n Ln. rewrite calculate_fails_unfold.
      destruct (Habit.overdue_loop n now false h) as [[] ? ? | ? ? ? |];
        [discriminate | discriminate | discriminate | contradiction]. }
    split; [exact L |]. split; [exact (C fuel L) |].
    apply calculate_fails_more_fuel; [exact Hf |].
    apply C, overdue_loop_terminates; [exact Vn | exact V | lia].
Qed.

(** The daily habit "running", due on 2024-01-10 and swept on 2024-01-13. *)
Lemma calculate_fails_terminates_witness :
  Datetime.valid (dt 2024 1 13 13 0 0 0) /\
  Datetime.valid (dt 2024 1 10 12 0 0 500000) /\
  exists bound : nat,
    Habit.calculate_fails bound (dt 2024 1 13 13 0 0 0)
      (running 1 (dt 2024 1 10 12 0 0 500000)) <> OutOfFuel.
Proof.
  split; [reflexivity |]. split; [reflexivity |].
  destruct (calculate_fails_terminates (running 1 (dt 2024 1 10 12 0 0 500000))
              (dt 2024 1 13 13 0 0 0)) as [_ [bound H]].
  - reflexivity.
  - reflexivity.
  - exists bound. exact (proj1 (proj2 (H bound (Nat.le_refl bound)))).
Defined.

(** ** Further properties of section 8 of the specification *)

(** X4.  Once caught up, the fail sweep is idempotent: after a sweep that
    returned, a second sweep at the same [now] returns [False] and changes
    nothing. *)
Theorem calculate_fails_idempotent fuel fuel' now h b h' out :
  Datetime.valid (Habit.next_completion_date h) ->
  Habit.calculate_fails fuel now h = Returns b h' out ->
  (0 < fuel')%nat ->
  Habit.calculate_fails fuel' now h' = Returns false h' [].
Proof.
  intros V R F.
  assert (H : Datetime.valid (Habit.next_completion_date h') /\
              Datetime.ltb (window_end (Habit.next_completion_date h')) now = false).
  { rewrite calculate_fails_unfold in R.
    destruct (Habit.overdue_loop fuel now false h) as [det h1 o | |] eqn:L;
      [| discriminate | discriminate].
    pose proof (overdue_loop_caught_up _ _ _ _ _ _ _ V L) as C.
    apply overdue_loop_frame in L; [| exact V].
    destruct L as (_ & _ & _ & _ & _ & _ & V1 & _).
    destruct det; injection R as _ <- _; cbn; auto. }
  destruct H as [V' G].
  destruct fuel' as [| n]; [lia |].
  rewrite calculate_fails_unfold, (overdue_loop_S n now false h' V'), G.
  reflexivity.
Qed.

(** The second sweep of the scenario below. *)
Lemma calculate_fails_idempotent_witness :
  Datetime.valid (dt 2024 1 12 12 0 0 0) /\
  Habit.calculate_fails 1 (dt 2024 1 15 13 0 0 0) (scenario 3 15 2 0 3) =
    Returns false (scenario 3 15 2 0 3) [].
Proof.
  split; [reflexivity |].
  apply (calculate_fails_idempotent 4 1 (dt 2024 1 15 13 0 0 0) (scenario 3 13 0 3 3)
           true (scenario 3 15 2 0 3) []).
  - reflexivity.
  - reflexivity.
  - apply Nat.lt_0_1.
Defined.

(** X5.  The end-to-end scenario: a daily habit (award 1) is created on
    2024-01-09; three consecutive on-time check-ins give streak 3,
    longest_streak 3 and exp 3; a fail sweep that skips two days adds 2
    fails, resets streak to 0 and leaves longest_streak at 3. *)
Theorem end_to_end_scenario :
  Habit.calculate_completion_date (dt 2024 1 9 12 0 0 0) (scenario 0 9 0 0 0) =
    Ok (Habit.next_completion_date (scenario 0 10 0 0 0)) /\
  Habit.check_in (dt 2024 1 10 13 0 0 0) (scenario 0 10 0 0 0) =
    Returns true (scenario 1 11 0 1 1) [NewRecord "running" 1] /\
  Habit.check_in (dt 2024 1 11 13 0 0 0) (scenario 1 11 0 1 1) =
    Returns true (scenario 2 12 0 2 2) [NewRecord "running" 2] /\
  Habit.check_in (dt 2024 1 12 13 0 0 0) (scenario 2 12 0 2 2) =
    Returns true (scenario 3 13 0 3 3) [NewRecord "running" 3] /\
  Habit.calculate_fails 4 (dt 2024 1 15 13 0 0 0) (scenario 3 13 0 3 3) =
    Returns true (scenario 3 15 2 0 3) [].
Proof. repeat split; reflexivity. Qed.

(** * Further properties of the code *)

(** ** analytics.py: the listings and the longest streak *)

Lemma max_by_key_first {A} (key : A -> Z) l :
  forall x,
  exists pre best post,
    x :: l = pre ++ best :: post /\
    (forall h, In h pre -> key h < key best) /\
    (forall h, In h post -> key h <= key best) /\
    key x <= key best /\
    Analytics.max_by_key key x l = best.
Proof.
  unfold Analytics.max_by_key.
  induction l as [| y l IH]; intros x.
  - exists [], x, []. cbn.
    split; [reflexivity |]. split; [intros h [] |]. split; [intros h [] |].
    split; [lia | reflexivity].
  - cbn [fold_left].
    destruct (Z.ltb_spec (key x) (key y)) as [L | L].
    + destruct (IH y) as (pre & best & post & E & Hpre & Hpost & Hy & R).
      exists (x :: pre), best, post. rewrite E. cbn.
      split; [reflexivity |].
      split; [intros h [<- | Hh]; [lia | apply Hpre, Hh] |].
      split; [exact Hpost |]. split; [lia | exact R].
    + destruct (IH x) as (pre & best & post & E & Hpre & Hpost & Hx & R).
      destruct pre as [| x' pre].
      * cbn in E. injection E as <- <-.
        exists [], x, (y :: l). cbn.
        split; [reflexivity |]. split; [intros h [] |].
        split; [intros h [<- | Hh]; [lia | apply Hpost, Hh] |].
        split; [lia | exact R].
      * cbn in E. injection E as <- ->.
        exists (x :: y :: pre), best, post. cbn.
        split; [reflexivity |].
        split; [intros h [<- | [<- | Hh]];
                [apply Hpre; left; reflexivity | | apply Hpre; right; exact Hh] |].
        { pose proof (Hpre x (or_introl eq_refl)). lia. }
        split; [exact Hpost |]. split; [exact Hx | exact R].
Qed.

(** X6.  [get_longest_streak] returns [None] exactly for an empty list;
    otherwise it returns a habit of the list with the greatest current
    streak, and among several such habits the first one: every habit
    before it has a strictly smaller streak, none after it a greater
    one. *)
Theorem get_longest_streak_first_maximum (habit_objects : list Habit.t) :
  match Analytics.get_longest_streak habit_objects with
  | None => habit_objects = []
  | Some best =>
      exists pre post,
        habit_objects = pre ++ best :: post /\
        (forall h, In h pre -> Habit.streak h < Habit.streak best) /\
        (forall h, In h post -> Habit.streak h <= Habit.streak best)
  end.
Proof.
  destruct habit_objects as [| first rest]; cbn [Analytics.get_longest_streak];
    [reflexivity |].
  destruct (max_by_key_first Habit.streak rest first)
    as (pre & best & post & E & Hpre & Hpost & _ & ->).
  exists pre, post. auto.
Qed.

(** Splitting a list by a test is a permutation of it. *)
Lemma filter_split_Permutation {A} (f : A -> bool) (l : list A) :
  Permutation l (filter f l ++ filter (fun x => negb (f x)) l).
Proof.
  induction l as [| x l IH]; cbn [filter]; [constructor |].
  destruct (f x); cbn [negb app].
  - constructor. exact IH.
  - apply Permutation_cons_app. exact IH.
Qed.

Lemma filter_twice {A} (f g : A -> bool) (l : list A) :
  filter f (filter g l) = filter (fun x => g x && f x) l.
Proof.
  induction l as [| x l IH]; cbn [filter]; [reflexivity |].
  destruct (g x); cbn [filter andb]; [destruct (f x) |]; rewrite IH; reflexivity.
Qed.

Lemma filter_none {A} (f : A -> bool) (l : list A) :
  (forall x, In x l -> f x = false) -> filter f l = [].
Proof.
  induction l as [| x l IH]; intros H; cbn [filter]; [reflexivity |].
  rewrite (H x (or_introl eq_refl)). apply IH. intros y Hy. apply H. right. exact Hy.
Qed.

(** The habits of periodicity [p], then the others, [p] by [p]. *)
Lemma by_periodicity_peel (p : Z) (l : list Habit.t) :
  Permutation l
    (filter (fun habit => Habit.periodicity habit =? p) l ++
     filter (fun habit => negb (Habit.periodicity habit =? p)) l).
Proof. apply filter_split_Permutation. Qed.

(** X7.  When every habit has a periodicity from 1 to 4, the four
    listings [get_habits_by_periodicity] for 1, 2, 3 and 4, as the butler's
    analysis prints them, hold together exactly the names that
    [get_all_habits] returns, each as often as there. *)
Theorem habits_by_periodicity_partition (habit_objects : list Habit.t) :
  (forall habit, In habit habit_objects -> 1 <= Habit.periodicity habit <= 4) ->
  Permutation (Analytics.get_all_habits habit_objects)
    (Analytics.get_habits_by_periodicity habit_objects 1 ++
     Analytics.get_habits_by_periodicity habit_objects 2 ++
     Analytics.get_habits_by_periodicity habit_objects 3 ++
     Analytics.get_habits_by_periodicity habit_objects 4).
Proof.
  intros H.
  unfold Analytics.get_all_habits, Analytics.get_habits_by_periodicity.
  rewrite <- !map_app. apply Permutation_map.
  assert (Keep : forall p q l, p <> q ->
            filter (fun habit => Habit.periodicity habit =? p)
              (filter (fun habit => negb (Habit.periodicity habit =? q)) l) =
            filter (fun habit => Habit.periodicity habit =? p) l).
  { intros p q l N. rewrite filter_twice. apply filter_ext. intros habit.
    destruct (Z.eqb_spec (Habit.periodicity habit) q) as [-> |]; [| reflexivity].
    cbn. symmetry. apply Z.eqb_neq. congruence. }
  etransitivity; [apply (by_periodicity_peel 1) |].
  apply Permutation_app_head.
  etransitivity; [apply (by_periodicity_peel 2) |].
  rewrite Keep by discriminate.
  apply Permutation_app_head.
  etransitivity; [apply (by_periodicity_peel 3) |].
  rewrite !Keep by discriminate.
  apply Permutation_app_head.
  etransitivity; [apply (by_periodicity_peel 4) |].
  rewrite !Keep by discriminate.
  rewrite (filter_none (fun habit => negb (Habit.periodicity habit =? 4)));
    [rewrite app_nil_r; reflexivity |].
  intros habit Hin.
  repeat match goal with
         | Hx : In _ (filter _ _) |- _ => apply filter_In in Hx; destruct Hx as [Hx ?]
         end.
  specialize (H habit Hin).
  repeat match goal with
         | Hx : negb (_ =? _) = true |- _ =>
             apply negb_true_iff in Hx; apply Z.eqb_neq in Hx
         end.
  apply negb_false_iff, Z.eqb_eq. lia.
Qed.

(** X8.  [get_longest_streak_for_habit] compares names after
    [str.lower] and answers for the first habit of the list that
    matches: it returns that habit's longest_streak, and 0 when no habit
    matches. *)
Theorem longest_streak_for_habit_first_match
    (lower : string -> string) (habit_objects : list Habit.t) (habit_name : string) :
  let matches habit := lower (Habit.name habit) = lower habit_name in
  ((forall habit, In habit habit_objects -> ~ matches habit) /\
   Analytics.get_longest_streak_for_habit lower habit_objects habit_name = 0) \/
  (exists pre habit post,
     habit_objects = pre ++ habit :: post /\
     (forall other, In other pre -> ~ matches other) /\
     matches habit /\
     Analytics.get_longest_streak_for_habit lower habit_objects habit_name =
       Habit.longest_streak habit).
Proof.
  cbv zeta. unfold Analytics.get_longest_streak_for_habit.
  induction habit_objects as [| x l IH]; cbn [find].
  - left. split; [intros habit [] | reflexivity].
  - destruct (String.eqb_spec (lower (Habit.name x)) (lower habit_name)) as [E | N].
    + right. exists [], x, l. cbn. split; [reflexivity |].
      split; [intros other [] |]. split; [exact E | reflexivity].
    + destruct IH as [[Hn R] | (pre & habit & post & -> & Hpre & Hm & R)].
      * left. split; [| exact R].
        intros habit [<- | Hh]; [exact N | apply Hn, Hh].
      * right. exists (x :: pre), habit, post. cbn. split; [reflexivity |].
        split; [intros other [<- | Ho]; [exact N | apply Hpre, Ho] |].
        split; [exact Hm | exact R].
Qed.

(** The three habits of the test suite, with the weekly one first. *)
Lemma habits_by_periodicity_partition_witness :
  Permutation ["washing the sheets"%string; "reading"%string; "running"%string]
    ["reading"%string; "running"%string; "washing the sheets"%string].
Proof.
  apply (habits_by_periodicity_partition (rev (test_habits (dt 2024 1 10 12 0 0 0)))).
  intros habit [<- | [<- | [<- | []]]]; cbn; lia.
Defined.

(** ** utils.py: the ordinal suffix of a day *)

Lemma day_cases (day : Z) :
  1 <= day <= 31 ->
  In day [1; 2; 3; 4; 5; 6; 7; 8; 9; 10; 11; 12; 13; 14; 15; 16; 17; 18; 19; 20;
          21; 22; 23; 24; 25; 26; 27; 28; 29; 30; 31].
Proof. intros H. cbn. lia. Qed.

(** X9.  For every day of a month (1 to 31), [get_day_with_suffix]
    returns the decimal digits of the day followed by its English ordinal
    suffix: "st" for 1, 21 and 31, "nd" for 2 and 22, "rd" for 3 and 23,
    and "th" for every other day, 11, 12 and 13 included. *)
Theorem day_suffix_of_month_days (day : Z) :
  1 <= day <= 31 ->
  Utils.get_day_with_suffix day =
  String.append (Utils.str day)
    (if (day =? 1) || (day =? 21) || (day =? 31) then "st"%string
     else if (day =? 2) || (day =? 22) then "nd"%string
     else if (day =? 3) || (day =? 23) then "rd"%string
     else "th"%string).
Proof.
  intros H. apply day_cases in H. cbn [In] in H.
  repeat (destruct H as [<- | H]; [reflexivity |]). destruct H.
Qed.

Lemma day_suffix_of_month_days_witness :
  1 <= 22 <= 31 /\ Utils.get_day_with_suffix 22 = "22nd"%string.
Proof. split; [lia |]. apply (day_suffix_of_month_days 22). lia. Defined.

(** ** models.py: a habit created without a deadline *)

Lemma init_without_date now name p dec fails streak longest_streak :
  Datetime.valid now -> 1 <= p <= 4 -> advanceable p now ->
  exists date,
    Habit.init now name p dec None fails streak longest_streak =
      Ok (Habit.mk name p dec date fails streak longest_streak) /\
    one_period_after p now date /\
    Datetime.valid date /\ datekey now < datekey date /\ same_time now date.
Proof.
  intros V Hp A. unfold Habit.init, Habit.calculate_completion_date.
  set (self := Habit.mk name p dec now 0 0 0).
  destruct (increment_defined self now V Hp A) as [date E].
  rewrite E. exists date. split; [reflexivity |].
  split; [exact (increment_one_period self now date V Hp E) |].
  exact (increment_later self now date V E).
Qed.

(** Before the deadline's day, a check-in is rejected as early and the
    fail sweep finds nothing. *)
Lemma before_deadline_day h now :
  Datetime.valid now -> Datetime.valid (Habit.next_completion_date h) ->
  datekey now < datekey (Habit.next_completion_date h) ->
  Habit.check_in now h = Returns false h [EarlyCheckIn (Habit.name h)] /\
  forall fuel, Habit.calculate_fails (S fuel) now h = Returns false h [].
Proof.
  intros Vn V K. split.
  - rewrite (check_in_unfold now h V). cbv zeta.
    replace (Datetime.ltb now (window_start (Habit.next_completion_date h)))
      with true; [reflexivity |].
    symmetry. apply ltb_iff;
      [apply valid_in_ranges, Vn | apply window_start_in_ranges, V |].
    destruct (window_start_keys (Habit.next_completion_date h)) as [-> _]. lia.
  - intros fuel. rewrite calculate_fails_unfold, (overdue_loop_S fuel now false h V).
    replace (Datetime.ltb (window_end (Habit.next_completion_date h)) now)
      with false; [reflexivity |].
    symmetry. apply not_true_is_false. intros L.
    apply ltb_iff in L;
      [| apply window_end_in_ranges, V | apply valid_in_ranges, Vn].
    destruct (window_end_keys (Habit.next_completion_date h)) as [E _].
    rewrite E in L. lia.
Qed.

Lemma before_start_of_day now date :
  Datetime.valid now -> Datetime.valid date ->
  Datetime.ltb now (start_of_day date) = true -> datekey now < datekey date.
Proof.
  intros Vn V L.
  apply ltb_iff in L;
    [| apply valid_in_ranges, Vn | apply start_of_day_in_ranges, V].
  destruct (start_of_day_keys date) as [E1 E2]. rewrite E1, E2 in L.
  pose proof (valid_in_ranges _ Vn) as R. unfold in_ranges, timekey in *. lia.
Qed.

(** X10.  A habit constructed without a deadline at the time [now], with
    a periodicity from 1 to 4 and [now] a date from which that periodicity
    can advance, gets the deadline one period after [now] (the next day,
    the seventh next day, the day clamped to 28 in the next month, the
    same day of the next year), at the same time of day and on a later
    day.  Until that day begins, every
    check-in is rejected as too early and changes nothing, and the fail
    sweep finds no fail: in particular the habit cannot be checked in at
    the time it is created. *)
Theorem new_habit_not_yet_due now name p dec fails streak longest_streak :
  Datetime.valid now -> 1 <= p <= 4 -> advanceable p now ->
  exists date,
    let habit := Habit.mk name p dec date fails streak longest_streak in
    Habit.init now name p dec None fails streak longest_streak = Ok habit /\
    one_period_after p now date /\
    Datetime.valid date /\ same_time now date /\
    Datetime.ltb now (start_of_day date) = true /\
    forall now',
      Datetime.valid now' -> Datetime.ltb now' (start_of_day date) = true ->
      Habit.check_in now' habit = Returns false habit [EarlyCheckIn name] /\
      forall fuel, Habit.calculate_fails (S fuel) now' habit = Returns false habit [].
Proof.
  intros V Hp A.
  destruct (init_without_date now name p dec fails streak longest_streak V Hp A)
    as (date & E & P & Vd & K & T).
  exists date. cbv zeta. split; [exact E |]. split; [exact P |].
  split; [exact Vd |]. split; [exact T |].
  split.
  - apply ltb_iff;
      [apply valid_in_ranges, V | apply start_of_day_in_ranges, Vd |].
    destruct (start_of_day_keys date) as [-> _]. lia.
  - intros now' Vn' L.
    apply (before_deadline_day (Habit.mk name p dec date fails streak longest_streak) now');
      [exact Vn' | exact Vd |].
    apply before_start_of_day; assumption.
Qed.

(** A monthly habit created on January 31st is due on February 28th. *)
Lemma new_habit_not_yet_due_witness :
  Datetime.valid (dt 2024 1 31 9 30 0 0) /\
  Habit.init (dt 2024 1 31 9 30 0 0) "running" 3 couch None 0 0 0 =
    Ok (Habit.mk "running" 3 couch (dt 2024 2 28 9 30 0 0) 0 0 0) /\
  Habit.check_in (dt 2024 1 31 23 0 0 0)
    (Habit.mk "running" 3 couch (dt 2024 2 28 9 30 0 0) 0 0 0) =
    Returns false (Habit.mk "running" 3 couch (dt 2024 2 28 9 30 0 0) 0 0 0)
      [EarlyCheckIn "running"].
Proof.
  split; [reflexivity |].
  destruct (new_habit_not_yet_due (dt 2024 1 31 9 30 0 0) "running" 3 couch 0 0 0)
    as (date & E & _ & Vd & _ & _ & H).
  - reflexivity.
  - lia.
  - split; [reflexivity | discriminate].
  - cbv zeta in E.
    assert (D : date = dt 2024 2 28 9 30 0 0).
    { vm_compute in E. injection E as <-. reflexivity. }
    subst date. split; [exact E |].
    destruct (H (dt 2024 1 31 23 0 0 0)) as [C _]; [reflexivity | reflexivity | exact C].
Defined.

(** ** __main__.py: the deductions of the start-up sweep *)

Lemma value_max_zero x :
  (Number.value (Number.max x (Number.PyInt 0)) == Qmax (Number.value x) 0)%Q.
Proof.
  unfold Number.max, Number.ltb, Number.leb.
  destruct (Qle_bool (Number.value (Number.PyInt 0)) (Number.value x)) eqn:E; cbn [negb].
  - apply Qle_bool_iff in E. cbn in E. symmetry. apply Q.max_l. exact E.
  - assert (L : ~ (0 <= Number.value x)%Q).
    { intros L. apply Qle_bool_iff in L.
      change (Qle_bool 0 (Number.value x) = false) in E. congruence. }
    change (0 == Qmax (Number.value x) 0)%Q. symmetry. apply Q.max_r.
    apply Qlt_le_weak, Qnot_le_lt, L.
Qed.

Lemma value_sub_half x a :
  (Number.value (Number.sub x (Number.truediv a 2)) == Number.value x - (a # 2))%Q.
Proof.
  unfold Number.truediv.
  destruct x as [n | q]; cbn [Number.sub Number.value];
    rewrite !Qred_correct; reflexivity.
Qed.

Lemma deduct_exp_returns h :
  In (Decoration.state (Habit.decoration h)) Decoration.state_names ->
  exists out,
    Main.deduct_exp h =
    Returns tt (Habit.set_decoration (deducted (Habit.periodicity h) (Habit.decoration h)) h)
      out.
Proof.
  intros Hs. unfold Main.deduct_exp, bind, get, modify, zoom. mcbn.
  set (d' := Decoration.set_exp _ _).
  destruct (update_state_returns d') as [out E]; [exact Hs |].
  rewrite E. exists out. destruct h; reflexivity.
Qed.

Lemma deducted_fields p d :
  Decoration.name (deducted p d) = Decoration.name d /\
  Decoration.room (deducted p d) = Decoration.room d /\
  (Number.value (Decoration.exp (deducted p d)) ==
   Qmax (Number.value (Decoration.exp d) - (award p # 2)) 0)%Q /\
  Decoration.state (deducted p d) = recomputed_state (deducted p d) /\
  (In (Decoration.state d) Decoration.state_names ->
   In (Decoration.state (deducted p d)) Decoration.state_names).
Proof.
  unfold deducted. cbv zeta.
  set (e := Number.max _ _).
  set (d' := Decoration.set_exp e d).
  split; [reflexivity |]. split; [reflexivity |]. split; [| split].
  - cbn [Decoration.exp Decoration.set_state Decoration.set_exp d'].
    unfold e. rewrite value_max_zero, value_sub_half. reflexivity.
  - rewrite (recomputed_state_cases (Decoration.set_state _ _)),
      (recomputed_state_cases d').
    cbn [Decoration.exp Decoration.state Decoration.set_state Decoration.set_exp d'].
    cbv zeta. rewrite (max_zero_nonneg _ : Number.leb (Number.PyInt 0) e = true).
    repeat match goal with
           | |- context [Number.leb ?a ?b] => destruct (Number.leb a b)
           end; reflexivity.
  - intros H. cbn [Decoration.state Decoration.set_state].
    apply recomputed_state_In. exact H.
Qed.

Lemma for_range_deduct_exp k :
  forall h,
    In (Decoration.state (Habit.decoration h)) Decoration.state_names ->
    exists out,
      Main.for_range k Main.deduct_exp h =
      Returns tt
        (Habit.set_decoration
           (Nat.iter k (deducted (Habit.periodicity h)) (Habit.decoration h)) h) out.
Proof.
  induction k as [| k IH]; intros h Hs.
  - exists []. cbn. destruct h; reflexivity.
  - cbn [Main.for_range]. unfold bind.
    destruct (deduct_exp_returns h Hs) as [out1 ->].
    set (h1 := Habit.set_decoration _ h).
    destruct (IH h1) as [out2 E].
    { cbn [h1 Habit.decoration Habit.set_decoration].
      apply deducted_fields, Hs. }
    rewrite E. exists (out1 ++ out2). rewrite Nat.iter_succ_r.
    destruct h; reflexivity.
Qed.

Lemma qmax_step (v a : Q) (k : positive) :
  (0 <= a)%Q ->
  (Qmax (Qmax (v - inject_Z (Z.pos k) * a) 0 - a) 0 ==
   Qmax (v - inject_Z (Z.pos k + 1) * a) 0)%Q.
Proof.
  intros Ha. rewrite inject_Z_plus.
  destruct (Q.max_spec (v - inject_Z (Z.pos k) * a) 0) as [[L ->] | [L ->]].
  - assert (H1 : (0 - a <= 0)%Q) by lra.
    assert (H2 : (v - (inject_Z (Z.pos k) + inject_Z 1) * a <= 0)%Q).
    { change (inject_Z 1) with 1%Q. lra. }
    rewrite (Q.max_r _ _ H1), (Q.max_r _ _ H2). reflexivity.
  - change (inject_Z 1) with 1%Q.
    assert (E : (v - inject_Z (Z.pos k) * a - a ==
                 v - (inject_Z (Z.pos k) + 1) * a)%Q) by ring.
    rewrite E. reflexivity.
Qed.

Lemma iter_deducted_value p d k :
  (0 < k)%nat ->
  (Number.value (Decoration.exp (Nat.iter k (deducted p) d)) ==
   Qmax (Number.value (Decoration.exp d) - inject_Z (Z.of_nat k) * (award p # 2)) 0)%Q.
Proof.
  intros Hk. destruct k as [| k]; [lia |]. clear Hk.
  induction k as [| k IH].
  - cbn [Nat.iter]. destruct (deducted_fields p d) as (_ & _ & -> & _).
    change (inject_Z (Z.of_nat 1)) with 1%Q. rewrite Qmult_1_l. reflexivity.
  - rewrite Nat.iter_succ.
    destruct (deducted_fields p (Nat.iter (S k) (deducted p) d)) as (_ & _ & -> & _).
    rewrite IH.
    replace (Z.of_nat (S (S k))) with (Z.pos (Pos.of_succ_nat k) + 1) by lia.
    replace (Z.of_nat (S k)) with (Z.pos (Pos.of_succ_nat k)) by lia.
    apply qmax_step.
    pose proof (award_nonneg p). unfold Qle. cbn [Qnum Qden]. lia.
Qed.

Lemma iter_deducted_fields p d k :
  Decoration.name (Nat.iter k (deducted p) d) = Decoration.name d /\
  Decoration.room (Nat.iter k (deducted p) d) = Decoration.room d /\
  ((0 < k)%nat ->
   Decoration.state (Nat.iter k (deducted p) d) =
   recomputed_state (Nat.iter k (deducted p) d)).
Proof.
  induction k as [| k IH]; [cbn; repeat split; intros; lia |].
  rewrite Nat.iter_succ.
  destruct (deducted_fields p (Nat.iter k (deducted p) d)) as (-> & -> & _ & S & _).
  destruct IH as (-> & -> & _). repeat split. intros _. exact S.
Qed.

Lemma recomputed_state_label d :
  Number.leb (Number.PyInt 0) (Decoration.exp d) = true ->
  recomputed_state d = label (Decoration.exp d).
Proof.
  intros H. rewrite recomputed_state_cases. cbv zeta. unfold label. rewrite H.
  reflexivity.
Qed.

Lemma iter_deducted_exact p d k :
  Number.subtracts_exactly (Decoration.exp d) = true ->
  Number.subtracts_exactly (Decoration.exp (Nat.iter k (deducted p) d)) = true.
Proof.
  intros Hx. induction k as [| k IH]; [exact Hx |].
  rewrite Nat.iter_succ. unfold deducted at 1. cbv zeta.
  cbn [Decoration.exp Decoration.set_state Decoration.set_exp].
  apply deduction_stays_exact; [apply award_nonneg | exact IH].
Qed.

Lemma iter_deducted_nonneg p d k :
  (0 < k)%nat ->
  Number.leb (Number.PyInt 0) (Decoration.exp (Nat.iter k (deducted p) d)) = true.
Proof.
  intros Hk. destruct k as [| k]; [lia |]. rewrite Nat.iter_succ.
  unfold deducted at 1. cbv zeta.
  cbn [Decoration.exp Decoration.set_state Decoration.set_exp].
  apply max_zero_nonneg.
Qed.

(** X11.  For a habit whose decoration has a state of the table and an
    exp that is an int of magnitude at most 2^51, or a float that is a
    multiple of 1/2 in that range, and for [k >= 1], the [k] rounds of the
    deduction loop of the start-up sweep return and leave the decoration
    with the same name and room, with an exp of value
    [max(exp - k * award / 2, 0)], which is again in that range, and with
    the state of the threshold table for that exp.  The other fields of
    the habit are unchanged. *)
Theorem repeated_deduction_closed_form h k :
  In (Decoration.state (Habit.decoration h)) Decoration.state_names ->
  Number.subtracts_exactly (Decoration.exp (Habit.decoration h)) = true ->
  (0 < k)%nat ->
  exists dec out,
    Main.for_range k Main.deduct_exp h = Returns tt (Habit.set_decoration dec h) out /\
    Decoration.name dec = Decoration.name (Habit.decoration h) /\
    Decoration.room dec = Decoration.room (Habit.decoration h) /\
    (Number.value (Decoration.exp dec) ==
     Qmax (Number.value (Decoration.exp (Habit.decoration h))
           - inject_Z (Z.of_nat k) * (award (Habit.periodicity h) # 2)) 0)%Q /\
    Number.subtracts_exactly (Decoration.exp dec) = true /\
    Decoration.state dec = label (Decoration.exp dec).
Proof.
  intros Hs Hx Hk.
  destruct (for_range_deduct_exp k h Hs) as [out E].
  exists (Nat.iter k (deducted (Habit.periodicity h)) (Habit.decoration h)), out.
  split; [exact E |].
  destruct (iter_deducted_fields (Habit.periodicity h) (Habit.decoration h) k)
    as (N & R & S).
  split; [exact N |]. split; [exact R |].
  split; [apply iter_deducted_value, Hk |].
  split; [apply iter_deducted_exact, Hx |].
  rewrite (S Hk). apply recomputed_state_label, iter_deducted_nonneg, Hk.
Qed.

(** Three deductions of 8 / 2 from the 16 exp of a weekly habit. *)
Lemma repeated_deduction_closed_form_witness :
  exists dec out,
    Main.for_range 3 Main.deduct_exp
      (Habit.mk "reading" 2 plant (dt 2024 1 10 12 0 0 0) 3 0 5) =
    Returns tt (Habit.mk "reading" 2 dec (dt 2024 1 10 12 0 0 0) 3 0 5) out /\
    (Number.value (Decoration.exp dec) == 4)%Q /\
    Decoration.state dec = "Old"%string.
Proof.
  destruct (repeated_deduction_closed_form
              (Habit.mk "reading" 2 plant (dt 2024 1 10 12 0 0 0) 3 0 5) 3)
    as (dec & out & E & _ & _ & Hv & _ & Hs).
  - cbn. tauto.
  - reflexivity.
  - lia.
  - exists dec, out. split; [exact E |].
    assert (V : (Number.value (Decoration.exp dec) == 4)%Q).
    { rewrite Hv. reflexivity. }
    split; [exact V |].
    rewrite Hs. unfold label, Number.leb.
    cbn [Number.value].
    rewrite !V. reflexivity.
Defined.

Lemma sweep_habit_unfold fuel now now' h :
  Datetime.valid (Habit.next_completion_date h) ->
  Main.sweep_habit fuel now now' h =
  if Datetime.ltb (window_end (Habit.next_completion_date h)) now then
    match Habit.calculate_fails fuel now' h with
    | Returns det h1 out1 =>
        if det && (Habit.fails h <? Habit.fails h1) then
          match Main.for_range (Z.to_nat (Habit.fails h1 - Habit.fails h))
                  Main.deduct_exp h1 with
          | Returns _ h2 out2 => Returns true h2 (out1 ++ out2)
          | Raises e h2 out2 => Raises e h2 (out1 ++ out2)
          | OutOfFuel => OutOfFuel
          end
        else Returns false h1 out1
    | Raises e h1 out1 => Raises e h1 out1
    | OutOfFuel => OutOfFuel
    end
  else Returns false h [].
Proof.
  intros V. unfold Main.sweep_habit.
  unfold bind at 1, get at 1.
  unfold bind at 1. rewrite (completion_date_end_valid _ V).
  unfold lift at 1, ret at 1.
  fold (window_end (Habit.next_completion_date h)).
  destruct (Datetime.ltb _ now); [| reflexivity].
  unfold bind at 1.
  destruct (Habit.calculate_fails fuel now' h) as [det h1 out1 | e h1 out1 |];
    [| reflexivity | reflexivity].
  unfold bind at 1, get at 1.
  destruct (det && _); [| unfold ret; rewrite ?app_nil_r; reflexivity].
  unfold bind at 1.
  destruct (Main.for_range _ _ h1) as [[] h2 out2 | e h2 out2 |];
    unfold ret; cbn [app]; rewrite ?app_nil_r; reflexivity.
Qed.

Lemma overdue_later_clock d now now' :
  Datetime.valid d -> Datetime.valid now -> Datetime.valid now' ->
  Datetime.leb now now' = true -> overdue d now = true -> overdue d now' = true.
Proof.
  intros V Vn Vn' L. rewrite !overdue_valid by exact V. intros H.
  apply leb_iff in L; [| apply valid_in_ranges, Vn | apply valid_in_ranges, Vn'].
  apply ltb_iff in H; [| apply window_end_in_ranges, V | apply valid_in_ranges, Vn].
  apply ltb_iff; [apply window_end_in_ranges, V | apply valid_in_ranges, Vn' |].
  lia.
Qed.

(** X12.  The body of the start-up sweep for one habit, with the clock
    read at [now] for the guard and at [now' >= now] inside calculate_fails,
    for a habit with a periodicity from 1 to 4, a decoration state of the
    table, an exp that is an int of magnitude at most 2^51 or a float that
    is a multiple of 1/2 in that range, [now'] before year 9999 and, for a
    yearly habit, a deadline other than February 29th.  If [now] is not after the end bound of the
    deadline, nothing changes and the habit is not reported.  Otherwise
    the habit is reported as failed: some [k >= 1] fails are added, the
    deadline advances by [k] periods to one that is not overdue, streak is
    reset to 0 with longest_streak the greater of the two, and the exp of
    the decoration is [max(exp - k * award / 2, 0)] with the state of the
    table for it. *)
Theorem sweep_habit_reports_overdue h now now' :
  let ncd := Habit.next_completion_date h in
  Datetime.valid now -> Datetime.valid now' -> Datetime.leb now now' = true ->
  Datetime.valid ncd ->
  1 <= Habit.periodicity h <= 4 ->
  Datetime.year now' < Datetime.MAXYEAR ->
  (Habit.periodicity h = 4 -> ~ (Datetime.month ncd = 2 /\ Datetime.day ncd = 29)) ->
  In (Decoration.state (Habit.decoration h)) Decoration.state_names ->
  Number.subtracts_exactly (Decoration.exp (Habit.decoration h)) = true ->
  (overdue ncd now = false ->
   forall fuel, Main.sweep_habit fuel now now' h = Returns false h []) /\
  (overdue ncd now = true ->
   exists (k : nat) date dec out fuel0,
     (0 < k)%nat /\
     advance h k ncd = Ok date /\
     overdue date now' = false /\
     Decoration.name dec = Decoration.name (Habit.decoration h) /\
     Decoration.room dec = Decoration.room (Habit.decoration h) /\
     (Number.value (Decoration.exp dec) ==
      Qmax (Number.value (Decoration.exp (Habit.decoration h))
            - inject_Z (Z.of_nat k) * (award (Habit.periodicity h) # 2)) 0)%Q /\
     Number.subtracts_exactly (Decoration.exp dec) = true /\
     Decoration.state dec = label (Decoration.exp dec) /\
     forall fuel, (fuel0 <= fuel)%nat ->
       Main.sweep_habit fuel now now' h =
       Returns true
         (Habit.mk (Habit.name h) (Habit.periodicity h) dec date
            (Habit.fails h + Z.of_nat k) 0
            (Z.max (Habit.longest_streak h) (Habit.streak h))) out).
Proof.
  intros ncd Vn Vn' L V Hp Hy Hf Hs Hx. split.
  - intros O fuel. rewrite (sweep_habit_unfold fuel now now' h V).
    rewrite (overdue_valid _ now V) in O. fold ncd. rewrite O. reflexivity.
  - intros O.
    pose proof (overdue_later_clock ncd now now' V Vn Vn' L O) as O'.
    destruct (calculate_fails_catches_up h now' Vn' V Hp Hy Hf)
      as (k & date & fuel0 & A & Ho & N & R).
    assert (Hk : (0 < k)%nat).
    { destruct k as [| k]; [| lia].
      rewrite (N 0%nat ncd (Nat.le_refl _) eq_refl) in O'. discriminate. }
    assert (T : (0 <? k)%nat = true) by (apply Nat.ltb_lt; exact Hk).
    rewrite T in R.
    set (h1 := Habit.mk (Habit.name h) (Habit.periodicity h) (Habit.decoration h) date
                 (Habit.fails h + Z.of_nat k) 0
                 (Z.max (Habit.longest_streak h) (Habit.streak h))) in R.
    destruct (for_range_deduct_exp k h1 Hs) as [out E].
    cbn [h1 Habit.periodicity Habit.decoration] in E.
    set (dec := Nat.iter k (deducted (Habit.periodicity h)) (Habit.decoration h)) in E.
    destruct (iter_deducted_fields (Habit.periodicity h) (Habit.decoration h) k)
      as (Nm & Rm & St).
    exists k, date, dec, out, fuel0.
    split; [exact Hk |]. split; [exact A |].
    split; [apply (N k date (Nat.le_refl _) A) |].
    split; [exact Nm |]. split; [exact Rm |].
    split; [apply iter_deducted_value, Hk |].
    split; [apply iter_deducted_exact, Hx |].
    split; [unfold dec; rewrite (St Hk);
            apply recomputed_state_label, iter_deducted_nonneg, Hk |].
    intros fuel Hfuel.
    rewrite (sweep_habit_unfold fuel now now' h V).
    rewrite (overdue_valid _ now V) in O. fold ncd. rewrite O.
    rewrite (R fuel Hfuel).
    cbn [h1 Habit.fails].
    replace (Habit.fails h <? Habit.fails h + Z.of_nat k) with true
      by (symmetry; apply Z.ltb_lt; lia).
    cbn [andb].
    replace (Z.to_nat (Habit.fails h + Z.of_nat k - Habit.fails h)) with k by lia.
    fold h1. rewrite E. reflexivity.
Qed.

(** The habit "running" is swept three days after its deadline. *)
Lemma sweep_habit_reports_overdue_witness :
  overdue (dt 2024 1 10 12 0 0 0) (dt 2024 1 13 13 0 0 0) = true /\
  exists (k : nat) date dec out fuel0,
    (0 < k)%nat /\
    forall fuel, (fuel0 <= fuel)%nat ->
      Main.sweep_habit fuel (dt 2024 1 13 13 0 0 0) (dt 2024 1 13 13 0 0 1)
        (running 1 (dt 2024 1 10 12 0 0 0)) =
      Returns true (Habit.mk "running" 1 dec date (0 + Z.of_nat k) 0 7) out.
Proof.
  split; [reflexivity |].
  destruct (sweep_habit_reports_overdue (running 1 (dt 2024 1 10 12 0 0 0))
              (dt 2024 1 13 13 0 0 0) (dt 2024 1 13 13 0 0 1)) as [_ H];
    try reflexivity.
  - cbn. lia.
  - cbn. discriminate.
  - cbn. tauto.
  - destruct (H eq_refl)
      as (k & date & dec & out & fuel0 & Hk & _ & _ & _ & _ & _ & _ & _ & R).
    exists k, date, dec, out, fuel0. split; [exact Hk | exact R].
Defined.

(** ** conversion.py: decorations *)

Lemma truthy_str s : s <> EmptyString -> Json.truthy (Json.Str s) = true.
Proof.
  intros N. cbn [Json.truthy]. apply negb_true_iff.
  destruct (String.eqb_spec s ""); [contradiction | reflexivity].
Qed.

Lemma convert_decor_serialized rnd_name rnd_room (decoration : Decoration.t) :
  Decoration.name decoration <> EmptyString ->
  Decoration.room decoration <> EmptyString ->
  Decoration.state decoration <> EmptyString ->
  Conversion.convert_decor rnd_name rnd_room (Conversion.decoration_dict decoration) =
  Conversion.Converted decoration.
Proof.
  intros Hn Hr Hs. destruct decoration as [name room state exp].
  cbn [Decoration.name Decoration.room Decoration.state] in *.
  unfold Conversion.convert_decor, Conversion.decoration_dict, Conversion.absent_or_false.
  cbn [Json.lookup String.eqb Ascii.eqb Bool.eqb Decoration.name Decoration.room
       Decoration.state Decoration.exp].
  rewrite (truthy_str name Hn). cbn [negb Json.lookup String.eqb Ascii.eqb Bool.eqb].
  rewrite (truthy_str room Hr). cbn [negb Json.lookup String.eqb Ascii.eqb Bool.eqb].
  rewrite (truthy_str state Hs). reflexivity.
Qed.

(** X13.  The document that is saved for a decoration ([__dict__]) is
    converted back by [convert_decor] into that very decoration when its
    name, room and state are not empty.  When one of them is empty the
    conversion does not substitute a default: it raises [NameError], since
    [corrupted_data] is not a name of conversion.py. *)
Theorem saved_decoration_reloads rnd_name rnd_room (decoration : Decoration.t) :
  (Decoration.name decoration <> EmptyString /\
   Decoration.room decoration <> EmptyString /\
   Decoration.state decoration <> EmptyString ->
   Conversion.convert_decor rnd_name rnd_room (Conversion.decoration_dict decoration) =
   Conversion.Converted decoration) /\
  (Decoration.name decoration = EmptyString \/
   Decoration.room decoration = EmptyString \/
   Decoration.state decoration = EmptyString ->
   Conversion.convert_decor rnd_name rnd_room (Conversion.decoration_dict decoration) =
   Conversion.Fails (Conversion.NameError "corrupted_data")).
Proof.
  split.
  - intros (Hn & Hr & Hs). apply convert_decor_serialized; assumption.
  - intros H. destruct decoration as [name room state exp].
    cbn [Decoration.name Decoration.room Decoration.state] in H.
    unfold Conversion.convert_decor, Conversion.decoration_dict,
      Conversion.absent_or_false.
    destruct (String.eqb name "") eqn:En;
      destruct (String.eqb room "") eqn:Er;
      destruct (String.eqb state "") eqn:Es;
      try (repeat (cbn -[Conversion.random_choice]; rewrite ?En, ?Er, ?Es);
           reflexivity).
    apply String.eqb_neq in En, Er, Es.
    exfalso. destruct H as [H | [H | H]]; contradiction.
Qed.

Lemma saved_decoration_reloads_witness :
  Conversion.convert_decor 0 0 (Conversion.decoration_dict couch) =
    Conversion.Converted couch /\
  Conversion.convert_decor 0 0
    (Conversion.decoration_dict (Decoration.mk "Couch" "" "Old" (Number.PyInt 5))) =
    Conversion.Fails (Conversion.NameError "corrupted_data").
Proof.
  split.
  - apply (proj1 (saved_decoration_reloads 0 0 couch)).
    repeat split; discriminate.
  - apply (proj2 (saved_decoration_reloads 0 0
                    (Decoration.mk "Couch" "" "Old" (Number.PyInt 5)))).
    right. left. reflexivity.
Defined.

Lemma present_and_true k data :
  Conversion.absent_or_false k data = false ->
  exists v, Json.lookup k data = Some v /\ Json.truthy v = true.
Proof.
  unfold Conversion.absent_or_false.
  destruct (Json.lookup k data) as [v |]; [| discriminate].
  intros H. apply negb_false_iff in H. eauto.
Qed.

Lemma str_of_Some v s :
  Conversion.str_of v = Some s -> v = Some (Json.Str s).
Proof. destruct v as [[] |]; cbn; congruence. Qed.

Lemma num_of_Some v n :
  Conversion.num_of v = Some n -> v = Some (Json.Num n).
Proof. destruct v as [[] |]; cbn; congruence. Qed.

Lemma truthy_str_inv s : Json.truthy (Json.Str s) = true -> s <> EmptyString.
Proof. cbn. intros H ->. discriminate. Qed.

Ltac decor_cases :=
  repeat match goal with
         | |- context [Conversion.absent_or_false ?k ?d] =>
             destruct (Conversion.absent_or_false k d)
         | |- context [match Json.lookup "exp" ?d with _ => _ end] =>
             destruct (Json.lookup "exp" d)
         | |- context [Conversion.unexpected_keyword ?p ?d] =>
             destruct (Conversion.unexpected_keyword p d)
         end.

(** X14.  [convert_decor] never returns a decoration with a default
    value.  Whenever it returns, whatever the types of the values, the
    document held the four entries name, room, state and exp, the first
    three with true values.  Whenever it returns a decoration with a name,
    a room and a state that are strings and an exp that is a number, these
    are the values of the document, the first three not empty.  Whenever
    name, room or state is missing or false, or exp is missing, the call
    raises: [TypeError] for an unexpected key, and [NameError]
    otherwise. *)
Theorem convert_decor_never_defaults rnd_name rnd_room (decor_data : Json.dict) :
  (returned (Conversion.convert_decor rnd_name rnd_room decor_data) ->
   Conversion.absent_or_false "name" decor_data = false /\
   Conversion.absent_or_false "room" decor_data = false /\
   Conversion.absent_or_false "state" decor_data = false /\
   Json.lookup "exp" decor_data <> None) /\
  (forall decoration,
     Conversion.convert_decor rnd_name rnd_room decor_data =
       Conversion.Converted decoration ->
     Json.lookup "name" decor_data = Some (Json.Str (Decoration.name decoration)) /\
     Json.lookup "room" decor_data = Some (Json.Str (Decoration.room decoration)) /\
     Json.lookup "state" decor_data = Some (Json.Str (Decoration.state decoration)) /\
     Json.lookup "exp" decor_data = Some (Json.Num (Decoration.exp decoration)) /\
     Decoration.name decoration <> EmptyString /\
     Decoration.room decoration <> EmptyString /\
     Decoration.state decoration <> EmptyString) /\
  (Conversion.absent_or_false "name" decor_data = true \/
   Conversion.absent_or_false "room" decor_data = true \/
   Conversion.absent_or_false "state" decor_data = true \/
   Json.lookup "exp" decor_data = None ->
   Conversion.convert_decor rnd_name rnd_room decor_data =
     Conversion.Fails Conversion.TypeError \/
   Conversion.convert_decor rnd_name rnd_room decor_data =
     Conversion.Fails (Conversion.NameError "corrupted_data")).
Proof.
  assert (Raises :
    Conversion.absent_or_false "name" decor_data = true \/
    Conversion.absent_or_false "room" decor_data = true \/
    Conversion.absent_or_false "state" decor_data = true \/
    Json.lookup "exp" decor_data = None ->
    Conversion.convert_decor rnd_name rnd_room decor_data =
      Conversion.Fails Conversion.TypeError \/
    Conversion.convert_decor rnd_name rnd_room decor_data =
      Conversion.Fails (Conversion.NameError "corrupted_data")).
  { unfold Conversion.convert_decor.
    destruct (Conversion.absent_or_false "name" decor_data) eqn:A1;
      [intros _; decor_cases; cbn; auto |].
    destruct (Conversion.absent_or_false "room" decor_data) eqn:A2;
      [intros _; decor_cases; cbn; auto |].
    destruct (Conversion.absent_or_false "state" decor_data) eqn:A3;
      [intros _; decor_cases; cbn; auto |].
    destruct (Json.lookup "exp" decor_data) as [vexp |] eqn:A4;
      [| intros _; decor_cases; cbn; auto].
    intros [H | [H | [H | H]]]; discriminate. }
  split; [| split; [| exact Raises]].
  - intros R.
    assert (N : forall P : Prop,
              (P -> Conversion.convert_decor rnd_name rnd_room decor_data =
                      Conversion.Fails Conversion.TypeError \/
                    Conversion.convert_decor rnd_name rnd_room decor_data =
                      Conversion.Fails (Conversion.NameError "corrupted_data")) ->
              ~ P).
    { intros P HP p. destruct (HP p) as [E | E]; rewrite E in R; exact R. }
    repeat split.
    + destruct (Conversion.absent_or_false "name" decor_data); [| reflexivity].
      exfalso. apply (N _ Raises). auto.
    + destruct (Conversion.absent_or_false "room" decor_data); [| reflexivity].
      exfalso. apply (N _ Raises). auto.
    + destruct (Conversion.absent_or_false "state" decor_data); [| reflexivity].
      exfalso. apply (N _ Raises). auto.
    + intros E. apply (N _ Raises). auto.
  - intros decoration. unfold Conversion.convert_decor.
    destruct (Conversion.absent_or_false "name" decor_data) eqn:A1;
      [decor_cases; cbn; discriminate |].
    destruct (Conversion.absent_or_false "room" decor_data) eqn:A2;
      [decor_cases; cbn; discriminate |].
    destruct (Conversion.absent_or_false "state" decor_data) eqn:A3;
      [decor_cases; cbn; discriminate |].
    destruct (Json.lookup "exp" decor_data) as [vexp |] eqn:A4;
      [| decor_cases; cbn; discriminate].
    destruct (Conversion.unexpected_keyword _ decor_data); [discriminate |].
    rewrite A4.
    destruct (Conversion.str_of (Json.lookup "name" decor_data)) as [name |] eqn:E1;
      [| discriminate].
    destruct (Conversion.str_of (Json.lookup "room" decor_data)) as [room |] eqn:E2;
      [| discriminate].
    destruct (Conversion.str_of (Json.lookup "state" decor_data)) as [state |] eqn:E3;
      [| discriminate].
    destruct (Conversion.num_of (Some vexp)) as [exp |] eqn:E4; [| discriminate].
    intros H. injection H as <-.
    cbn [Decoration.name Decoration.room Decoration.state Decoration.exp].
    apply str_of_Some in E1, E2, E3. apply num_of_Some in E4.
    destruct (present_and_true _ _ A1) as (v1 & L1 & T1).
    destruct (present_and_true _ _ A2) as (v2 & L2 & T2).
    destruct (present_and_true _ _ A3) as (v3 & L3 & T3).
    rewrite E1 in L1. rewrite E2 in L2. rewrite E3 in L3.
    injection L1 as <-. injection L2 as <-. injection L3 as <-.
    repeat split; auto using truthy_str_inv.
Qed.

(** A document without exp, and a document whose name is the number 5:
    the first raises, the second is converted to an object with that
    name. *)
Lemma convert_decor_never_defaults_witness :
  (Conversion.convert_decor 0 0
     [("name"%string, Json.Str "Couch"); ("room"%string, Json.Str "Living Room");
      ("state"%string, Json.Str "Old")] =
     Conversion.Fails Conversion.TypeError \/
   Conversion.convert_decor 0 0
     [("name"%string, Json.Str "Couch"); ("room"%string, Json.Str "Living Room");
      ("state"%string, Json.Str "Old")] =
     Conversion.Fails (Conversion.NameError "corrupted_data")) /\
  Conversion.convert_decor 0 0
    [("name"%string, Json.Num (Number.PyInt 5));
     ("room"%string, Json.Str "Living Room"); ("state"%string, Json.Str "Old");
     ("exp"%string, Json.Num (Number.PyInt 0))] = Conversion.Untyped /\
  Conversion.absent_or_false "name"
    [("name"%string, Json.Num (Number.PyInt 5));
     ("room"%string, Json.Str "Living Room"); ("state"%string, Json.Str "Old");
     ("exp"%string, Json.Num (Number.PyInt 0))] = false.
Proof.
  split; [| split; [reflexivity |]].
  - apply (proj2 (proj2 (convert_decor_never_defaults 0 0
                           [("name"%string, Json.Str "Couch");
                            ("room"%string, Json.Str "Living Room");
                            ("state"%string, Json.Str "Old")]))).
    right. right. right. reflexivity.
  - apply (proj1 (convert_decor_never_defaults 0 0
                    [("name"%string, Json.Num (Number.PyInt 5));
                     ("room"%string, Json.Str "Living Room");
                     ("state"%string, Json.Str "Old");
                     ("exp"%string, Json.Num (Number.PyInt 0))])).
    exact I.
Defined.

(** ** conversion.py: habits *)

Lemma zero_padded_not_empty width n :
  exists c s, Conversion.zero_padded (S width) n = String c s.
Proof.
  cbn [Conversion.zero_padded].
  destruct (Conversion.zero_padded width (n / 10)) as [| c s]; cbn; eauto.
Qed.

Lemma isoformat_not_empty d : Conversion.isoformat d <> EmptyString.
Proof.
  unfold Conversion.isoformat.
  destruct (zero_padded_not_empty 3 (Datetime.year d)) as (c & s & ->).
  cbn. discriminate.
Qed.

Lemma matched_decor_serialized decoration decor_objects :
  Conversion.matched_decor (Conversion.decoration_dict decoration) decor_objects =
  Conversion.Converted
    (find (fun decor => Decoration.eqb decor decoration) decor_objects).
Proof.
  induction decor_objects as [| decor rest IH]; [reflexivity |].
  cbn [Conversion.matched_decor find].
  unfold Conversion.equals_entry, Conversion.decoration_dict, Decoration.eqb.
  cbn [Json.lookup String.eqb Ascii.eqb Bool.eqb Conversion.and_then].
  destruct (String.eqb (Decoration.name decor) (Decoration.name decoration));
    cbn [andb Conversion.and_then]; [| exact IH].
  destruct (String.eqb (Decoration.room decor) (Decoration.room decoration));
    cbn [andb Conversion.and_then]; [| exact IH].
  destruct (String.eqb (Decoration.state decor) (Decoration.state decoration));
    cbn [andb Conversion.and_then]; [reflexivity | exact IH].
Qed.

Lemma convert_habit_serialized
    (fromisoformat : string -> option Datetime.t) now rnd_decor rnd_name rnd_room
    (habit : Habit.t) (decor_objects : list Decoration.t) :
  Habit.name habit <> EmptyString ->
  Habit.periodicity habit <> 0 ->
  fromisoformat (Conversion.isoformat (Habit.next_completion_date habit)) =
    Some (Habit.next_completion_date habit) ->
  (find (fun decor => Decoration.eqb decor (Habit.decoration habit)) decor_objects = None ->
   Decoration.name (Habit.decoration habit) <> EmptyString /\
   Decoration.room (Habit.decoration habit) <> EmptyString /\
   Decoration.state (Habit.decoration habit) <> EmptyString) ->
  Conversion.convert_habit fromisoformat now rnd_decor rnd_name rnd_room
    (Conversion.serialized habit) decor_objects =
  Conversion.Converted
    (Habit.set_decoration (relinked (Habit.decoration habit) decor_objects) habit).
Proof.
  intros Hn Hp Hd Hdec. destruct habit as [name p decoration ncd fails streak longest].
  cbn [Habit.name Habit.periodicity Habit.decoration Habit.next_completion_date
       Habit.fails Habit.streak Habit.longest_streak Habit.set_decoration] in *.
  unfold Conversion.convert_habit, Conversion.serialized, Conversion.absent_or_false.
  cbn [Json.lookup String.eqb Ascii.eqb Bool.eqb Habit.name Habit.periodicity
       Habit.decoration Habit.next_completion_date Habit.fails Habit.streak
       Habit.longest_streak].
  rewrite (truthy_str _ (isoformat_not_empty ncd)), Hd.
  cbn [Conversion.and_then app].
  rewrite (truthy_str name Hn). cbn [negb].
  assert (Tp : Json.truthy (Json.Num (Number.PyInt p)) = true).
  { cbn [Json.truthy Number.value]. apply negb_true_iff.
    destruct (Qeq_bool (inject_Z p) 0) eqn:E; [| reflexivity].
    apply Qeq_bool_iff in E. unfold Qeq in E. cbn in E. lia. }
  rewrite Tp. cbn [negb Json.lookup String.eqb Ascii.eqb Bool.eqb].
  rewrite matched_decor_serialized. cbn [Conversion.and_then].
  unfold relinked in *.
  destruct (find _ decor_objects) as [decor |] eqn:F.
  - cbn [Conversion.unexpected_keyword existsb fst String.eqb Ascii.eqb Bool.eqb
         negb orb].
    reflexivity.
  - destruct (Hdec eq_refl) as (N1 & N2 & N3).
    rewrite (convert_decor_serialized rnd_name rnd_room decoration N1 N2 N3).
    cbn [Conversion.and_then].
    cbn [Conversion.unexpected_keyword existsb fst String.eqb Ascii.eqb Bool.eqb
         negb orb].
    reflexivity.
Qed.

(** X15.  The document that [serialize_habits] writes for a habit is
    converted back by [convert_habit] into the same habit, linked to the
    first decoration of [decor_objects] that equals the saved one (on name,
    room and state) or, when there is none, to the saved decoration itself;
    in both cases to a decoration that equals the saved one.  This holds
    for a habit with a name that is not empty and a periodicity other than
    0, a deadline that [fromisoformat] reads back from its ISO format and,
    when no decoration of the list matches, a decoration whose name, room
    and state are not empty.  Neither the clock nor the random draws
    matter. *)
Theorem convert_habit_round_trip
    (fromisoformat : string -> option Datetime.t) now rnd_decor rnd_name rnd_room
    (habit : Habit.t) (decor_objects : list Decoration.t) :
  Habit.name habit <> EmptyString ->
  Habit.periodicity habit <> 0 ->
  fromisoformat (Conversion.isoformat (Habit.next_completion_date habit)) =
    Some (Habit.next_completion_date habit) ->
  (find (fun decor => Decoration.eqb decor (Habit.decoration habit)) decor_objects = None ->
   Decoration.name (Habit.decoration habit) <> EmptyString /\
   Decoration.room (Habit.decoration habit) <> EmptyString /\
   Decoration.state (Habit.decoration habit) <> EmptyString) ->
  Conversion.convert_habit fromisoformat now rnd_decor rnd_name rnd_room
    (Conversion.serialized habit) decor_objects =
  Conversion.Converted
    (Habit.set_decoration (relinked (Habit.decoration habit) decor_objects) habit) /\
  Decoration.eqb (relinked (Habit.decoration habit) decor_objects)
    (Habit.decoration habit) = true.
Proof.
  intros Hn Hp Hd Hdec. split.
  - apply convert_habit_serialized; assumption.
  - unfold relinked.
    destruct (find _ decor_objects) as [decor |] eqn:F.
    + apply find_some in F. apply F.
    + unfold Decoration.eqb. rewrite !String.eqb_refl. reflexivity.
Qed.

(** The habit "running" of the test suite is reloaded as it was saved. *)
Lemma convert_habit_round_trip_witness :
  Conversion.convert_habit parse_isoformat (dt 2024 1 9 8 0 0 0) 0 0 0
    (Conversion.serialized (running 1 (dt 2024 1 10 12 0 0 500000))) [plant; couch] =
  Conversion.Converted (running 1 (dt 2024 1 10 12 0 0 500000)).
Proof.
  apply (convert_habit_round_trip parse_isoformat (dt 2024 1 9 8 0 0 0) 0 0 0
           (running 1 (dt 2024 1 10 12 0 0 500000)) [plant; couch]).
  - discriminate.
  - discriminate.
  - reflexivity.
  - discriminate.
Defined.

Lemma int_of_Some v n :
  Conversion.int_of v None = Some n -> v = Some (Json.Num (Number.PyInt n)).
Proof. destruct v as [[| | [] | | |] |]; cbn; congruence. Qed.

Lemma matched_decor_In data decor_objects decor :
  Conversion.matched_decor data decor_objects = Conversion.Converted (Some decor) ->
  In decor decor_objects.
Proof.
  induction decor_objects as [| d rest IH]; cbn [Conversion.matched_decor];
    [discriminate |].
  destruct (Conversion.equals_entry (Decoration.name d) "name" data) as [[] | |];
    cbn [Conversion.and_then]; try discriminate;
    [| intros H; right; exact (IH H)].
  destruct (Conversion.equals_entry (Decoration.room d) "room" data) as [[] | |];
    cbn [Conversion.and_then]; try discriminate;
    [| intros H; right; exact (IH H)].
  destruct (Conversion.equals_entry (Decoration.state d) "state" data) as [[] | |];
    cbn [Conversion.and_then]; try discriminate;
    [| intros H; right; exact (IH H)].
  intros H. injection H as <-. left. reflexivity.
Qed.

Lemma matched_decor_result data decor_objects :
  (exists matched,
     Conversion.matched_decor data decor_objects = Conversion.Converted matched) \/
  (exists e, Conversion.matched_decor data decor_objects = Conversion.Fails e).
Proof.
  assert (E : forall attribute k,
            (exists b, Conversion.equals_entry attribute k data = Conversion.Converted b) \/
            (exists e, Conversion.equals_entry attribute k data = Conversion.Fails e)).
  { intros attribute k. unfold Conversion.equals_entry.
    destruct (Json.lookup k data) as [[] |]; eauto. }
  induction decor_objects as [| d rest IH]; cbn [Conversion.matched_decor]; [eauto |].
  destruct (E (Decoration.name d) "name"%string) as [[[] ->] | [e ->]];
    cbn [Conversion.and_then]; eauto.
  destruct (E (Decoration.room d) "room"%string) as [[[] ->] | [e ->]];
    cbn [Conversion.and_then]; eauto.
  destruct (E (Decoration.state d) "state"%string) as [[[] ->] | [e ->]];
    cbn [Conversion.and_then]; eauto.
Qed.

(** With a field that needed a default, the constructor may return or
    raise, and line 81 raises if it returned. *)
Lemma construct_corrupted now habit_data next_completion_date decoration field fields :
  ~ returned (Conversion.construct now habit_data next_completion_date decoration
                (field :: fields)).
Proof.
  unfold Conversion.construct.
  repeat match goal with
         | |- context [match ?x with _ => _ end] =>
             lazymatch x with
             | context [match _ with _ => _ end] => fail
             | _ => destruct x
             end
         end; cbn; tauto.
Qed.

(** A conversion of which a step needed a default does not return. *)
Ltac needs_default R :=
  exfalso; revert R;
  repeat first
    [ progress cbn [Conversion.and_then app returned]
    | match goal with
      | |- False -> False => exact (fun f => f)
      | |- returned (Conversion.construct _ _ _ _ (_ :: _)) -> False =>
          apply construct_corrupted
      | |- context [Conversion.matched_decor ?data ?decor_objects] =>
          destruct (matched_decor_result data decor_objects) as [[? ->] | [? ->]]
      | |- context [match ?x with _ => _ end] =>
          lazymatch x with
          | context [match _ with _ => _ end] => fail
          | context [Conversion.and_then _ _] => fail
          | context [Conversion.matched_decor _ _] => fail
          | _ => destruct x
          end
      end ].

(** A conversion that returns has found the deadline, the name, the
    periodicity and the decoration in the document, and ends with the
    constructor of Habit, called without a corrupted field. *)
Lemma convert_habit_returns
    (fromisoformat : string -> option Datetime.t) now rnd_decor rnd_name rnd_room
    (habit_data : Json.dict) (decor_objects : list Decoration.t) :
  returned (Conversion.convert_habit fromisoformat now rnd_decor rnd_name rnd_room
              habit_data decor_objects) ->
  exists s date decor_data decoration,
    Json.lookup "next_completion_date" habit_data = Some (Json.Str s) /\
    fromisoformat s = Some date /\
    Conversion.absent_or_false "name" habit_data = false /\
    Conversion.absent_or_false "periodicity" habit_data = false /\
    Json.lookup "decoration" habit_data = Some (Json.Obj decor_data) /\
    match decoration with
    | Conversion.Typed decor =>
        In decor decor_objects \/
        Conversion.convert_decor rnd_name rnd_room decor_data = Conversion.Converted decor
    | Conversion.OtherTypes =>
        Conversion.convert_decor rnd_name rnd_room decor_data = Conversion.Untyped
    | Conversion.NoneValue => False
    end /\
    Conversion.convert_habit fromisoformat now rnd_decor rnd_name rnd_room
      habit_data decor_objects =
    Conversion.construct now habit_data (Some date) decoration [].
Proof.
  unfold Conversion.convert_habit. intros R.
  destruct (Json.lookup "next_completion_date" habit_data) as [vd |] eqn:Ld;
    [| needs_default R].
  destruct (Json.truthy vd) eqn:Td; [| needs_default R].
  destruct vd as [| | | s | |]; try (exfalso; exact R).
  destruct (fromisoformat s) as [date |] eqn:Fd; [| needs_default R].
  cbn [Conversion.and_then] in R |- *.
  destruct (Conversion.absent_or_false "name" habit_data) eqn:An; [exfalso; exact R |].
  destruct (Conversion.absent_or_false "periodicity" habit_data) eqn:Ap;
    [needs_default R |].
  destruct (Json.lookup "decoration" habit_data) as [vdec |] eqn:Ldec;
    [| needs_default R].
  destruct vdec as [| | | | | decor_data]; try (needs_default R; fail).
  exists s, date, decor_data.
  destruct (matched_decor_result decor_data decor_objects) as [[matched Md] | [e Md]];
    rewrite Md in R |- *; cbn [Conversion.and_then] in R |- *; [| exfalso; exact R].
  destruct matched as [decor |].
  - exists (Conversion.Typed decor). repeat split; auto.
    left. exact (matched_decor_In decor_data decor_objects decor Md).
  - destruct (Conversion.convert_decor rnd_name rnd_room decor_data) as [decor | e |] eqn:Cd;
      cbn [Conversion.and_then] in R |- *; [| exfalso; exact R |].
    + exists (Conversion.Typed decor). repeat split; auto.
    + exists Conversion.OtherTypes. repeat split; auto.
Qed.

(** X16.  [convert_habit] never returns a habit for a document that
    needed a default.  Whenever it returns, whatever the types of the
    values, the document held a deadline string that [fromisoformat]
    reads, a name and a periodicity with true values and a decoration
    document, which matched a decoration of [decor_objects] or for which
    [convert_decor] returned.  Whenever it returns a habit with fields of
    the documented types, that string reads as the deadline of the habit,
    the document held the name of the habit, not empty, and its
    periodicity, not 0, and the decoration of the habit is one of
    [decor_objects] or the conversion of the decoration document. *)
Theorem convert_habit_never_defaults
    (fromisoformat : string -> option Datetime.t) now rnd_decor rnd_name rnd_room
    (habit_data : Json.dict) (decor_objects : list Decoration.t) :
  (returned (Conversion.convert_habit fromisoformat now rnd_decor rnd_name rnd_room
               habit_data decor_objects) ->
   (exists s date,
      Json.lookup "next_completion_date" habit_data = Some (Json.Str s) /\
      fromisoformat s = Some date) /\
   Conversion.absent_or_false "name" habit_data = false /\
   Conversion.absent_or_false "periodicity" habit_data = false /\
   exists decor_data,
     Json.lookup "decoration" habit_data = Some (Json.Obj decor_data) /\
     ((exists decor,
         Conversion.matched_decor decor_data decor_objects =
           Conversion.Converted (Some decor)) \/
      returned (Conversion.convert_decor rnd_name rnd_room decor_data))) /\
  (forall habit,
     Conversion.convert_habit fromisoformat now rnd_decor rnd_name rnd_room
       habit_data decor_objects = Conversion.Converted habit ->
     (exists s,
        Json.lookup "next_completion_date" habit_data = Some (Json.Str s) /\
        fromisoformat s = Some (Habit.next_completion_date habit)) /\
     Json.lookup "name" habit_data = Some (Json.Str (Habit.name habit)) /\
     Habit.name habit <> EmptyString /\
     Json.lookup "periodicity" habit_data =
       Some (Json.Num (Number.PyInt (Habit.periodicity habit))) /\
     Habit.periodicity habit <> 0 /\
     exists decor_data,
       Json.lookup "decoration" habit_data = Some (Json.Obj decor_data) /\
       (In (Habit.decoration habit) decor_objects \/
        Conversion.convert_decor rnd_name rnd_room decor_data =
          Conversion.Converted (Habit.decoration habit))).
Proof.
  split.
  - intros R. pose proof R as R0. revert R0.
    unfold Conversion.convert_habit.
    destruct (convert_habit_returns _ _ _ _ _ _ _ R)
      as (s & date & decor_data & decoration & Ld & Fd & An & Ap & Ldec & Hdec & _).
    intros R0.
    split; [eauto |]. split; [exact An |]. split; [exact Ap |].
    exists decor_data. split; [exact Ldec |].
    rewrite Ld, Fd, An, Ap, Ldec in R0.
    destruct (Json.truthy (Json.Str s)); [| needs_default R0].
    cbn [Conversion.and_then] in R0.
    destruct (matched_decor_result decor_data decor_objects) as [[matched Md] | [e Md]];
      rewrite Md in R0 |- *; cbn [Conversion.and_then] in R0; [| exfalso; exact R0].
    destruct matched as [decor |]; [left; eauto | right].
    destruct (Conversion.convert_decor rnd_name rnd_room decor_data);
      cbn [returned]; [exact I | exact R0 | exact I].
  - intros habit H.
    assert (R : returned (Conversion.convert_habit fromisoformat now rnd_decor rnd_name
                            rnd_room habit_data decor_objects))
      by (rewrite H; exact I).
    destruct (convert_habit_returns _ _ _ _ _ _ _ R)
      as (s & date & decor_data & decoration & Ld & Fd & An & Ap & Ldec & Hdec & E).
    rewrite E in H. unfold Conversion.construct in H.
    destruct (Conversion.unexpected_keyword _ _); [discriminate H |].
    destruct (Conversion.str_of _) as [name |] eqn:E1; [| discriminate H].
    destruct (Conversion.int_of (Json.lookup "periodicity" habit_data) None)
      as [p |] eqn:E2; [| discriminate H].
    destruct decoration as [decor | |]; try discriminate H.
    destruct (Conversion.int_of (Json.lookup "fails" habit_data) _); [| discriminate H].
    destruct (Conversion.int_of (Json.lookup "streak" habit_data) _); [| discriminate H].
    destruct (Conversion.int_of (Json.lookup "longest_streak" habit_data) _);
      [| discriminate H].
    cbn [Habit.init] in H. injection H as <-.
    apply str_of_Some in E1. apply int_of_Some in E2.
    cbn [Habit.name Habit.periodicity Habit.decoration Habit.next_completion_date].
    destruct (present_and_true _ _ An) as (vn & Ln & Tn).
    destruct (present_and_true _ _ Ap) as (vp & Lp & Tp).
    rewrite E1 in Ln. injection Ln as <-. rewrite E2 in Lp. injection Lp as <-.
    split; [exists s; split; [exact Ld | exact Fd] |].
    split; [exact E1 |]. split; [apply truthy_str_inv, Tn |].
    split; [exact E2 |]. split.
    + intros Z0. rewrite Z0 in Tp. discriminate Tp.
    + exists decor_data. split; [exact Ldec | exact Hdec].
Qed.

(** The document of the habit "running" with the boolean [True] as its
    periodicity: the conversion returns, and the habit holds that
    value. *)
Lemma convert_habit_never_defaults_witness :
  let document :=
    Json.store "periodicity" (Json.Bool true)
      (Conversion.serialized (running 1 (dt 2024 1 10 12 0 0 0))) in
  Conversion.convert_habit parse_isoformat (dt 2024 1 9 8 0 0 0) 0 0 0 document [couch] =
    Conversion.Untyped /\
  Conversion.absent_or_false "periodicity" document = false /\
  exists s date,
    Json.lookup "next_completion_date" document = Some (Json.Str s) /\
    parse_isoformat s = Some date.
Proof.
  cbv zeta. split; [reflexivity |].
  destruct (proj1 (convert_habit_never_defaults parse_isoformat (dt 2024 1 9 8 0 0 0)
                     0 0 0
                     (Json.store "periodicity" (Json.Bool true)
                        (Conversion.serialized (running 1 (dt 2024 1 10 12 0 0 0))))
                     [couch]))
    as (D & _ & P & _).
  - exact I.
  - split; [exact P | exact D].
Defined.

(** ** __main__.py: linking a decoration *)

Lemma remove_at_app {A} (pre : list A) x post :
  Main.remove_at (List.length pre) (pre ++ x :: post) = pre ++ post.
Proof.
  induction pre as [| y pre IH]; cbn; [reflexivity |]. rewrite IH. reflexivity.
Qed.

Lemma decor_check_from_spec {T} (decoration_of : T -> Decoration.t) decoration
    current_habit answers (habit_objects rest : list T) :
  forall done,
    habit_objects = done ++ rest ->
    (forall i habit, nth_error done i = Some habit ->
       conflicts decoration_of decoration current_habit i habit = false) ->
    (Main.decor_check_from decoration_of decoration current_habit answers habit_objects
       (List.length done) rest = Main.Answered (true, habit_objects) /\
     forall i habit, nth_error habit_objects i = Some habit ->
       conflicts decoration_of decoration current_habit i habit = false) \/
    (exists pre habit post,
       habit_objects = pre ++ habit :: post /\
       conflicts decoration_of decoration current_habit (List.length pre) habit = true /\
       (forall i other, nth_error pre i = Some other ->
          conflicts decoration_of decoration current_habit i other = false) /\
       Main.decor_check_from decoration_of decoration current_habit answers habit_objects
         (List.length done) rest =
       match Main.ask_yes_no answers with
       | Main.Answered proceed =>
           Main.Answered (proceed, if proceed then pre ++ post else habit_objects)
       | Main.ToMainMenu => Main.ToMainMenu
       | Main.EndOfInput => Main.EndOfInput
       end).
Proof.
  induction rest as [| habit rest IH]; intros done E Hdone.
  - left. split; [reflexivity |]. rewrite app_nil_r in E. subst. exact Hdone.
  - cbn [Main.decor_check_from].
    fold (conflicts decoration_of decoration current_habit (List.length done) habit).
    destruct (conflicts decoration_of decoration current_habit (List.length done) habit) eqn:C.
    + right. exists done, habit, rest.
      split; [exact E |]. split; [exact C |]. split; [exact Hdone |].
      destruct (Main.ask_yes_no answers) as [[] | |]; try reflexivity.
      rewrite E, remove_at_app. reflexivity.
    + destruct (IH (done ++ [habit])) as [H | H].
      * rewrite <- app_assoc. exact E.
      * intros i other Hi.
        destruct (Nat.lt_ge_cases i (List.length done)) as [L | L].
        -- rewrite nth_error_app1 in Hi by exact L. apply Hdone, Hi.
        -- rewrite nth_error_app2 in Hi by exact L.
           destruct (i - List.length done)%nat as [| n] eqn:D.
           ++ cbn in Hi. injection Hi as <-.
              replace i with (List.length done) by lia. exact C.
           ++ cbn in Hi. destruct n; discriminate Hi.
      * left. rewrite length_app in H. cbn [List.length] in H.
        replace (List.length done + 1)%nat with (S (List.length done)) in H by lia.
        exact H.
      * right. rewrite length_app in H. cbn [List.length] in H.
        replace (List.length done + 1)%nat with (S (List.length done)) in H by lia.
        exact H.
Qed.

(** X17.  [decor_check] looks for the first habit of the list, other
    than the one that is edited, whose decoration equals the chosen one on
    name, room and state.  When there is none it returns [True] without
    asking and leaves the list as it is.  Otherwise it asks until the line
    is x, yes or no: on yes it deletes that first habit, keeps every other
    habit in place (later habits with an equal decoration included) and
    returns [True]; on no it returns [False] and leaves the list as it is;
    on x or at the end of the input it does not return. *)
Theorem decor_check_removes_first_link {T} (decoration_of : T -> Decoration.t)
    decoration (habit_objects : list T) current_habit answers :
  ((forall i habit, nth_error habit_objects i = Some habit ->
      conflicts decoration_of decoration current_habit i habit = false) /\
   Main.decor_check decoration_of decoration habit_objects current_habit answers =
     Main.Answered (true, habit_objects)) \/
  (exists pre habit post,
     habit_objects = pre ++ habit :: post /\
     conflicts decoration_of decoration current_habit (List.length pre) habit = true /\
     (forall i other, nth_error pre i = Some other ->
        conflicts decoration_of decoration current_habit i other = false) /\
     Main.decor_check decoration_of decoration habit_objects current_habit answers =
       match Main.ask_yes_no answers with
       | Main.Answered proceed =>
           Main.Answered (proceed, if proceed then pre ++ post else habit_objects)
       | Main.ToMainMenu => Main.ToMainMenu
       | Main.EndOfInput => Main.EndOfInput
       end).
Proof.
  unfold Main.decor_check.
  destruct (decor_check_from_spec decoration_of decoration current_habit answers habit_objects
              habit_objects [] eq_refl) as [[R H] | H].
  - intros [| i] habit Hi; discriminate Hi.
  - left. split; [exact H | exact R].
  - right. exact H.
Qed.

(** X18.  For a new habit (no habit is being edited): when at most one
    habit of the list is linked to a decoration equal to the chosen one and
    [decor_check] returns [True], no habit of the list it leaves is linked
    to such a decoration, and that list is the former one, or the former
    one without one habit that was linked to it. *)
Theorem decor_check_frees_decoration {T} (decoration_of : T -> Decoration.t)
    decoration (habit_objects : list T) answers left_over :
  (forall i j a b,
     nth_error habit_objects i = Some a -> nth_error habit_objects j = Some b ->
     Decoration.eqb (decoration_of a) decoration = true ->
     Decoration.eqb (decoration_of b) decoration = true -> i = j) ->
  Main.decor_check decoration_of decoration habit_objects None answers =
    Main.Answered (true, left_over) ->
  (forall habit, In habit left_over ->
     Decoration.eqb (decoration_of habit) decoration = false) /\
  (left_over = habit_objects \/
   exists pre habit post,
     habit_objects = pre ++ habit :: post /\ left_over = pre ++ post /\
     Decoration.eqb (decoration_of habit) decoration = true).
Proof.
  intros U. unfold Main.decor_check.
  assert (C : forall i habit, conflicts decoration_of decoration None i habit =
                              Decoration.eqb (decoration_of habit) decoration).
  { intros i habit. unfold conflicts. apply andb_true_r. }
  destruct (decor_check_from_spec decoration_of decoration None answers habit_objects
              habit_objects [] eq_refl) as [[R H] | (pre & habit & post & E & Hc & Hpre & R)].
  - intros [| i] habit Hi; discriminate Hi.
  - cbn [List.length] in R. rewrite R. intros Q. injection Q as <-.
    split; [| left; reflexivity].
    intros habit Hin. apply In_nth_error in Hin. destruct Hin as [i Hi].
    rewrite <- (C i). exact (H i habit Hi).
  - cbn [List.length] in R. rewrite R.
    destruct (Main.ask_yes_no answers) as [[] | |]; try discriminate.
    intros Q. injection Q as <-.
    rewrite C in Hc.
    split; [| right; exists pre, habit, post; auto].
    intros other Hin. apply in_app_or in Hin. destruct Hin as [Hin | Hin].
    + apply In_nth_error in Hin. destruct Hin as [i Hi].
      rewrite <- (C i). exact (Hpre i other Hi).
    + apply In_nth_error in Hin. destruct Hin as [j Hj].
      destruct (Decoration.eqb (decoration_of other) decoration) eqn:Eo;
        [| reflexivity].
      exfalso.
      assert (Hh : nth_error habit_objects (List.length pre) = Some habit).
      { rewrite E, nth_error_app2 by lia. rewrite Nat.sub_diag. reflexivity. }
      assert (Ho : nth_error habit_objects (List.length pre + S j) = Some other).
      { rewrite E, nth_error_app2 by lia.
        replace (List.length pre + S j - List.length pre)%nat with (S j) by lia.
        exact Hj. }
      pose proof (U _ _ _ _ Hh Ho Hc Eo). lia.
Qed.

(** The decoration of "running" is chosen again; the first answer is not
    understood, the second is yes. *)
Lemma decor_check_frees_decoration_witness :
  Main.decor_check Habit.decoration couch
    [running 1 (dt 2024 1 10 12 0 0 0);
     Habit.mk "reading" 1 plant (dt 2024 1 10 12 0 0 0) 0 3 5]
    None ["maybe"%string; "yes"%string] =
    Main.Answered (true, [Habit.mk "reading" 1 plant (dt 2024 1 10 12 0 0 0) 0 3 5]) /\
  forall habit,
    In habit [Habit.mk "reading" 1 plant (dt 2024 1 10 12 0 0 0) 0 3 5] ->
    Decoration.eqb (Habit.decoration habit) couch = false.
Proof.
  split; [reflexivity |].
  apply (decor_check_frees_decoration Habit.decoration couch
           [running 1 (dt 2024 1 10 12 0 0 0);
            Habit.mk "reading" 1 plant (dt 2024 1 10 12 0 0 0) 0 3 5]
           ["maybe"%string; "yes"%string]).
  - intros [| [| i]] [| [| j]] a b Ha Hb Ea Eb; cbn in Ha, Hb;
      try reflexivity; try (destruct i; discriminate Ha);
      try (destruct j; discriminate Hb);
      injection Ha as <-; injection Hb as <-; discriminate.
  - reflexivity.
Defined.

(** ** __main__.py: sorting by a criterion *)


Section StableSort.

Context {T : Type} (key : sort_key T) (reverse : bool).
Hypothesis key_order : strict_order (key_ltb key).

Lemma sorts_before_irrefl a : sorts_before key reverse a a = false.
Proof.
  destruct key_order as (I & _ & _). unfold sorts_before. destruct reverse; apply I.
Qed.

Lemma sorts_before_asym a b :
  sorts_before key reverse a b = true -> sorts_before key reverse b a = false.
Proof.
  destruct key_order as (_ & A & _). unfold sorts_before. destruct reverse; apply A.
Qed.

Lemma sorts_before_negtrans a b c :
  sorts_before key reverse a b = false -> sorts_before key reverse b c = false ->
  sorts_before key reverse a c = false.
Proof.
  destruct key_order as (_ & _ & N). unfold sorts_before.
  destruct reverse; intros H1 H2; eauto.
Qed.

Lemma sorted_insert_unfold x y l :
  Main.sorted_insert key reverse x (y :: l) =
  if sorts_before key reverse y x then y :: Main.sorted_insert key reverse x l
  else x :: y :: l.
Proof. unfold sorts_before. cbn [Main.sorted_insert]. destruct reverse; reflexivity. Qed.

Lemma sorted_insert_Permutation x l :
  Permutation (x :: l) (Main.sorted_insert key reverse x l).
Proof.
  induction l as [| y l IH]; [reflexivity |].
  rewrite sorted_insert_unfold. destruct (sorts_before key reverse y x); [| reflexivity].
  etransitivity; [apply perm_swap |]. constructor. exact IH.
Qed.

Lemma sorted_Permutation items :
  Permutation items (Main.sorted items key reverse).
Proof.
  unfold Main.sorted. induction items as [| x items IH]; [constructor |].
  cbn [fold_right]. etransitivity; [| apply sorted_insert_Permutation].
  constructor. exact IH.
Qed.

Lemma sorted_insert_in_order x l :
  StronglySorted (in_order key reverse) l ->
  StronglySorted (in_order key reverse) (Main.sorted_insert key reverse x l).
Proof.
  induction 1 as [| y l S IH F].
  - cbn. constructor; constructor.
  - rewrite sorted_insert_unfold.
    destruct (sorts_before key reverse y x) eqn:B.
    + constructor; [exact IH |].
      apply (Permutation_Forall (sorted_insert_Permutation x l)).
      constructor; [| exact F].
      unfold in_order. apply sorts_before_asym, B.
    + constructor; [constructor; assumption |].
      constructor; [exact B |].
      apply Forall_forall. intros z Hz.
      rewrite Forall_forall in F. specialize (F z Hz). unfold in_order in *.
      exact (sorts_before_negtrans z y x F B).
Qed.

Lemma sorted_in_order items :
  StronglySorted (in_order key reverse) (Main.sorted items key reverse).
Proof.
  unfold Main.sorted. induction items as [| x items IH]; [constructor |].
  cbn [fold_right]. apply sorted_insert_in_order, IH.
Qed.

Lemma tied_sorts_before a b :
  tied key a b = true <->
  sorts_before key reverse a b = false /\ sorts_before key reverse b a = false.
Proof.
  unfold tied, sorts_before. rewrite andb_true_iff, !negb_true_iff.
  destruct reverse; tauto.
Qed.

Lemma sorted_insert_stable a x l :
  filter (tied key a) (Main.sorted_insert key reverse x l) =
  filter (tied key a) (x :: l).
Proof.
  induction l as [| y l IH]; [reflexivity |].
  rewrite sorted_insert_unfold.
  destruct (sorts_before key reverse y x) eqn:B; [| reflexivity].
  cbn [filter] in *. rewrite IH.
  destruct (tied key a x) eqn:Tx; [| reflexivity].
  destruct (tied key a y) eqn:Ty; [| reflexivity].
  exfalso. apply tied_sorts_before in Tx, Ty.
  destruct Tx as [Tx _], Ty as [_ Ty].
  rewrite (sorts_before_negtrans y a x Ty Tx) in B. discriminate B.
Qed.

Lemma sorted_stable a items :
  filter (tied key a) (Main.sorted items key reverse) = filter (tied key a) items.
Proof.
  unfold Main.sorted. induction items as [| x items IH]; [reflexivity |].
  cbn [fold_right]. rewrite sorted_insert_stable. cbn [filter]. rewrite IH. reflexivity.
Qed.

End StableSort.

(** *** The orders of the keys *)

Lemma strict_order_of_comparison {K} (cmp : K -> K -> comparison) :
  total_comparison cmp ->
  strict_order (fun a b => match cmp a b with Lt => true | _ => false end).
Proof.
  intros (A & E & Tr). split; [| split].
  - intros a. pose proof (A a a) as H. destruct (cmp a a); try reflexivity; discriminate.
  - intros a b H. rewrite (A b a). destruct (cmp a b); try discriminate; reflexivity.
  - intros a b c H1 H2.
    destruct (cmp a c) eqn:C; try reflexivity. exfalso.
    destruct (cmp a b) eqn:C1; [| discriminate |].
    + apply E in C1. subst b. rewrite C in H2. discriminate.
    + destruct (cmp b c) eqn:C2; [| discriminate |].
      * apply E in C2. subst c. congruence.
      * assert (Hcb : cmp c b = Lt) by (rewrite (A c b), C2; reflexivity).
        assert (Hba : cmp b a = Lt) by (rewrite (A b a), C1; reflexivity).
        pose proof (Tr c b a Hcb Hba) as Hca.
        rewrite (A a c), Hca in C. discriminate.
Qed.

Lemma Z_ltb_order : strict_order Z.ltb.
Proof.
  split; [| split].
  - intros a. apply Z.ltb_irrefl.
  - intros a b H. apply Z.ltb_lt in H. apply Z.ltb_ge. lia.
  - intros a b c H1 H2. apply Z.ltb_ge in H1, H2. apply Z.ltb_ge. lia.
Qed.

Lemma ascii_compare_total : total_comparison Ascii.compare.
Proof.
  split; [| split].
  - apply Ascii.compare_antisym.
  - apply Ascii.compare_eq_iff.
  - intros a b c. unfold Ascii.compare. rewrite !N.compare_lt_iff. lia.
Qed.

Lemma comparison_refl {K} (cmp : K -> K -> comparison) a :
  (forall a b, cmp a b = CompOpp (cmp b a)) -> cmp a a = Eq.
Proof. intros A. pose proof (A a a) as H. destruct (cmp a a); try reflexivity; discriminate. Qed.

Lemma string_compare_trans a :
  forall b c, String.compare a b = Lt -> String.compare b c = Lt -> String.compare a c = Lt.
Proof.
  destruct ascii_compare_total as (A & E & Tr).
  induction a as [| x a IH]; intros [| y b] [| z c]; cbn;
    try discriminate; try reflexivity.
  destruct (Ascii.compare x y) eqn:C1; try discriminate;
    destruct (Ascii.compare y z) eqn:C2; try discriminate; intros H1 H2.
  - apply E in C1, C2. subst y z. rewrite (comparison_refl Ascii.compare x A).
    exact (IH b c H1 H2).
  - apply E in C1. subst y. rewrite C2. reflexivity.
  - apply E in C2. subst z. rewrite C1. reflexivity.
  - rewrite (Tr x y z C1 C2). reflexivity.
Qed.

Lemma string_compare_total : total_comparison String.compare.
Proof.
  split; [| split].
  - apply String.compare_antisym.
  - apply String.compare_eq_iff.
  - intros a b c. apply string_compare_trans.
Qed.

Lemma string_ltb_order : strict_order String.ltb.
Proof. exact (strict_order_of_comparison String.compare string_compare_total). Qed.

Lemma lex_Lt c k : Datetime.lex c k = Lt <-> c = Lt \/ (c = Eq /\ k = Lt).
Proof. destruct c; cbn; intuition congruence. Qed.

Lemma lex_Eq c k : Datetime.lex c k = Eq <-> c = Eq /\ k = Eq.
Proof. destruct c; cbn; intuition congruence. Qed.

Lemma lex_antisym c c' k k' :
  c = CompOpp c' -> k = CompOpp k' -> Datetime.lex c k = CompOpp (Datetime.lex c' k').
Proof. intros -> ->. destruct c'; reflexivity. Qed.

Lemma datetime_compare_total : total_comparison Datetime.compare.
Proof.
  split; [| split].
  - intros a b. unfold Datetime.compare.
    repeat apply lex_antisym; apply Z.compare_antisym.
  - intros a b. unfold Datetime.compare. rewrite !lex_Eq, !Z.compare_eq_iff.
    destruct a, b; cbn. intuition congruence.
  - intros a b c. unfold Datetime.compare.
    rewrite !lex_Lt, !Z.compare_lt_iff, !Z.compare_eq_iff. lia.
Qed.

Lemma datetime_ltb_order : strict_order Datetime.ltb.
Proof. exact (strict_order_of_comparison Datetime.compare datetime_compare_total). Qed.

Lemma number_ltb_order : strict_order Number.ltb.
Proof.
  unfold Number.ltb, Number.leb. split; [| split].
  - intros a. apply negb_false_iff, Qle_bool_iff, Qle_refl.
  - intros a b H. apply negb_true_iff in H. apply negb_false_iff, Qle_bool_iff.
    destruct (Qlt_le_dec (Number.value a) (Number.value b)) as [L | L].
    + apply Qlt_le_weak, L.
    + apply Qle_bool_iff in L. congruence.
  - intros a b c H1 H2. apply negb_false_iff, Qle_bool_iff in H1, H2.
    apply negb_false_iff, Qle_bool_iff. eapply Qle_trans; eassumption.
Qed.

Lemma StronglySorted_weaken {A} (R R' : A -> A -> Prop) l :
  (forall a b, R a b -> R' a b) -> StronglySorted R l -> StronglySorted R' l.
Proof.
  intros W. induction 1 as [| a l S IH F]; constructor; [exact IH |].
  eapply Forall_impl; [| exact F]. intros b. apply W.
Qed.

Lemma string_ltb_leb a b : String.ltb b a = false -> String.leb a b = true.
Proof.
  unfold String.ltb, String.leb. rewrite (String.compare_antisym a b).
  destruct (String.compare b a); cbn; congruence.
Qed.

Lemma datetime_ltb_leb a b : Datetime.ltb b a = false -> Datetime.leb a b = true.
Proof. intros H. rewrite leb_ltb, H. reflexivity. Qed.

Lemma number_ltb_leb a b : Number.ltb a b = false -> Number.leb b a = true.
Proof. unfold Number.ltb. apply negb_false_iff. Qed.

(** What the generic lemmas give for one entry of a criteria map. *)
Lemma filter_items_entry {T} (items : list T) criterion criteria_map key reverse
    (order : T -> T -> Prop) :
  Main.lookup_criterion criterion criteria_map = Some key ->
  existsb (String.eqb criterion) ["fails"; "streak"; "l_streak"; "exp"]%string = reverse ->
  strict_order (key_ltb key) ->
  (forall a b, sorts_before key reverse b a = false -> order a b) ->
  exists key l,
    Main.lookup_criterion criterion criteria_map = Some key /\
    Main.filter_items items criterion criteria_map = Main.Sorted l /\
    Permutation items l /\
    StronglySorted order l /\
    forall x, filter (tied key x) l = filter (tied key x) items.
Proof.
  intros L R O W. exists key, (Main.sorted items key reverse).
  split; [exact L |]. unfold Main.filter_items. rewrite L, R.
  split; [reflexivity |]. split; [apply sorted_Permutation |].
  split.
  - apply (StronglySorted_weaken (in_order key reverse)); [exact W |].
    apply sorted_in_order, O.
  - intros x. apply sorted_stable, O.
Qed.

(** X19.  For each of the seven criteria of [habit_criteria_map],
    [filter_items] returns the habits rearranged, none lost or added, in
    ascending order of name, periodicity, room or deadline, and in
    descending order of fails, streak or longest streak; habits whose keys
    compare equal keep their relative order.  For any other criterion
    (exp included) it raises [ValueError]. *)
Theorem filter_items_orders_habits (items : list Habit.t) (criterion : string) :
  (In criterion ["name"; "periodicity"; "room"; "next_completion_date"; "fails";
                 "streak"; "l_streak"]%string ->
   exists key l,
     Main.lookup_criterion criterion Habit.habit_criteria_map = Some key /\
     Main.filter_items items criterion Habit.habit_criteria_map = Main.Sorted l /\
     Permutation items l /\
     StronglySorted (habits_in_order criterion) l /\
     forall x, filter (tied key x) l = filter (tied key x) items) /\
  (~ In criterion ["name"; "periodicity"; "room"; "next_completion_date"; "fails";
                   "streak"; "l_streak"]%string ->
   Main.filter_items items criterion Habit.habit_criteria_map = Main.InvalidCriterion).
Proof.
  split.
  - intros H. cbn [In] in H.
    destruct H as [<- | [<- | [<- | [<- | [<- | [<- | [<- | []]]]]]]];
      (eapply filter_items_entry;
       [reflexivity | reflexivity | cbn [key_ltb]
       | intros a b; unfold sorts_before, habits_in_order; cbn]).
    all: try (exact string_ltb_order).
    all: try (exact Z_ltb_order).
    all: try (exact datetime_ltb_order).
    all: try (apply string_ltb_leb).
    all: try (apply datetime_ltb_leb).
    all: try (intros L; apply Z.ltb_ge in L; exact L).
  - intros N. unfold Main.filter_items. cbn [Main.lookup_criterion Habit.habit_criteria_map].
    repeat match goal with
           | |- context [String.eqb ?k criterion] =>
               destruct (String.eqb_spec k criterion) as [<- | ?];
               [exfalso; apply N; cbn; tauto |]
           end.
    reflexivity.
Qed.

(** The habits of the test suite, last one first, by streak: 4, 4, 3, the
    two habits of streak 4 in the order they had. *)
Lemma filter_items_orders_habits_witness :
  exists key,
    Main.lookup_criterion "streak" Habit.habit_criteria_map = Some key /\
    Main.filter_items (rev (test_habits (dt 2024 1 10 12 0 0 0))) "streak"
      Habit.habit_criteria_map =
    Main.Sorted
      [Habit.mk "washing the sheets" 2 plant (dt 2024 1 10 12 0 0 0) 0 4 4;
       Habit.mk "running" 1 couch (dt 2024 1 10 12 0 0 0) 0 4 7;
       Habit.mk "reading" 1 plant (dt 2024 1 10 12 0 0 0) 0 3 5].
Proof.
  destruct (proj1 (filter_items_orders_habits
                     (rev (test_habits (dt 2024 1 10 12 0 0 0))) "streak"))
    as (key & l & L & R & _).
  - cbn. tauto.
  - exists key. split; [exact L | reflexivity].
Defined.

(** X20.  For each of the four criteria of [decor_criteria_map],
    [filter_items] returns the decorations rearranged, none lost or added,
    in ascending order of name, room or state, and in descending order of
    exp; decorations whose keys compare equal keep their relative order.
    For any other criterion it raises [ValueError]. *)
Theorem filter_items_orders_decorations (items : list Decoration.t) (criterion : string) :
  (In criterion ["name"; "room"; "state"; "exp"]%string ->
   exists key l,
     Main.lookup_criterion criterion Decoration.decor_criteria_map = Some key /\
     Main.filter_items items criterion Decoration.decor_criteria_map = Main.Sorted l /\
     Permutation items l /\
     StronglySorted (decorations_in_order criterion) l /\
     forall x, filter (tied key x) l = filter (tied key x) items) /\
  (~ In criterion ["name"; "room"; "state"; "exp"]%string ->
   Main.filter_items items criterion Decoration.decor_criteria_map =
   Main.InvalidCriterion).
Proof.
  split.
  - intros H. cbn [In] in H.
    destruct H as [<- | [<- | [<- | [<- | []]]]];
      (eapply filter_items_entry;
       [reflexivity | reflexivity | cbn [key_ltb]
       | intros a b; unfold sorts_before, decorations_in_order; cbn]).
    all: try (exact string_ltb_order).
    all: try (exact number_ltb_order).
    all: try (apply string_ltb_leb).
    all: try (apply number_ltb_leb).
  - intros N. unfold Main.filter_items.
    cbn [Main.lookup_criterion Decoration.decor_criteria_map].
    repeat match goal with
           | |- context [String.eqb ?k criterion] =>
               destruct (String.eqb_spec k criterion) as [<- | ?];
               [exfalso; apply N; cbn; tauto |]
           end.
    reflexivity.
Qed.

Lemma filter_items_orders_decorations_witness :
  exists key,
    Main.lookup_criterion "exp" Decoration.decor_criteria_map = Some key /\
    Main.filter_items [couch; plant] "exp" Decoration.decor_criteria_map =
    Main.Sorted [plant; couch].
Proof.
  destruct (proj1 (filter_items_orders_decorations [couch; plant] "exp"))
    as (key & l & L & R & _).
  - cbn. tauto.
  - exists key. split; [exact L | reflexivity].
Defined.

(** ** __main__.py: saving and loading *)

Lemma comprehension_encoded {A B} (f : nat -> A -> Conversion.converted B)
    (encode : B -> A) (l : list B) :
  forall i,
    (forall j x, nth_error l j = Some x -> f (i + j)%nat (encode x) = Conversion.Converted x) ->
    Conversion.comprehension f i (map encode l) = Conversion.Converted l.
Proof.
  induction l as [| x l IH]; intros i H; [reflexivity |].
  cbn [map Conversion.comprehension].
  rewrite <- (Nat.add_0_r i) at 1. rewrite (H 0%nat x eq_refl).
  cbn [Conversion.and_then]. rewrite IH; [reflexivity |].
  intros j y Hy. replace (S i + j)%nat with (i + S j)%nat by lia.
  apply H. exact Hy.
Qed.

Lemma find_first_match {A} (f : A -> bool) (l : list A) x :
  find f l = Some x ->
  exists i, nth_error l i = Some x /\ f x = true /\
            forall j y, (j < i)%nat -> nth_error l j = Some y -> f y = false.
Proof.
  induction l as [| y l IH]; cbn [find]; [discriminate |].
  destruct (f y) eqn:E.
  - intros H. injection H as <-. exists 0%nat. split; [reflexivity |].
    split; [exact E |]. intros j z Hj. lia.
  - intros H. destruct (IH H) as (i & Hi & Hx & Hb).
    exists (S i). split; [exact Hi |]. split; [exact Hx |].
    intros [| j] z Hj Hz; [cbn in Hz; congruence |].
    apply (Hb j); [lia | exact Hz].
Qed.

Lemma eqb_decoration_refl d : Decoration.eqb d d = true.
Proof. unfold Decoration.eqb. rewrite !String.eqb_refl. reflexivity. Qed.

Lemma relinked_member decor_objects decoration :
  distinct_decorations decor_objects -> In decoration decor_objects ->
  relinked decoration decor_objects = decoration.
Proof.
  intros U Hin. unfold relinked.
  destruct (find _ decor_objects) as [decor |] eqn:F; [| reflexivity].
  apply find_first_match in F. destruct F as (i & Hi & He & _).
  apply In_nth_error in Hin. destruct Hin as [j Hj].
  pose proof (U i j decor decoration Hi Hj He). subst j. congruence.
Qed.

(** X21.  Saving and loading give back the state.  For decorations that
    differ from one another on name, room or state, each with a name, a
    room and a state that are not empty, and for habits that are each
    linked to one of these decorations and have a name that is not empty,
    a periodicity other than 0 and a deadline that [fromisoformat] reads
    back from its ISO format: the two comprehensions of the start-up,
    applied to the documents that [saving] writes, return the same
    decorations and the same habits, whatever the clock and the random
    draws. *)
Theorem saved_state_is_loaded
    (fromisoformat : string -> option Datetime.t) (clock : nat -> Datetime.t)
    (rnd_decorations rnd_habits : nat -> nat -> nat)
    (decor_objects : list Decoration.t) (habit_objects : list Habit.t) :
  distinct_decorations decor_objects ->
  (forall decor, In decor decor_objects ->
     Decoration.name decor <> EmptyString /\ Decoration.room decor <> EmptyString /\
     Decoration.state decor <> EmptyString) ->
  (forall habit, In habit habit_objects ->
     Habit.name habit <> EmptyString /\ Habit.periodicity habit <> 0 /\
     In (Habit.decoration habit) decor_objects /\
     fromisoformat (Conversion.isoformat (Habit.next_completion_date habit)) =
       Some (Habit.next_completion_date habit)) ->
  Main.load fromisoformat clock rnd_decorations rnd_habits
    (snd (Main.saving decor_objects habit_objects))
    (fst (Main.saving decor_objects habit_objects)) =
  Conversion.Converted (decor_objects, habit_objects).
Proof.
  intros U Hd Hh. unfold Main.load, Main.saving. cbn [fst snd].
  rewrite comprehension_encoded.
  2: { intros j decor Hj. apply nth_error_In in Hj.
       destruct (Hd decor Hj) as (N1 & N2 & N3).
       apply convert_decor_serialized; assumption. }
  cbn [Conversion.and_then]. unfold Conversion.serialize_habits.
  rewrite comprehension_encoded; [reflexivity |].
  intros j habit Hj. apply nth_error_In in Hj.
  destruct (Hh habit Hj) as (N & P & Hin & D).
  rewrite convert_habit_serialized; try assumption.
  - rewrite (relinked_member decor_objects _ U Hin). destruct habit; reflexivity.
  - intros F. exfalso. apply In_nth_error in Hin. destruct Hin as [i Hi].
    apply nth_error_In in Hi.
    pose proof (find_none _ _ F _ Hi) as E.
    cbv beta in E. rewrite eqb_decoration_refl in E. discriminate.
Qed.

(** The decorations and the habits of the test suite. *)
Lemma saved_state_is_loaded_witness :
  Main.load parse_isoformat (fun _ => dt 2024 1 9 8 0 0 0) (fun _ _ => 0%nat)
    (fun _ _ => 0%nat)
    (snd (Main.saving [couch; plant] (test_habits (dt 2024 1 10 12 0 0 0))))
    (fst (Main.saving [couch; plant] (test_habits (dt 2024 1 10 12 0 0 0)))) =
  Conversion.Converted ([couch; plant], test_habits (dt 2024 1 10 12 0 0 0)).
Proof.
  apply (saved_state_is_loaded parse_isoformat (fun _ => dt 2024 1 9 8 0 0 0)
           (fun _ _ => 0%nat) (fun _ _ => 0%nat) [couch; plant]
           (test_habits (dt 2024 1 10 12 0 0 0))).
  - intros [| [| i]] [| [| j]] a b Ha Hb E; cbn in Ha, Hb;
      try reflexivity; try (destruct i; discriminate Ha);
      try (destruct j; discriminate Hb);
      injection Ha as <-; injection Hb as <-; discriminate E.
  - intros decor [<- | [<- | []]]; repeat split; discriminate.
  - intros habit [<- | [<- | [<- | []]]]; cbn;
      (split; [discriminate |]); (split; [discriminate |]);
      (split; [tauto | reflexivity]).
Defined.

(** ** __main__.py: changing the periodicity *)

Lemma edit_periodicity_unfold now p h :
  Main.edit_periodicity now p h =
  match Habit.increment_completion_date (Habit.set_periodicity p h) now with
  | Ok date =>
      Returns tt (Habit.mk (Habit.name h) p (Habit.decoration h) date 0 0 0) []
  | Err e => Raises e (Habit.set_periodicity p h) []
  end.
Proof.
  unfold Main.edit_periodicity, Habit.calculate_completion_date.
  unfold bind, get, modify, lift, ret, raise.
  destruct (Habit.increment_completion_date (Habit.set_periodicity p h) now);
    destruct h; reflexivity.
Qed.

(** X22.  Changing the periodicity of a habit at the time [now] to a
    periodicity from 1 to 4.  When the new periodicity can advance from
    [now], the habit keeps its name and its decoration, with the exp and
    the state that it has, gets the new periodicity and the deadline one
    new period after [now] (the next day, the seventh next day, the day
    clamped to 28 in the next month, the same day of the next year), on a
    later day at the same time of day, and
    its fails, streak and longest streak are 0.  When the deadline cannot
    be computed, the exception leaves the habit with the new periodicity
    and with its former deadline and counters. *)
Theorem edit_periodicity_restarts_habit h now p :
  Datetime.valid now -> 1 <= p <= 4 ->
  (advanceable p now ->
   exists date,
     Main.edit_periodicity now p h =
       Returns tt (Habit.mk (Habit.name h) p (Habit.decoration h) date 0 0 0) [] /\
     one_period_after p now date /\
     Datetime.valid date /\ same_time now date /\
     Datetime.ltb now (start_of_day date) = true) /\
  (forall e,
     Habit.increment_completion_date (Habit.set_periodicity p h) now = Err e ->
     Main.edit_periodicity now p h = Raises e (Habit.set_periodicity p h) []).
Proof.
  intros V Hp. split.
  - intros A.
    destruct (increment_defined (Habit.set_periodicity p h) now V Hp A) as [date E].
    destruct (increment_later _ _ _ V E) as (Vd & K & T).
    exists date. rewrite edit_periodicity_unfold, E.
    split; [reflexivity |].
    split; [exact (increment_one_period (Habit.set_periodicity p h) now date V Hp E) |].
    split; [exact Vd |]. split; [exact T |].
    apply ltb_iff;
      [apply valid_in_ranges, V | apply start_of_day_in_ranges, Vd |].
    destruct (start_of_day_keys date) as [-> _]. lia.
  - intros e E. rewrite edit_periodicity_unfold, E. reflexivity.
Qed.

(** On February 29th a daily habit cannot be made yearly, but monthly. *)
Lemma edit_periodicity_restarts_habit_witness :
  Main.edit_periodicity (dt 2024 2 29 9 0 0 0) 4 (running 1 (dt 2024 3 1 12 0 0 0)) =
    Raises FieldOutOfRange (running 4 (dt 2024 3 1 12 0 0 0)) [] /\
  exists date,
    Main.edit_periodicity (dt 2024 2 29 9 0 0 0) 3 (running 1 (dt 2024 3 1 12 0 0 0)) =
      Returns tt (Habit.mk "running" 3 couch date 0 0 0) [].
Proof.
  split.
  - apply (proj2 (edit_periodicity_restarts_habit (running 1 (dt 2024 3 1 12 0 0 0))
                    (dt 2024 2 29 9 0 0 0) 4 eq_refl ltac:(lia))).
    reflexivity.
  - destruct (proj1 (edit_periodicity_restarts_habit (running 1 (dt 2024 3 1 12 0 0 0))
                       (dt 2024 2 29 9 0 0 0) 3 eq_refl ltac:(lia)))
      as (date & E & _).
    + split; [reflexivity | discriminate].
    + exists date. exact E.
Defined.

(** ** models.py: the analysis of the butler *)



(** ** __main__.py: the menus *)

Lemma replace_at_length {A} i (x : A) l :
  List.length (Session.replace_at i x l) = List.length l.
Proof.
  revert i; induction l as [| y l IH]; intros [| i]; cbn; try reflexivity.
  rewrite IH. reflexivity.
Qed.

Lemma nth_error_replace_at {A} i j (x : A) l :
  nth_error (Session.replace_at i x l) j =
  if Nat.eqb i j
  then match nth_error l j with Some _ => Some x | None => None end
  else nth_error l j.
Proof.
  revert i j; induction l as [| y l IH]; intros [| i] [| j]; cbn; try reflexivity.
  - destruct (Nat.eqb _ _); reflexivity.
  - apply IH.
Qed.

Lemma replace_at_same {A} i (x : A) l :
  nth_error l i = Some x -> Session.replace_at i x l = l.
Proof.
  revert i; induction l as [| y l IH]; intros [| i]; cbn; try discriminate.
  - intros H; injection H as ->. reflexivity.
  - intros H. rewrite (IH _ H). reflexivity.
Qed.

Lemma map_replace_at {A B} (f : A -> B) i x y l :
  nth_error l i = Some y -> f x = f y ->
  map f (Session.replace_at i x l) = map f l.
Proof.
  revert i; induction l as [| z l IH]; intros [| i]; cbn; try discriminate.
  - intros H E; injection H as ->. rewrite E. reflexivity.
  - intros H E. rewrite (IH _ H E). reflexivity.
Qed.

Lemma replace_at_out {A} i (x : A) l :
  nth_error l i = None -> Session.replace_at i x l = l.
Proof.
  revert i; induction l as [| z l IH]; intros [| i]; cbn; try discriminate;
    try reflexivity.
  intros H. rewrite (IH _ H). reflexivity.
Qed.

Lemma stored_habit h :
  Session.mk_habit (Session.name h) (Session.periodicity h) (Session.decoration h)
    (Session.next_completion_date h) (Session.fails h) (Session.streak h)
    (Session.longest_streak h) = h.
Proof. destruct h; reflexivity. Qed.

Lemma call_reset_listed k w h j d :
  nth_error (Session.habit_objects w) k = Some h ->
  Session.decoration h = Session.Listed j ->
  nth_error (Session.decor_objects w) j = Some d ->
  Session.call k Habit.reset_decoration w =
  Session.returns tt
    (Session.mk (Session.replace_at j (reset d) (Session.decor_objects w))
       (Session.habit_objects w)) [].
Proof.
  intros Hk Hr Hj. unfold Session.call, Session.object. rewrite Hk, Hr.
  cbn [Session.dereference]. rewrite Hj.
  unfold Habit.reset_decoration, bind, modify, Session.returns. cbn.
  rewrite <- Hr, stored_habit, (replace_at_same _ _ _ Hk). reflexivity.
Qed.

Lemma call_reset_unlisted k w h d :
  nth_error (Session.habit_objects w) k = Some h ->
  Session.decoration h = Session.Unlisted d ->
  Session.call k Habit.reset_decoration w =
  Session.returns tt
    (Session.mk (Session.decor_objects w)
       (Session.replace_at k (Session.set_decoration (Session.Unlisted (reset d)) h)
          (Session.habit_objects w))) [].
Proof.
  intros Hk Hr. unfold Session.call, Session.object. rewrite Hk, Hr.
  cbn [Session.dereference].
  unfold Habit.reset_decoration, bind, modify, Session.returns. cbn.
  reflexivity.
Qed.

Lemma skipn_nth_error {A} k (l : list A) x :
  nth_error l k = Some x -> skipn k l = x :: skipn (S k) l.
Proof.
  revert k; induction l as [| y l IH]; intros [| k]; cbn; try discriminate.
  - intros H; injection H as ->. reflexivity.
  - intros H. exact (IH _ H).
Qed.

Lemma skipn_replace_at {A} k (x : A) l :
  skipn (S k) (Session.replace_at k x l) = skipn (S k) l.
Proof.
  revert k; induction l as [| y l IH]; intros [| k]; cbn; try reflexivity.
  apply (IH k).
Qed.

Lemma forallb_replace_at {A} (P : A -> bool) i x l :
  forallb P l = true -> P x = true -> forallb P (Session.replace_at i x l) = true.
Proof.
  revert i; induction l as [| y l IH]; intros [| i]; cbn; try reflexivity.
  - intros H Hx. apply andb_true_iff in H. rewrite Hx. apply H.
  - intros H Hx. apply andb_true_iff in H. destruct H as [-> H]. apply IH; assumption.
Qed.

Lemma well_linked_listed w k h j :
  well_linked w = true ->
  nth_error (Session.habit_objects w) k = Some h ->
  Session.decoration h = Session.Listed j ->
  exists d, nth_error (Session.decor_objects w) j = Some d.
Proof.
  intros W Hk Hr. unfold well_linked in W. rewrite forallb_forall in W.
  specialize (W h (nth_error_In _ _ Hk)). rewrite Hr in W.
  apply Nat.ltb_lt in W.
  destruct (nth_error (Session.decor_objects w) j) as [d |] eqn:E; [eauto |].
  apply nth_error_None in E. lia.
Qed.

Lemma reset_decorations_spec n :
  forall k w,
    well_linked w = true ->
    (k + n = List.length (Session.habit_objects w))%nat ->
    exists w',
      Session.reset_decorations n k w = Session.returns tt w' [] /\
      List.length (Session.decor_objects w') = List.length (Session.decor_objects w) /\
      forall i d,
        nth_error (Session.decor_objects w) i = Some d ->
        nth_error (Session.decor_objects w') i =
        Some (if existsb (refers_to i) (skipn k (Session.habit_objects w))
              then reset d else d).
Proof.
  induction n as [| n IH]; intros k w W L.
  - exists w. split; [reflexivity |]. split; [reflexivity |].
    intros i d Hi. rewrite skipn_all2 by lia. exact Hi.
  - destruct (nth_error (Session.habit_objects w) k) as [h |] eqn:Hk;
      [| apply nth_error_None in Hk; lia].
    cbn [Session.reset_decorations].
    rewrite (skipn_nth_error _ _ _ Hk).
    destruct (Session.decoration h) as [j | d0] eqn:Hr.
    + destruct (well_linked_listed w k h j W Hk Hr) as [dj Hj].
      rewrite (call_reset_listed k w h j dj Hk Hr Hj).
      set (w1 := Session.mk _ _).
      destruct (IH (S k) w1) as (w' & R & Len & Hd).
      * unfold well_linked, w1. cbn [Session.habit_objects Session.decor_objects].
        rewrite replace_at_length. exact W.
      * unfold w1. cbn [Session.habit_objects]. lia.
      * exists w'. unfold Session.returns, Session.and_then. rewrite R.
        unfold Session.returns. split; [reflexivity |]. split.
        { rewrite Len. unfold w1. cbn [Session.decor_objects].
          apply replace_at_length. }
        intros i d Hi. cbn [existsb]. unfold refers_to at 1. rewrite Hr.
        unfold w1 in Hd. cbn [Session.decor_objects Session.habit_objects] in Hd.
        specialize (Hd i). rewrite nth_error_replace_at, Hi in Hd.
        rewrite Nat.eqb_sym in Hd.
        destruct (Nat.eqb_spec i j) as [-> | N].
        -- rewrite Hj in Hi. injection Hi as ->.
           rewrite (Hd _ eq_refl). cbn [orb].
           destruct (existsb _ _); reflexivity.
        -- rewrite (Hd _ eq_refl). reflexivity.
    + rewrite (call_reset_unlisted k w h d0 Hk Hr).
      set (w1 := Session.mk _ _).
      destruct (IH (S k) w1) as (w' & R & Len & Hd).
      * unfold well_linked, w1. cbn [Session.habit_objects Session.decor_objects].
        apply forallb_replace_at; [exact W | reflexivity].
      * unfold w1. cbn [Session.habit_objects]. rewrite replace_at_length. lia.
      * exists w'. unfold Session.returns, Session.and_then. rewrite R.
        unfold Session.returns. split; [reflexivity |]. split; [exact Len |].
        intros i d Hi. cbn [existsb]. unfold refers_to at 1. rewrite Hr. cbn [orb].
        unfold w1 in Hd. cbn [Session.decor_objects Session.habit_objects] in Hd.
        rewrite skipn_replace_at in Hd. exact (Hd i d Hi).
Qed.

(** X24.  When every reference of a habit names a decoration of the
    list, [delete_habits] returns with an empty list of habits and with
    the decorations in their places: a decoration to which some habit was
    linked has exp 0 and the state "Old", and every other decoration is
    what it was. *)
Theorem delete_habits_resets_linked w :
  well_linked w = true ->
  exists decor_objects,
    Session.delete_habits w = Session.returns tt (Session.mk decor_objects []) [] /\
    List.length decor_objects = List.length (Session.decor_objects w) /\
    forall i d,
      nth_error (Session.decor_objects w) i = Some d ->
      nth_error decor_objects i =
      Some (if existsb (refers_to i) (Session.habit_objects w) then reset d else d).
Proof.
  intros W.
  destruct (reset_decorations_spec (List.length (Session.habit_objects w)) 0 w W eq_refl)
    as (w' & R & Len & Hd).
  exists (Session.decor_objects w').
  unfold Session.delete_habits. rewrite R. cbn. split; [reflexivity |].
  split; [exact Len | exact Hd].
Qed.

Lemma delete_habits_resets_linked_witness :
  exists decor_objects,
    Session.delete_habits palace = Session.returns tt (Session.mk decor_objects []) [] /\
    nth_error decor_objects 0 = Some (reset couch) /\
    nth_error decor_objects 2 = Some (Decoration.mk "Lamp" "Hall" "Great" (Number.PyInt 70)).
Proof.
  destruct (delete_habits_resets_linked palace eq_refl) as (decor_objects & R & _ & H).
  exists decor_objects. split; [exact R |]. split.
  - exact (H 0%nat couch eq_refl).
  - exact (H 2%nat _ eq_refl).
Defined.

Lemma linked_spec decor_objects habits :
  forall k0 l,
    Session.linked decor_objects k0 habits = Some l ->
    map (fun entry => snd (fst entry)) l = habits /\
    forall p entry,
      nth_error l p = Some entry ->
      fst (fst entry) = (k0 + p)%nat /\
      Session.dereference decor_objects (Session.decoration (snd (fst entry))) =
        Some (snd entry).
Proof.
  induction habits as [| h habits IH]; intros k0 l; cbn [Session.linked].
  - intros E; injection E as <-. split; [reflexivity |].
    intros [| p] entry Hp; discriminate Hp.
  - destruct (Session.dereference decor_objects (Session.decoration h)) as [d |] eqn:D;
      [| discriminate].
    destruct (Session.linked decor_objects (S k0) habits) as [l' |] eqn:E;
      [| discriminate].
    intros Q; injection Q as <-. destruct (IH _ _ E) as [M N].
    split; [cbn; rewrite M; reflexivity |].
    intros [| p] entry Hp; cbn in Hp.
    + injection Hp as <-. cbn. split; [lia | exact D].
    + destruct (N p entry Hp) as [N1 N2]. split; [lia | exact N2].
Qed.

Lemma linked_defined decor_objects habits :
  forallb (fun h =>
             match Session.decoration h with
             | Session.Listed i => Nat.ltb i (List.length decor_objects)
             | Session.Unlisted _ => true
             end) habits = true ->
  forall k0, exists l, Session.linked decor_objects k0 habits = Some l.
Proof.
  induction habits as [| h habits IH]; intros W k0; cbn [Session.linked].
  - eauto.
  - cbn [forallb] in W. apply andb_true_iff in W. destruct W as [Wh W].
    destruct (IH W (S k0)) as [l ->].
    destruct (Session.decoration h) as [i | d]; cbn [Session.dereference].
    + apply Nat.ltb_lt in Wh.
      destruct (nth_error decor_objects i) as [d |] eqn:E; [eauto |].
      apply nth_error_None in E. lia.
    + eauto.
Qed.

Lemma linked_nth decor_objects habits k0 l p h :
  Session.linked decor_objects k0 habits = Some l ->
  nth_error habits p = Some h ->
  exists d,
    Session.dereference decor_objects (Session.decoration h) = Some d /\
    nth_error l p = Some ((k0 + p)%nat, h, d).
Proof.
  intros E Hp. destruct (linked_spec _ _ _ _ E) as [M N].
  rewrite <- M in Hp. rewrite nth_error_map in Hp.
  destruct (nth_error l p) as [[[q h'] d] |] eqn:Hl; [| discriminate].
  cbn in Hp. injection Hp as ->.
  destruct (N p _ Hl) as [N1 N2]. cbn in N1, N2. subst q. eauto.
Qed.

Lemma and_then_unit {A B} (a : A) w (k : A -> Session.t -> Session.result B) :
  Session.and_then (Session.returns a w []) k = k a w.
Proof.
  unfold Session.and_then, Session.returns.
  destruct (k a w) as [[[] | |] |]; reflexivity.
Qed.

(** X25.  Changing the decoration of a habit that is linked to a
    decoration of the list.  Whenever [edit_habit] returns from this
    branch, the decoration to which the habit was linked has exp 0 and
    the state "Old".  This holds also when the change does not take
    place: if another habit is linked to the chosen decoration and the
    answer to the warning is no, the function returns with every habit as
    it was, the edited one still linked to its decoration, which has been
    reset. *)
Theorem change_of_decoration_resets_former now k decoration_choice answers w h j d :
  nth_error (Session.habit_objects w) k = Some h ->
  Session.decoration h = Session.Listed j ->
  nth_error (Session.decor_objects w) j = Some d ->
  (forall w' out,
     Session.edit_habit now k (Session.NewDecoration decoration_choice answers) w =
       Session.returns tt w' out ->
     nth_error (Session.decor_objects w') j = Some (reset d)) /\
  (forall i p other,
     well_linked w = true ->
     decoration_choice = S i ->
     nth_error (Session.habit_objects w) p = Some other -> p <> k ->
     Session.decoration other = Session.Listed i ->
     Main.ask_yes_no answers = Main.Answered false ->
     Session.edit_habit now k (Session.NewDecoration decoration_choice answers) w =
       Session.returns tt
         (Session.mk (Session.replace_at j (reset d) (Session.decor_objects w))
            (Session.habit_objects w)) []).
Proof.
  intros Hk Hr Hj.
  assert (J : nth_error (Session.replace_at j (reset d) (Session.decor_objects w)) j =
              Some (reset d)).
  { rewrite nth_error_replace_at, Nat.eqb_refl, Hj. reflexivity. }
  cbn [Session.edit_habit]. rewrite (call_reset_listed k w h j d Hk Hr Hj).
  set (w1 := Session.mk _ _).
  rewrite and_then_unit.
  split.
  - intros w' out.
    destruct (Session.decor_objects w1) as [| d1 ds1] eqn:D1.
    { unfold Session.returns. intros Q. injection Q as <- _.
      unfold w1 in D1. cbn in D1. rewrite D1 in J. destruct j; discriminate J. }
    clear D1.
    unfold Session.choose_decoration.
    destruct decoration_choice as [| i]; [discriminate |].
    destruct (nth_error (Session.decor_objects w1) i) as [c |] eqn:Hi; [| discriminate].
    destruct (Session.linked _ _ _) as [l |]; [| discriminate].
    destruct (Main.decor_check _ _ _ _ _) as [[[] l'] | |]; try discriminate;
      unfold Session.returns; intros Q; injection Q as <- _.
    + cbn [Session.decor_objects]. rewrite nth_error_replace_at.
      unfold w1 in Hi |- *. cbn [Session.decor_objects] in Hi |- *.
      destruct (Nat.eqb_spec i j) as [-> | N].
      * rewrite J in Hi. injection Hi as <-. rewrite J. reflexivity.
      * exact J.
    + exact J.
  - intros i p other W -> Hp Np Ho A.
    assert (W1 : well_linked w1 = true).
    { unfold well_linked, w1. cbn [Session.habit_objects Session.decor_objects].
      rewrite replace_at_length. exact W. }
    destruct (well_linked_listed w1 p other i W1 Hp Ho) as [c Hi].
    assert (D1 : exists d1 ds1, Session.decor_objects w1 = d1 :: ds1).
    { destruct (Session.decor_objects w1) as [| d1 ds1]; [| eauto].
      destruct i; discriminate Hi. }
    destruct D1 as (d1 & ds1 & D1). rewrite D1 at 1.
    unfold Session.choose_decoration. rewrite Hi.
    destruct (linked_defined _ _ W1 0%nat) as [l El]. rewrite El.
    destruct (linked_nth _ _ _ _ _ _ El Hp) as (c' & Dc & Hl).
    rewrite Ho in Dc. cbn [Session.dereference] in Dc. rewrite Hi in Dc.
    injection Dc as <-. cbn [Nat.add] in Hl.
    destruct (decor_check_from_spec snd c (Some k) answers l l [] eq_refl)
      as [[_ C] | (pre & entry & post & _ & _ & _ & R)].
    + intros [| q] e He; discriminate He.
    + exfalso. specialize (C p _ Hl). unfold conflicts in C. cbn [snd] in C.
      rewrite eqb_decoration_refl in C.
      destruct (Nat.eqb_spec p k); [contradiction | discriminate C].
    + unfold Main.decor_check. cbn [List.length] in R. rewrite R, A.
      reflexivity.
Qed.

Lemma change_of_decoration_resets_former_witness :
  Session.edit_habit (dt 2024 1 10 13 0 0 0) 1
    (Session.NewDecoration 1 ["no"%string]) palace =
  Session.returns tt
    (Session.mk [couch; reset plant; Decoration.mk "Lamp" "Hall" "Great" (Number.PyInt 70)]
       (Session.habit_objects palace)) [].
Proof.
  destruct (change_of_decoration_resets_former (dt 2024 1 10 13 0 0 0) 1 1
              ["no"%string] palace
              (Session.mk_habit "reading" 1 (Session.Listed 1) (dt 2024 1 10 12 0 0 0) 0 3 5)
              1 plant eq_refl eq_refl eq_refl) as [_ H].
  apply (H 0%nat 0%nat
           (Session.mk_habit "running" 1 (Session.Listed 0) (dt 2024 1 10 12 0 0 0) 0 6 7));
    try reflexivity.
  discriminate.
Defined.

Lemma app_same_length {A} (l1 l1' l2 l2' : list A) :
  l1 ++ l2 = l1' ++ l2' -> List.length l1 = List.length l1' -> l1 = l1' /\ l2 = l2'.
Proof.
  revert l1'. induction l1 as [| x l1 IH]; intros [| y l1'] E L; try discriminate L.
  - split; [reflexivity | exact E].
  - cbn in E, L. injection E as -> E. injection L as L.
    destruct (IH _ E L) as [-> ->]. split; reflexivity.
Qed.

Lemma linked_conflicts decor_objects habits l d :
  Session.linked decor_objects 0 habits = Some l ->
  forall p entry,
    nth_error l p = Some entry ->
    nth_error habits p = Some (snd (fst entry)) /\
    conflicts snd d None p entry = linked_to decor_objects d (snd (fst entry)).
Proof.
  intros El p entry Hp. destruct (linked_spec _ _ _ _ El) as [M N].
  split.
  - rewrite <- M, nth_error_map, Hp. reflexivity.
  - destruct (N p entry Hp) as [_ D]. unfold conflicts, linked_to.
    rewrite D. apply andb_true_r.
Qed.

(** X26.  [create_new_habit] for the decoration at position [i] of the
    list, a periodicity from 1 to 4 and a time [now] from which that
    periodicity can advance.  The new habit has the given name and
    periodicity, the deadline one period after [now], no fails and no
    streaks, and is linked to the chosen decoration.  If no habit is
    linked to a decoration that equals the chosen one, the function asks
    nothing and returns with the new habit appended to the list.  If
    there is one, the first such habit is at stake: on the answer yes it
    is deleted, every other habit stays in place and the new habit is
    appended; on the answer no the function returns with nothing changed;
    on x or at the end of the input it does not return.  Where the habit
    is created, the chosen decoration gets exp 0 and keeps its state, and
    no other decoration changes. *)
Theorem create_new_habit_outcome now i answers name periodicity w d :
  well_linked w = true ->
  nth_error (Session.decor_objects w) i = Some d ->
  Datetime.valid now -> 1 <= periodicity <= 4 -> advanceable periodicity now ->
  exists date,
    one_period_after periodicity now date /\
    let new_habit := Session.mk_habit name periodicity (Session.Listed i) date 0 0 0 in
    let decor_objects :=
      Session.replace_at i (Decoration.set_exp (Number.PyInt 0) d)
        (Session.decor_objects w) in
    ((forall h, In h (Session.habit_objects w) ->
        linked_to (Session.decor_objects w) d h = false) ->
     Session.create_new_habit now (S i) answers name periodicity w =
       Session.returns tt
         (Session.mk decor_objects (Session.habit_objects w ++ [new_habit])) []) /\
    (forall pre h post,
       Session.habit_objects w = pre ++ h :: post ->
       (forall other, In other pre ->
          linked_to (Session.decor_objects w) d other = false) ->
       linked_to (Session.decor_objects w) d h = true ->
       Session.create_new_habit now (S i) answers name periodicity w =
         match Main.ask_yes_no answers with
         | Main.Answered true =>
             Session.returns tt (Session.mk decor_objects (pre ++ post ++ [new_habit])) []
         | Main.Answered false => Session.returns tt w []
         | Main.ToMainMenu => Some Main.ToMainMenu
         | Main.EndOfInput => Some Main.EndOfInput
         end).
Proof.
  intros W Hi V Hp A.
  destruct (init_without_date now name periodicity d 0 0 0 V Hp A)
    as (date & E & P & _).
  exists date. split; [exact P |]. cbv zeta.
  destruct (linked_defined _ _ W 0%nat) as [l El].
  destruct (linked_spec _ _ _ _ El) as [M _].
  pose proof (linked_conflicts _ _ _ d El) as C.
  unfold Session.create_new_habit. rewrite Hi, El. unfold Main.decor_check.
  destruct (decor_check_from_spec snd d None answers l l [] eq_refl)
    as [[R N] | (pre' & entry & post' & El' & Ce & Cpre & R)];
    try (intros [| q] e He; discriminate He);
    cbn [List.length] in R; rewrite R; clear R.
  - split.
    + intros _. rewrite E, M. reflexivity.
    + intros pre h post Eh _ Hh. exfalso.
      assert (Hn : nth_error (Session.habit_objects w) (List.length pre) = Some h).
      { rewrite Eh, nth_error_app2 by lia. rewrite Nat.sub_diag. reflexivity. }
      rewrite <- M, nth_error_map in Hn.
      destruct (nth_error l (List.length pre)) as [e |] eqn:He; [| discriminate Hn].
      cbn in Hn. injection Hn as <-.
      destruct (C _ _ He) as [_ Cq]. rewrite (N _ _ He), Hh in Cq. discriminate Cq.
  - assert (He : nth_error l (List.length pre') = Some entry).
    { rewrite El', nth_error_app2 by lia. rewrite Nat.sub_diag. reflexivity. }
    destruct (C _ _ He) as [Hn Cq]. rewrite Ce in Cq.
    split.
    + intros None_linked. exfalso.
      rewrite (None_linked _ (nth_error_In _ _ Hn)) in Cq. discriminate Cq.
    + intros pre h post Eh Hpre Hh.
      assert (L : List.length pre' = List.length pre).
      { destruct (Nat.lt_trichotomy (List.length pre') (List.length pre))
          as [Lt | [Eq | Gt]]; [exfalso | exact Eq | exfalso].
        - assert (In (snd (fst entry)) pre).
          { rewrite Eh, nth_error_app1 in Hn by exact Lt. exact (nth_error_In _ _ Hn). }
          rewrite (Hpre _ H) in Cq. discriminate Cq.
        - assert (Hq : nth_error pre' (List.length pre) = Some (List.nth (List.length pre) pre' entry))
            by (apply nth_error_nth'; exact Gt).
          pose proof (Cpre _ _ Hq) as Cf.
          assert (Hl : nth_error l (List.length pre) =
                       Some (List.nth (List.length pre) pre' entry)).
          { rewrite El', nth_error_app1 by exact Gt. exact Hq. }
          destruct (C _ _ Hl) as [Hn' Cq']. rewrite Cf in Cq'.
          rewrite Eh, nth_error_app2 in Hn' by lia.
          rewrite Nat.sub_diag in Hn'. cbn in Hn'. injection Hn' as Hn'.
          rewrite <- Hn', Hh in Cq'. discriminate Cq'. }
      assert (Parts : map (fun e => snd (fst e)) pre' = pre /\
                      map (fun e => snd (fst e)) post' = post).
      { rewrite <- M, El', map_app in Eh. cbn [map] in Eh.
        apply app_same_length in Eh; [| rewrite length_map; exact L].
        destruct Eh as [Epre Epost]. injection Epost as _ Epost. auto. }
      destruct Parts as [Epre Epost].
      destruct (Main.ask_yes_no answers) as [[] | |]; try reflexivity.
      rewrite E, map_app, Epre, Epost, <- app_assoc. reflexivity.
Qed.

(** The decoration of "running" is chosen for a weekly habit; the
    warning is answered with yes. *)
Lemma create_new_habit_outcome_witness :
  Session.create_new_habit (dt 2024 1 10 13 0 0 0) 1 ["yes"%string] "yoga" 2 palace =
    Session.returns tt
      (Session.mk
         [Decoration.mk "Couch" "Living Room" "Old" (Number.PyInt 0); plant;
          Decoration.mk "Lamp" "Hall" "Great" (Number.PyInt 70)]
         [Session.mk_habit "reading" 1 (Session.Listed 1) (dt 2024 1 10 12 0 0 0) 0 3 5;
          Session.mk_habit "yoga" 2 (Session.Listed 0) (dt 2024 1 17 13 0 0 0) 0 0 0])
      [] /\
  exists date, one_period_after 2 (dt 2024 1 10 13 0 0 0) date.
Proof.
  split; [reflexivity |].
  destruct (create_new_habit_outcome (dt 2024 1 10 13 0 0 0) 0 ["yes"%string]
              "yoga" 2 palace couch) as (date & P & _).
  - reflexivity.
  - reflexivity.
  - reflexivity.
  - lia.
  - split; [reflexivity | discriminate].
  - exists date. exact P.
Defined.

Lemma leaves_and_then {A B} (r : Session.result A)
    (k : A -> Session.t -> Session.result B) w' :
  leaves (Session.and_then r k) w' ->
  (exists e out, r = Some (Main.Answered (Raises e w' out))) \/
  (exists a w1 out, r = Session.returns a w1 out /\ leaves (k a w1) w').
Proof.
  unfold Session.and_then, Session.returns.
  destruct r as [[[a w1 out | e w1 out |] | |] |]; cbn [leaves]; try contradiction.
  - intros L. right. exists a, w1, out. split; [reflexivity |].
    destruct (k a w1) as [[[] | |] |]; cbn [leaves] in *; try contradiction; exact L.
  - intros <-. left. eauto.
Qed.

Lemma exclusive_same_shape w w' :
  map Session.decoration (Session.habit_objects w') =
    map Session.decoration (Session.habit_objects w) ->
  map name_and_room (Session.decor_objects w') =
    map name_and_room (Session.decor_objects w) ->
  exclusive w -> exclusive w'.
Proof.
  intros R K (F & N & D). unfold exclusive. rewrite R, K.
  assert (L : List.length (Session.decor_objects w') =
              List.length (Session.decor_objects w)).
  { rewrite <- (length_map name_and_room), K. apply length_map. }
  rewrite L. auto.
Qed.

Lemma exclusive_listed w k h :
  exclusive w -> nth_error (Session.habit_objects w) k = Some h ->
  exists i d, Session.decoration h = Session.Listed i /\
              nth_error (Session.decor_objects w) i = Some d.
Proof.
  intros (F & _ & _) Hk. rewrite Forall_forall in F.
  destruct (F (Session.decoration h)) as (i & E & L).
  - apply in_map, (nth_error_In _ _ Hk).
  - destruct (nth_error (Session.decor_objects w) i) as [d |] eqn:Hi.
    + eauto.
    + apply nth_error_None in Hi. lia.
Qed.

Lemma call_exclusive {A} k (method : M Habit.t A) w w' :
  keeps_name_and_room method ->
  exclusive w -> leaves (Session.call k method w) w' -> exclusive w'.
Proof.
  intros K X. unfold Session.call.
  destruct (nth_error (Session.habit_objects w) k) as [h |] eqn:Hk; [| contradiction].
  destruct (exclusive_listed w k h X Hk) as (i & d & Hr & Hi).
  unfold Session.object. rewrite Hr. cbn [Session.dereference]. rewrite Hi.
  set (o := Habit.mk _ _ _ _ _ _ _). specialize (K o).
  assert (P : forall o',
             name_and_room (Habit.decoration o') = name_and_room (Habit.decoration o) ->
             exclusive (Session.put k (Session.Listed i) o' w)).
  { intros o' E. apply (exclusive_same_shape w); [| | exact X];
      cbn [Session.put Session.habit_objects Session.decor_objects].
    - apply (map_replace_at _ _ _ h); [exact Hk | rewrite Hr; reflexivity].
    - apply (map_replace_at _ _ _ d); [exact Hi | exact E]. }
  destruct (method o) as [a o' out | e o' out |]; cbn [leaves];
    [intros <-; apply P, K | intros <-; apply P, K | contradiction].
Qed.

Lemma keeps_reset_decoration : keeps_name_and_room Habit.reset_decoration.
Proof. intros o. reflexivity. Qed.

Lemma keeps_set_name name : keeps_name_and_room (modify (Habit.set_name name)).
Proof. intros o. reflexivity. Qed.

Lemma keeps_edit_periodicity now p : keeps_name_and_room (Main.edit_periodicity now p).
Proof.
  intros o. rewrite edit_periodicity_unfold.
  destruct (Habit.increment_completion_date _ _); reflexivity.
Qed.

Lemma update_state_keeps d :
  match Decoration.update_state d with
  | Returns _ d' _ | Raises _ d' _ => name_and_room d' = name_and_room d
  | OutOfFuel => True
  end.
Proof.
  rewrite update_state_unfold. cbv zeta.
  destruct (String.eqb _ _); [reflexivity |].
  destruct (Decoration.index (Decoration.state d) _); [| reflexivity].
  destruct (Decoration.index (recomputed_state d) _); reflexivity.
Qed.

Lemma keeps_check_in now : keeps_name_and_room (Habit.check_in now).
Proof.
  intros o. unfold Habit.check_in.
  unfold bind at 1, get at 1. unfold bind at 1.
  destruct (Habit.completion_date_start _) as [start_ | e]; [| reflexivity].
  unfold lift at 1, ret at 1. unfold bind at 1.
  destruct (Habit.completion_date_end _) as [end_ | e]; [| reflexivity].
  unfold lift at 1, ret at 1.
  destruct (Datetime.ltb now start_); [reflexivity |].
  destruct (_ && _); [| reflexivity].
  destruct o as [n p dec0 ncd f s l].
  unfold lift, zoom, bind, get, modify, tell, raise, ret.
  mcbn.
  pose proof (update_state_keeps
    (Decoration.set_exp
       (Number.add (Decoration.exp dec0) (Number.PyInt (Habit.dict_get Habit.exp_values p 0)))
       dec0)) as U.
  destruct (Decoration.update_state _) as [[] dec out | e dec out |];
    [| exact U | exact I].
  mcbn.
  destruct (Habit.increment_completion_date _ _) as [date | e]; mcbn; [| exact U].
  destruct (l <? s + 1); mcbn; exact U.
Qed.

Lemma NoDup_map_injective {A B} (f : A -> B) l :
  NoDup (map f l) -> forall x y, In x l -> In y l -> f x = f y -> x = y.
Proof.
  induction l as [| a l IH]; cbn; intros N x y Hx Hy E; [contradiction |].
  inversion N as [| ? ? Na Nl]; subst.
  destruct Hx as [<- | Hx], Hy as [<- | Hy].
  - reflexivity.
  - exfalso. apply Na. rewrite E. apply in_map, Hy.
  - exfalso. apply Na. rewrite <- E. apply in_map, Hx.
  - apply IH; assumption.
Qed.

Lemma remove_at_split {A} k (l : list A) x :
  nth_error l k = Some x ->
  exists pre post, l = pre ++ x :: post /\ Main.remove_at k l = pre ++ post.
Proof.
  intros H. destruct (nth_error_split _ _ H) as (pre & post & -> & <-).
  exists pre, post. split; [reflexivity | apply remove_at_app].
Qed.

Lemma remove_at_out {A} k (l : list A) :
  nth_error l k = None -> Main.remove_at k l = l.
Proof.
  revert k; induction l as [| y l IH]; intros [| k]; cbn; try discriminate;
    try reflexivity.
  intros H. rewrite (IH _ H). reflexivity.
Qed.

Lemma exclusive_without decor_objects pre h post :
  exclusive (Session.mk decor_objects (pre ++ h :: post)) ->
  exclusive (Session.mk decor_objects (pre ++ post)).
Proof.
  unfold exclusive. cbn [Session.habit_objects Session.decor_objects].
  rewrite !map_app. cbn [map]. intros (F & N & D).
  split; [| split; [exact (NoDup_remove_1 _ _ _ N) | exact D]].
  apply Forall_app in F. destruct F as [F1 F2]. inversion F2; subst.
  apply Forall_app. split; assumption.
Qed.

(** What decor_check leaves when it returns [True], for habits that are
    linked to distinct decorations of a list without two decorations of
    the same name and room. *)
Lemma decor_check_exclusive decor_objects habits l i c current answers l' :
  exclusive (Session.mk decor_objects habits) ->
  Session.linked decor_objects 0 habits = Some l ->
  nth_error decor_objects i = Some c ->
  Main.decor_check snd c l current answers = Main.Answered (true, l') ->
  NoDup (map (fun e => Session.decoration (snd (fst e))) l') /\
  incl l' l /\
  (forall x y, In x l' -> In y l' -> fst (fst x) = fst (fst y) -> x = y) /\
  (forall e, In e l' ->
     match current with Some k => fst (fst e) <> k | None => True end ->
     Session.decoration (snd (fst e)) <> Session.Listed i) /\
  exclusive (Session.mk decor_objects (map (fun e => snd (fst e)) l')).
Proof.
  intros X El Hi.
  destruct (linked_spec _ _ _ _ El) as [M N].
  assert (Nl : NoDup (map (fun e => Session.decoration (snd (fst e))) l)).
  { destruct X as (_ & Nr & _). cbn [Session.habit_objects] in Nr.
    rewrite <- M, map_map in Nr. exact Nr. }
  assert (P : forall x y, In x l -> In y l -> fst (fst x) = fst (fst y) -> x = y).
  { intros x y Hx Hy E.
    apply In_nth_error in Hx, Hy. destruct Hx as [p Hp], Hy as [q Hq].
    destruct (N _ _ Hp) as [Ep _], (N _ _ Hq) as [Eq _].
    assert (p = q) by lia. subst q. rewrite Hp in Hq. injection Hq as ->. reflexivity. }
  assert (Own : forall e, In e l ->
            Session.decoration (snd (fst e)) = Session.Listed i -> snd e = c).
  { intros e He E. apply In_nth_error in He. destruct He as [p Hp].
    destruct (N _ _ Hp) as [_ D]. rewrite E in D. cbn [Session.dereference] in D.
    rewrite Hi in D. injection D as <-. reflexivity. }
  unfold Main.decor_check.
  destruct (decor_check_from_spec snd c current answers l l [] eq_refl)
    as [[R C] | (pre & e0 & post & E & C0 & _ & R)].
  - intros [| q] e He; discriminate He.
  - cbn [List.length] in R. rewrite R. intros Q. injection Q as <-.
    split; [exact Nl |]. split; [apply incl_refl |]. split; [exact P |].
    split; [| rewrite M; exact X].
    intros e He Hc Hr. pose proof (Own e He Hr) as Ec.
    apply In_nth_error in He. destruct He as [p Hp].
    destruct (N _ _ Hp) as [Ep _]. cbn [Nat.add] in Ep.
    specialize (C p e Hp). unfold conflicts in C.
    rewrite Ec, eqb_decoration_refl in C. cbn [andb] in C.
    destruct current as [k |]; [| discriminate C].
    rewrite <- Ep in C. destruct (Nat.eqb_spec (fst (fst e)) k); [contradiction | discriminate C].
  - cbn [List.length] in R. rewrite R.
    destruct (Main.ask_yes_no answers) as [[] | |]; try discriminate.
    intros Q. injection Q as <-.
    assert (Il : incl (pre ++ post) l).
    { rewrite E. intros x Hx. apply in_app_or in Hx. apply in_or_app.
      destruct Hx; [left | right; right]; assumption. }
    assert (In0 : In e0 l) by (rewrite E; apply in_elt).
    assert (Nd : NoDup l) by exact (NoDup_map_inv _ _ Nl).
    split.
    { rewrite E, map_app in Nl. cbn [map] in Nl. rewrite map_app.
      exact (NoDup_remove_1 _ _ _ Nl). }
    split; [exact Il |].
    split; [intros x y Hx Hy; apply P; apply Il; assumption |].
    split.
    + intros e He _ Hr.
      (* the habit that was deleted is the one linked to the chosen object *)
      assert (R0 : Session.decoration (snd (fst e0)) = Session.Listed i).
      { pose proof In0 as H0. apply In_nth_error in H0. destruct H0 as [p Hp].
        destruct (N _ _ Hp) as [_ D].
        assert (Hh : nth_error habits p = Some (snd (fst e0))).
        { rewrite <- M, nth_error_map, Hp. reflexivity. }
        destruct (exclusive_listed _ _ _ X Hh) as (i0 & d0 & Hr0 & Hi0).
        cbn [Session.decor_objects] in Hi0.
        rewrite Hr0 in D. cbn [Session.dereference] in D. rewrite Hi0 in D.
        injection D as D. rewrite Hr0. f_equal.
        unfold conflicts in C0. apply andb_true_iff in C0. destruct C0 as [C0 _].
        rewrite <- D in C0. unfold Decoration.eqb in C0.
        apply andb_true_iff in C0. destruct C0 as [C0 _].
        apply andb_true_iff in C0. destruct C0 as [Cn Cr].
        apply String.eqb_eq in Cn, Cr.
        destruct X as (_ & _ & Dk). cbn [Session.decor_objects] in Dk.
        rewrite NoDup_nth_error in Dk. apply Dk.
        - rewrite length_map. apply nth_error_Some. rewrite Hi0. discriminate.
        - rewrite !nth_error_map, Hi0, Hi. cbn. unfold name_and_room.
          rewrite Cn, Cr. reflexivity. }
      assert (e = e0).
      { apply (NoDup_map_injective _ _ Nl); [apply Il, He | exact In0 |].
        rewrite Hr, R0. reflexivity. }
      subst e. rewrite E in Nd. exact (NoDup_remove_2 _ _ _ Nd He).
    + rewrite map_app. apply (exclusive_without _ _ (snd (fst e0))).
      rewrite <- M, E, map_app in X. exact X.
Qed.

Lemma choose_decoration_exclusive k decoration_choice answers w w' :
  exclusive w ->
  leaves (Session.choose_decoration k decoration_choice answers w) w' ->
  exclusive w'.
Proof.
  destruct w as [decor_objects habits]. intros X.
  unfold Session.choose_decoration. cbn [Session.decor_objects Session.habit_objects].
  destruct decoration_choice as [| i]; [contradiction |].
  destruct (nth_error decor_objects i) as [c |] eqn:Hi; [| contradiction].
  destruct (Session.linked decor_objects 0 habits) as [l |] eqn:El; [| contradiction].
  destruct (Main.decor_check snd c l (Some k) answers) as [[[] l'] | |] eqn:R;
    cbn [leaves Session.returns]; try contradiction; [| intros <-; exact X].
  intros <-.
  destruct (decor_check_exclusive _ _ _ _ _ _ _ _ X El Hi R)
    as (Nl & Il & P & U & (F' & _ & D')).
  cbn [Session.habit_objects Session.decor_objects] in F', D'.
  unfold exclusive. cbn [Session.habit_objects Session.decor_objects].
  rewrite replace_at_length, (map_replace_at _ _ _ c _ Hi) by reflexivity.
  rewrite map_map in *.
  split; [| split; [| exact D']].
  - apply Forall_forall. intros r Hr. apply in_map_iff in Hr.
    destruct Hr as (e & <- & He).
    destruct (Nat.eqb (fst (fst e)) k).
    + exists i. split; [reflexivity |]. apply nth_error_Some. rewrite Hi. discriminate.
    + rewrite Forall_forall in F'. apply F'. apply in_map_iff. eauto.
  - apply NoDup_map_NoDup_ForallPairs; [| exact (NoDup_map_inv _ _ Nl)].
    intros x y Hx Hy E.
    destruct (Nat.eqb_spec (fst (fst x)) k) as [Ex | Nx],
             (Nat.eqb_spec (fst (fst y)) k) as [Ey | Ny];
      cbn [Session.decoration Session.set_decoration] in E.
    + apply P; [assumption | assumption | congruence].
    + exfalso. exact (U y Hy Ny (eq_sym E)).
    + exfalso. exact (U x Hx Nx E).
    + exact (NoDup_map_injective _ _ Nl x y Hx Hy E).
Qed.

Lemma create_new_habit_exclusive now choice answers name periodicity w w' :
  exclusive w ->
  leaves (Session.create_new_habit now choice answers name periodicity w) w' ->
  exclusive w'.
Proof.
  destruct w as [decor_objects habits]. intros X.
  unfold Session.create_new_habit. cbn [Session.decor_objects Session.habit_objects].
  destruct choice as [| i]; [contradiction |].
  destruct (nth_error decor_objects i) as [c |] eqn:Hi; [| contradiction].
  destruct (Session.linked decor_objects 0 habits) as [l |] eqn:El; [| contradiction].
  destruct (Main.decor_check snd c l None answers) as [[[] l'] | |] eqn:R;
    cbn [leaves Session.returns]; try contradiction; [| intros <-; exact X].
  destruct (decor_check_exclusive _ _ _ _ _ _ _ _ X El Hi R)
    as (Nl & Il & P & U & X').
  destruct (Habit.init _ _ _ _ _ _ _ _) as [new_habit | e]; cbn [leaves Session.returns];
    intros <-; [| exact X'].
  destruct X' as (F' & _ & D').
  cbn [Session.habit_objects Session.decor_objects] in F', D'.
  unfold exclusive. cbn [Session.habit_objects Session.decor_objects].
  rewrite replace_at_length, (map_replace_at _ _ _ c _ Hi) by reflexivity.
  rewrite map_app, map_map in *. cbn [map Session.decoration].
  split; [| split; [| exact D']].
  - apply Forall_app. split; [exact F' |].
    constructor; [| constructor].
    exists i. split; [reflexivity |]. apply nth_error_Some. rewrite Hi. discriminate.
  - apply NoDup_app; [exact Nl | repeat constructor; intros [] |].
    intros r Hr [<- | []]. apply in_map_iff in Hr. destruct Hr as (e & Er & He).
    exact (U e He I Er).
Qed.

Lemma edit_habit_exclusive now k c w w' :
  exclusive w -> leaves (Session.edit_habit now k c w) w' -> exclusive w'.
Proof.
  intros X. destruct c as [name | periodicity | decoration_choice answers |];
    cbn [Session.edit_habit].
  - apply call_exclusive; [apply keeps_set_name | exact X].
  - apply call_exclusive; [apply keeps_edit_periodicity | exact X].
  - intros L. apply leaves_and_then in L.
    destruct L as [(e & out & E) | (a & w1 & out & E & L)].
    + apply (call_exclusive k Habit.reset_decoration w);
        [apply keeps_reset_decoration | exact X | rewrite E; reflexivity].
    + assert (X1 : exclusive w1).
      { apply (call_exclusive k Habit.reset_decoration w);
          [apply keeps_reset_decoration | exact X | rewrite E; reflexivity]. }
      destruct (Session.decor_objects w1).
      * cbn in L. subst w'. exact X1.
      * exact (choose_decoration_exclusive _ _ _ _ _ X1 L).
  - intros L. apply leaves_and_then in L.
    destruct L as [(e & out & E) | (a & w1 & out & E & L)].
    + apply (call_exclusive k Habit.reset_decoration w);
        [apply keeps_reset_decoration | exact X | rewrite E; reflexivity].
    + assert (X1 : exclusive w1).
      { apply (call_exclusive k Habit.reset_decoration w);
          [apply keeps_reset_decoration | exact X | rewrite E; reflexivity]. }
      cbn in L. subst w'. destruct w1 as [decor_objects habits].
      cbn [Session.decor_objects Session.habit_objects].
      destruct (nth_error habits k) as [h |] eqn:Hk.
      * destruct (remove_at_split _ _ _ Hk) as (pre & post & Eh & ->).
        apply (exclusive_without _ _ h). rewrite <- Eh. exact X1.
      * rewrite (remove_at_out _ _ Hk). exact X1.
Qed.

Lemma reset_decorations_exclusive n :
  forall k w w',
    exclusive w -> leaves (Session.reset_decorations n k w) w' -> exclusive w'.
Proof.
  induction n as [| n IH]; intros k w w' X; cbn [Session.reset_decorations].
  - cbn. intros <-. exact X.
  - intros L. apply leaves_and_then in L.
    destruct L as [(e & out & E) | (a & w1 & out & E & L)].
    + apply (call_exclusive k Habit.reset_decoration w);
        [apply keeps_reset_decoration | exact X | rewrite E; reflexivity].
    + apply (IH (S k) w1); [| exact L].
      apply (call_exclusive k Habit.reset_decoration w);
        [apply keeps_reset_decoration | exact X | rewrite E; reflexivity].
Qed.

Lemma delete_habits_exclusive w w' :
  exclusive w -> leaves (Session.delete_habits w) w' -> exclusive w'.
Proof.
  intros X L. unfold Session.delete_habits in L. apply leaves_and_then in L.
  destruct L as [(e & out & E) | (a & w1 & out & E & L)].
  - apply (reset_decorations_exclusive (List.length (Session.habit_objects w)) 0%nat w); [exact X | rewrite E; reflexivity].
  - assert (X1 : exclusive w1).
    { apply (reset_decorations_exclusive (List.length (Session.habit_objects w)) 0%nat w); [exact X | rewrite E; reflexivity]. }
    cbn in L. subst w'. destruct X1 as (_ & _ & D).
    unfold exclusive. cbn. split; [constructor |]. split; [constructor | exact D].
Qed.

Lemma handle_check_in_exclusive now choice w w' :
  exclusive w -> leaves (Session.handle_check_in now choice w) w' -> exclusive w'.
Proof.
  intros X. unfold Session.handle_check_in.
  assert (C : forall k,
             leaves (Session.and_then (Session.call k (Habit.check_in now) w)
                       (fun _ w => Session.returns tt w [])) w' -> exclusive w').
  { intros k L. apply leaves_and_then in L.
    destruct L as [(e & out & E) | (a & w1 & out & E & L)].
    - apply (call_exclusive k (Habit.check_in now) w);
        [apply keeps_check_in | exact X | rewrite E; reflexivity].
    - cbn in L. subst w'.
      apply (call_exclusive k (Habit.check_in now) w);
        [apply keeps_check_in | exact X | rewrite E; reflexivity]. }
  destruct (Session.habit_objects w) as [| h1 [| h2 rest]].
  - cbn. intros <-. exact X.
  - apply C.
  - destruct choice as [| k]; [contradiction | apply C].
Qed.

(** X27.  One decoration for one habit.  Suppose that no two
    decorations of the list have the same name and the same room, that
    every habit is linked to a decoration of the list and that no two
    habits are linked to the same one.  Then this is so again after a
    check-in, after the creation of a habit, after any change made with
    edit_habit and after delete_habits, whether the function returns or is
    left by an exception. *)
Theorem menus_keep_links_exclusive w w' :
  exclusive w ->
  (forall now choice,
     leaves (Session.handle_check_in now choice w) w' -> exclusive w') /\
  (forall now choice answers name periodicity,
     leaves (Session.create_new_habit now choice answers name periodicity w) w' ->
     exclusive w') /\
  (forall now k c, leaves (Session.edit_habit now k c w) w' -> exclusive w') /\
  (leaves (Session.delete_habits w) w' -> exclusive w').
Proof.
  intros X. split; [| split; [| split]].
  - intros now choice. apply handle_check_in_exclusive, X.
  - intros now choice answers name periodicity.
    apply create_new_habit_exclusive, X.
  - intros now k c. apply edit_habit_exclusive, X.
  - apply delete_habits_exclusive, X.
Qed.

Lemma menus_keep_links_exclusive_witness :
  exclusive palace /\
  exclusive
    (Session.mk [reset couch; reset plant; Decoration.mk "Lamp" "Hall" "Great" (Number.PyInt 70)]
       [Session.mk_habit "reading" 1 (Session.Listed 0) (dt 2024 1 10 12 0 0 0) 0 3 5]).
Proof.
  assert (X : exclusive palace).
  { unfold exclusive, palace. cbn. split; [| split].
    - repeat constructor; eexists; (split; [reflexivity | lia]).
    - repeat constructor; cbn; intuition discriminate.
    - repeat constructor; cbn; intuition discriminate. }
  split; [exact X |].
  destruct (menus_keep_links_exclusive palace
              (Session.mk
                 [reset couch; reset plant; Decoration.mk "Lamp" "Hall" "Great" (Number.PyInt 70)]
                 [Session.mk_habit "reading" 1 (Session.Listed 0)
                    (dt 2024 1 10 12 0 0 0) 0 3 5]) X) as (_ & _ & H & _).
  apply (H (dt 2024 1 10 13 0 0 0) 1%nat (Session.NewDecoration 1 ["yes"%string])).
  reflexivity.
Defined.
